(** * Expressora landmark-stream pipeline: a shallow embedding

    Embedding of [backend/python/server/expressora_server.py]
    ([ExpressoraTranslationServicer.StreamLandmarks] and its helper
    [_calculate_hand_span]), of
    [backend/python/server/landmark_buffer.py] ([LandmarkBuffer] and
    [HandsDownDetector]) and
    of [backend/python/server/mock_classifier.py] ([MockClassifier]).

    Python floats are kept behind the interface [PyFloat]: the statements
    hold for every instance of it, whatever the rounding of its
    operations, and the concrete runs use the instance on IEEE-754 binary64
    (the Standard Library's [SpecFloat], which computes).  The classifier
    is an interface too ([Classifier]): the pipeline only consumes a label
    and a confidence, and [MockClassifier] is one instance.  A stream is
    the list of its requests, each a frame with the reading of
    [time.time()] at its arrival; a call of the handler runs to the end of
    that list or to the first exception (a client that stops reading in
    the middle of a stream is not modelled).  Log statements are left out;
    they read state but never write it. *)

From Stdlib Require Import String List ZArith Bool Arith Lia.
From Stdlib Require Import SpecFloat.
Import ListNotations.

Set Implicit Arguments.

(** ** Python's float *)

(** The operations the source files apply to floats.  [f_lit n d] is
    the literal written [n/d] in decimal (0.9 is [f_lit 9 10]);
    [f_of_nat] is the int-to-float conversion of a mixed division;
    [f_norm] is [np.linalg.norm] on a one-dimensional array.  numpy computes
    that norm as the square root of [dot(x, x)], and how the dot product is
    rounded (product by product, or fused with the additions) depends on
    the build: the norm is therefore an operation of the interface, not a
    composition of rounded products and sums. *)
Class PyFloat (F : Type) : Type := {
  f_lit : Z -> positive -> F;
  f_of_nat : nat -> F;
  f_add : F -> F -> F;
  f_sub : F -> F -> F;
  f_mul : F -> F -> F;
  f_div : F -> F -> F;
  f_norm : list F -> F;
  f_abs : F -> F;
  f_ltb : F -> F -> bool;
  f_leb : F -> F -> bool
}.

Module Binary64.
Definition prec : Z := 53.
Definition emax : Z := 1024.

Definition of_Z (z : Z) : spec_float := binary_normalize prec emax z 0 false.

(** A decimal literal is the correctly rounded quotient of two integers
    that are exact in binary64. *)
Definition lit (n : Z) (d : positive) : spec_float :=
  SFdiv prec emax (of_Z n) (of_Z (Zpos d)).

(** One way of computing the norm: the square root of the sum of the
    squares, every product and every partial sum rounded, from left to
    right. *)
Definition norm (v : list spec_float) : spec_float :=
  SFsqrt prec emax
    (fold_left (fun acc x => SFadd prec emax acc (SFmul prec emax x x))
               v (lit 0 1)).
End Binary64.

(** IEEE-754 binary64 with the norm computed by [norm]. *)
Definition binary64_with (norm : list spec_float -> spec_float)
  : PyFloat spec_float := {|
  f_lit := Binary64.lit;
  f_of_nat := fun n => Binary64.of_Z (Z.of_nat n);
  f_add := SFadd Binary64.prec Binary64.emax;
  f_sub := SFsub Binary64.prec Binary64.emax;
  f_mul := SFmul Binary64.prec Binary64.emax;
  f_div := SFdiv Binary64.prec Binary64.emax;
  f_norm := norm;
  f_abs := SFabs;
  f_ltb := SFltb;
  f_leb := SFleb
|}.

(** The instance the concrete runs compute with. *)
#[export] Instance binary64 : PyFloat spec_float :=
  binary64_with Binary64.norm.

(** ** Data model *)

(** [LandmarkFrame]: the three flat coordinate sequences of the protobuf
    message. *)
Record LandmarkFrame (F : Type) : Type := {
  hands : list F;
  face : list F;
  pose : list F
}.

Inductive EventType : Type := GLOSS | TONE | HANDS_DOWN.

Record RecognitionEvent (F : Type) : Type := {
  type : EventType;
  label : string;
  confidence : F
}.

Inductive StatusCode : Type := INTERNAL.

(** The only exception the modelled code raises by itself: reading a local
    name that no assignment has bound yet. *)
Inductive Exn : Type := UnboundLocalError (name : string).

(** The RPC context of one call: status code and details, as set by
    [context.set_code] and [context.set_details]. *)
Record ServicerContext : Type := {
  code : option StatusCode;
  details : option Exn
}.

(** The classifier consumed by the pipeline ([self.classifier]): a stateful
    object with two methods, each returning an optional label and a
    confidence. *)
Class Classifier (F C : Type) : Type := {
  classify_hands : C -> LandmarkFrame F -> (option string * F) * C;
  classify_face : C -> LandmarkFrame F -> (option string * F) * C
}.

(** ** Python list and value helpers *)

(** [l[a:b]] for [0 <= a <= b]. *)
Definition slice {A : Type} (a b : nat) (l : list A) : list A :=
  firstn (b - a) (skipn a l).

(** [l[-n:]]. *)
Definition last_n {A : Type} (n : nat) (l : list A) : list A :=
  skipn (length l - n) l.

(** Truth value of an optional string: [None] and the empty string are
    false. *)
Definition truthy (o : option string) : bool :=
  match o with
  | Some s => negb (String.eqb s EmptyString)
  | None => false
  end.

(** [a != b] between values that are [None] or strings. *)
Definition py_ne (a b : option string) : bool :=
  match a, b with
  | Some x, Some y => negb (String.eqb x y)
  | None, None => false
  | _, _ => true
  end.

Section Numeric.
Context {F : Type} {PF : PyFloat F}.

(** Built-in [max(a, b)]: the first argument unless the second is
    greater. *)
Definition py_max (a b : F) : F := if f_ltb a b then b else a.

(** [np.linalg.norm] of a one-dimensional array. *)
Definition norm (v : list F) : F := f_norm v.

(** Elementwise difference of two arrays. *)
Fixpoint array_sub (u v : list F) : list F :=
  match u, v with
  | x :: u', y :: v' => f_sub x y :: array_sub u' v'
  | _, _ => []
  end.

(** [sum(1 for x in hand_data if abs(x) > 0.001)]. *)
Definition non_zero_count (hand_data : list F) : nat :=
  length (filter (fun x => f_ltb (f_lit 1 1000) (f_abs x)) hand_data).
End Numeric.

(** ** landmark_buffer.py: LandmarkBuffer

    [max_glosses] is a Python [int], so an integer of either sign and of
    any size here; the buffer is a [deque] with [maxlen = max_glosses],
    kept as the list of its entries from the oldest to the newest. *)

Module LandmarkBuffer.
Section Buffer.
Context {F : Type} {PF : PyFloat F}.

(** [deque(maxlen=n)] converts [n] to a C [Py_ssize_t] and raises
    [OverflowError] when it does not fit (64-bit CPython: below
    [-2^63] or above [2^63 - 1]); it raises [ValueError] for a negative
    [n] that fits. *)
Inductive Error : Type :=
| OverflowError (msg : string)
| ValueError (msg : string).

Definition PY_SSIZE_T_MAX : Z := (2 ^ 63 - 1)%Z.

(** An entry: [(landmark_frame, gloss, timestamp)]. *)
Definition Entry : Type := (LandmarkFrame F * string * F)%type.

Record t : Type := {
  max_glosses : Z;
  silence_threshold : F;
  buffer : list Entry;
  last_frame_time : option F;
  last_gloss : option string
}.

Definition __init__ (max_glosses : Z) (silence_threshold : F)
  : Error + t :=
  if (max_glosses <? - PY_SSIZE_T_MAX - 1)%Z
     || (PY_SSIZE_T_MAX <? max_glosses)%Z
  then inl (OverflowError "Python int too large to convert to C ssize_t")
  else if (max_glosses <? 0)%Z
  then inl (ValueError "maxlen must be non-negative")
  else inr {| max_glosses := max_glosses;
              silence_threshold := silence_threshold;
              buffer := [];
              last_frame_time := None;
              last_gloss := None |}.

(** [deque.append] on a deque bounded by [maxlen >= 0]: the item goes
    to the right end and, if the deque is then longer than [maxlen],
    the leftmost item is dropped. *)
Definition deque_append (maxlen : Z) (d : list Entry) (x : Entry)
  : list Entry :=
  let d' := d ++ [x] in
  if (maxlen <? Z.of_nat (length d'))%Z then tl d' else d'.

(** [add_frame].  The test on the last gloss of lines 40-42 guards a
    [pass] and changes nothing. *)
Definition add_frame (self : t) (landmark_frame : LandmarkFrame F)
    (gloss : string) (timestamp : F) : t :=
  {| max_glosses := max_glosses self;
     silence_threshold := silence_threshold self;
     buffer := deque_append (max_glosses self) (buffer self)
                            (landmark_frame, gloss, timestamp);
     last_frame_time := Some timestamp;
     last_gloss := Some gloss |}.

Definition should_emit (self : t) (current_time : F) : bool :=
  if match last_frame_time self with
     | Some last =>
         let time_since_last_frame := f_sub current_time last in
         f_ltb (silence_threshold self) time_since_last_frame
     | None => false
     end
  then true
  else if (max_glosses self <=? Z.of_nat (length (buffer self)))%Z
       then true
       else false.

Definition get_buffer (self : t) : list Entry := buffer self.

Definition clear (self : t) : t :=
  {| max_glosses := max_glosses self;
     silence_threshold := silence_threshold self;
     buffer := [];
     last_frame_time := None;
     last_gloss := None |}.

Definition is_empty (self : t) : bool := length (buffer self) =? 0.
End Buffer.
Arguments t F : clear implicits.
Arguments Entry F : clear implicits.
End LandmarkBuffer.

(** ** landmark_buffer.py: HandsDownDetector *)

Module HandsDownDetector.
Section Detector.
Context {F : Type} {PF : PyFloat F}.

Record t : Type := {
  threshold_y : F;
  duration_threshold : F;
  hands_down_start : option F
}.

Definition __init__ (threshold_y duration_threshold : F) : t :=
  {| threshold_y := threshold_y;
     duration_threshold := duration_threshold;
     hands_down_start := None |}.

Definition set_hands_down_start (self : t) (v : option F) : t :=
  {| threshold_y := threshold_y self;
     duration_threshold := duration_threshold self;
     hands_down_start := v |}.

(** The wrist y-coordinate [check] compares with the threshold, for a
    list of at least 3 elements: index 1, or the larger of indices 1
    and 64 once the list holds 63 elements or more. *)
Definition wrist_y (hand_landmarks : list F) : F :=
  let wrist_y :=
    if 1 <? length hand_landmarks
    then nth 1 hand_landmarks (f_lit 0 1) else f_lit 0 1 in
  if 63 <=? length hand_landmarks then
    let second_wrist_y :=
      if 64 <? length hand_landmarks
      then nth 64 hand_landmarks (f_lit 0 1) else wrist_y in
    py_max wrist_y second_wrist_y
  else wrist_y.

Definition check (self : t) (hand_landmarks : list F) (current_time : F)
  : bool * t :=
  if (match hand_landmarks with [] => true | _ => false end)
     || (length hand_landmarks <? 3)
  then (false, set_hands_down_start self None)
  else
    if f_ltb (threshold_y self) (wrist_y hand_landmarks) then
      match hands_down_start self with
      | None => (false, set_hands_down_start self (Some current_time))
      | Some start =>
          let duration := f_sub current_time start in
          if f_ltb (duration_threshold self) duration
          then (true, self)
          else (false, self)
      end
    else (false, set_hands_down_start self None).

Definition reset (self : t) : t := set_hands_down_start self None.
End Detector.
Arguments t F : clear implicits.
End HandsDownDetector.

(** ** expressora_server.py: ExpressoraTranslationServicer *)

Section Servicer.
Context {F : Type} {PF : PyFloat F} {C : Type} {CL : Classifier F C}.

Definition CONFIDENCE_THRESHOLD : F := f_lit 9 10.

(** The attributes [__init__] gives the servicer object and
    [StreamLandmarks] reads or writes ([translator] serves
    [TranslateSequence] only).  [_min_consistent_frames] and
    [_min_movement_threshold] are assigned once in [__init__] and never
    again, so they are constants here. *)
Record Servicer : Type := {
  classifier : C;
  hands_down_detector : HandsDownDetector.t F;
  _recent_gloss_detections : list (string * F);
  _previous_hand_landmarks : option (list F);
  _last_tone_event : option string;
  _last_gloss_yielded : bool
}.

Definition _min_consistent_frames : nat := 3.
Definition _min_movement_threshold : F := f_lit 1 100.

(** [__init__], given the classifier object it constructs. *)
Definition __init__ (c : C) : Servicer :=
  {| classifier := c;
     hands_down_detector :=
       HandsDownDetector.__init__ (f_lit 9 10) (f_lit 15 10);
     _recent_gloss_detections := [];
     _previous_hand_landmarks := None;
     _last_tone_event := None;
     _last_gloss_yielded := false |}.

Definition set_classifier (v : C) (self : Servicer) : Servicer :=
  {| classifier := v;
     hands_down_detector := hands_down_detector self;
     _recent_gloss_detections := _recent_gloss_detections self;
     _previous_hand_landmarks := _previous_hand_landmarks self;
     _last_tone_event := _last_tone_event self;
     _last_gloss_yielded := _last_gloss_yielded self |}.

Definition set_hands_down_detector (v : HandsDownDetector.t F)
    (self : Servicer) : Servicer :=
  {| classifier := classifier self;
     hands_down_detector := v;
     _recent_gloss_detections := _recent_gloss_detections self;
     _previous_hand_landmarks := _previous_hand_landmarks self;
     _last_tone_event := _last_tone_event self;
     _last_gloss_yielded := _last_gloss_yielded self |}.

Definition set_recent_gloss_detections (v : list (string * F))
    (self : Servicer) : Servicer :=
  {| classifier := classifier self;
     hands_down_detector := hands_down_detector self;
     _recent_gloss_detections := v;
     _previous_hand_landmarks := _previous_hand_landmarks self;
     _last_tone_event := _last_tone_event self;
     _last_gloss_yielded := _last_gloss_yielded self |}.

Definition set_previous_hand_landmarks (v : option (list F))
    (self : Servicer) : Servicer :=
  {| classifier := classifier self;
     hands_down_detector := hands_down_detector self;
     _recent_gloss_detections := _recent_gloss_detections self;
     _previous_hand_landmarks := v;
     _last_tone_event := _last_tone_event self;
     _last_gloss_yielded := _last_gloss_yielded self |}.

Definition set_last_tone_event (v : option string) (self : Servicer)
    : Servicer :=
  {| classifier := classifier self;
     hands_down_detector := hands_down_detector self;
     _recent_gloss_detections := _recent_gloss_detections self;
     _previous_hand_landmarks := _previous_hand_landmarks self;
     _last_tone_event := v;
     _last_gloss_yielded := _last_gloss_yielded self |}.

Definition set_last_gloss_yielded (v : bool) (self : Servicer) : Servicer :=
  {| classifier := classifier self;
     hands_down_detector := hands_down_detector self;
     _recent_gloss_detections := _recent_gloss_detections self;
     _previous_hand_landmarks := _previous_hand_landmarks self;
     _last_tone_event := _last_tone_event self;
     _last_gloss_yielded := v |}.

(** *** The generator as a state, output and error monad

    What a run of the handler does that an observer can see, in order:
    the events it yields and the classifier calls it makes. *)
Inductive Action : Type :=
| Yield (e : RecognitionEvent F)
| Call_classify_hands
| Call_classify_face.

Record Outcome (A : Type) : Type := {
  trace : list Action;
  after : Servicer;
  result : Exn + A
}.

Definition Gen (A : Type) : Type := Servicer -> Outcome A.

Definition ret {A : Type} (a : A) : Gen A :=
  fun self => {| trace := []; after := self; result := inr a |}.

Definition bind {A B : Type} (m : Gen A) (k : A -> Gen B) : Gen B :=
  fun self =>
    let o := m self in
    match result o with
    | inl e => {| trace := trace o; after := after o; result := inl e |}
    | inr a =>
        let o' := k a (after o) in
        {| trace := trace o ++ trace o';
           after := after o';
           result := result o' |}
    end.

Definition get : Gen Servicer :=
  fun self => {| trace := []; after := self; result := inr self |}.

Definition modify (f : Servicer -> Servicer) : Gen unit :=
  fun self => {| trace := []; after := f self; result := inr tt |}.

Definition yield (e : RecognitionEvent F) : Gen unit :=
  fun self => {| trace := [Yield e]; after := self; result := inr tt |}.

Definition raise {A : Type} (e : Exn) : Gen A :=
  fun self => {| trace := []; after := self; result := inl e |}.
End Servicer.

Arguments Servicer F C : clear implicits.
Arguments Action F : clear implicits.
Arguments Outcome F C A : clear implicits.
Arguments Gen F C A : clear implicits.

Declare Scope gen_scope.
Delimit Scope gen_scope with gen.
Notation "x <- m ;; k" := (bind m (fun x => k))
  (at level 61, m at next level, right associativity) : gen_scope.
Notation "m ;; k" := (bind m (fun _ => k))
  (at level 61, right associativity) : gen_scope.

Section StreamLandmarks.
Context {F : Type} {PF : PyFloat F} {C : Type} {CL : Classifier F C}.
Local Open Scope gen_scope.

(** [_calculate_hand_span]. *)
Definition _calculate_hand_span (hand_chunk : list F) : F :=
  if length hand_chunk <? 39 then f_lit 0 1
  else
    let wrist := slice 0 3 hand_chunk in
    let mid_tip := slice 36 39 hand_chunk in
    norm (array_sub wrist mid_tip).

(** The value of the local names [gloss_label] and [gloss_confidence],
    which are always assigned together and live as long as the
    generator; [None] while no assignment has run. *)
Definition Locals : Type := option (option string * F).

(** Lines 109-120: the hands-down check, its event and the reset that
    follows the yield. *)
Definition hands_down_step (hand_landmarks : list F) (current_time : F)
  : Gen F C unit :=
  self <- get ;;
  let '(hands_down, detector) :=
    HandsDownDetector.check (hands_down_detector self)
                            hand_landmarks current_time in
  modify (set_hands_down_detector detector) ;;
  if hands_down then
    yield {| type := HANDS_DOWN;
             label := "hands_down";
             confidence := f_lit 1 1 |} ;;
    modify (fun self =>
      set_hands_down_detector
        (HandsDownDetector.reset (hands_down_detector self)) self)
  else ret tt.

(** Lines 132-144: the loop that sets [valid_hand_detected], over the
    remaining values of [i]; [true] is the [break]. *)
Fixpoint density_loop (hand_landmarks : list F) (range : list nat) : bool :=
  match range with
  | [] => false
  | i :: range' =>
      let hand_start := i * 63 in
      let hand_end := hand_start + 63 in
      if length hand_landmarks <? hand_end
      then density_loop hand_landmarks range'
      else
        let hand_data := slice hand_start hand_end hand_landmarks in
        if 15 <=? non_zero_count hand_data
        then true
        else density_loop hand_landmarks range'
  end.

(** Lines 155-170: the loop over all hand chunks that computes
    [(max_span, valid_span_found)]. *)
Definition span_loop (hand_landmarks : list F) (range : list nat)
  : F * bool :=
  fold_left
    (fun (acc : F * bool) i =>
       let '(max_span, valid_span_found) := acc in
       let hand_start := i * 63 in
       let hand_end := hand_start + 63 in
       if length hand_landmarks <? hand_end then acc
       else
         let hand_chunk := slice hand_start hand_end hand_landmarks in
         let span := _calculate_hand_span hand_chunk in
         let max_span := py_max max_span span in
         if f_leb (f_lit 8 100) span
         then (max_span, true)
         else (max_span, valid_span_found))
    range (f_lit 0 1, false).

(** Lines 196-202: the loop over the 21 triplets of one hand slot. *)
Definition landmark_loop (current_hand prev_hand : list F)
    (acc : F * nat) : F * nat :=
  fold_left
    (fun (acc : F * nat) j =>
       let '(total_displacement, landmark_count) := acc in
       if (j + 2 <? length current_hand) && (j + 2 <? length prev_hand)
       then
         let current_point := slice j (j + 3) current_hand in
         let prev_point := slice j (j + 3) prev_hand in
         let displacement := norm (array_sub current_point prev_point) in
         (f_add total_displacement displacement, landmark_count + 1)
       else acc)
    (map (fun k => 3 * k) (seq 0 21)) acc.

(** Lines 184-202: [(total_displacement, landmark_count)] over the hand
    slots present in both snapshots. *)
Definition displacement_loop (hand_landmarks prev : list F)
    (hand_count : nat) : F * nat :=
  fold_left
    (fun (acc : F * nat) i =>
       let hand_start := i * 63 in
       let hand_end := hand_start + 63 in
       if (length hand_landmarks <? hand_end) || (length prev <? hand_end)
       then acc
       else
         landmark_loop (slice hand_start hand_end hand_landmarks)
                       (slice hand_start hand_end prev) acc)
    (seq 0 (Nat.min hand_count (length prev / 63)))
    (f_lit 0 1, 0).

(** Lines 181-213: the value of [hands_moved]. *)
Definition hands_moved_of (hand_landmarks : list F) (hand_count : nat)
    (previous : option (list F)) : bool :=
  match previous with
  | Some prev =>
      let '(total_displacement, landmark_count) :=
        displacement_loop hand_landmarks prev hand_count in
      if 0 <? landmark_count then
        let avg_displacement :=
          f_div total_displacement (f_of_nat landmark_count) in
        f_leb _min_movement_threshold avg_displacement
      else true
  | None => true
  end.

Definition call_classify_hands (landmark_frame : LandmarkFrame F)
  : Gen F C (option string * F) :=
  fun self =>
    let '(r, c) := classify_hands (classifier self) landmark_frame in
    {| trace := [Call_classify_hands];
       after := set_classifier c self;
       result := inr r |}.

Definition call_classify_face (landmark_frame : LandmarkFrame F)
  : Gen F C (option string * F) :=
  fun self =>
    let '(r, c) := classify_face (classifier self) landmark_frame in
    {| trace := [Call_classify_face];
       after := set_classifier c self;
       result := inr r |}.

(** Lines 122-233: hand presence, density, span and motion checks and the
    classifier call; the result is the new value of the locals.  The
    [hand_count == 0] branch is [pass]: it assigns nothing. *)
Definition classify_step (landmark_frame : LandmarkFrame F)
    (hand_landmarks : list F) (hand_count : nat) (locals : Locals)
  : Gen F C Locals :=
  if hand_count =? 0 then ret locals
  else
    let valid_hand_detected :=
      density_loop hand_landmarks (seq 0 hand_count) in
    if negb valid_hand_detected then
      modify (set_previous_hand_landmarks None) ;;
      ret (Some (None, f_lit 0 1))
    else if valid_hand_detected then
      let '(max_span, valid_span_found) :=
        span_loop hand_landmarks (seq 0 hand_count) in
      if negb valid_span_found then
        modify (set_previous_hand_landmarks None) ;;
        ret (Some (None, f_lit 0 1))
      else
        self <- get ;;
        let hands_moved :=
          hands_moved_of hand_landmarks hand_count
                         (_previous_hand_landmarks self) in
        modify (set_previous_hand_landmarks
                  (match hand_landmarks with
                   | [] => None
                   | _ => Some hand_landmarks
                   end)) ;;
        if hands_moved then
          r <- call_classify_hands landmark_frame ;;
          ret (Some r)
        else ret (Some (None, f_lit 0 1))
    else
      modify (set_previous_hand_landmarks None) ;;
      ret (Some (None, f_lit 0 1)).

(** Reading [gloss_label] (and then [gloss_confidence]) at line 236. *)
Definition read_gloss (locals : Locals) : Gen F C (option string * F) :=
  match locals with
  | Some v => ret v
  | None => raise (UnboundLocalError "gloss_label")
  end.

(** Lines 236-271: the multi-frame validation of the gloss. *)
Definition gloss_step (locals : Locals) : Gen F C unit :=
  v <- read_gloss locals ;;
  let '(gloss_label, gloss_confidence) := v in
  if truthy gloss_label && f_leb CONFIDENCE_THRESHOLD gloss_confidence then
    modify (fun self =>
      set_recent_gloss_detections
        (_recent_gloss_detections self
           ++ [(match gloss_label with Some s => s | None => EmptyString end,
                gloss_confidence)]) self) ;;
    modify (fun self =>
      if 5 <? length (_recent_gloss_detections self)
      then set_recent_gloss_detections
             (tl (_recent_gloss_detections self)) self
      else self) ;;
    self <- get ;;
    if _min_consistent_frames <=? length (_recent_gloss_detections self)
    then
      let recent_labels :=
        map fst (last_n _min_consistent_frames
                        (_recent_gloss_detections self)) in
      if length (nodup string_dec recent_labels) =? 1 then
        let validated_label := hd EmptyString recent_labels in
        yield {| type := GLOSS;
                 label := validated_label;
                 confidence := gloss_confidence |} ;;
        modify (set_recent_gloss_detections []) ;;
        modify (set_last_gloss_yielded true)
      else modify (set_recent_gloss_detections [])
    else ret tt
  else ret tt.

(** Lines 275-290: tone classification, gated by [_last_gloss_yielded]. *)
Definition tone_step (landmark_frame : LandmarkFrame F) : Gen F C unit :=
  self <- get ;;
  if _last_gloss_yielded self then
    r <- call_classify_face landmark_frame ;;
    let '(tone_label, tone_confidence) := r in
    (if truthy tone_label && f_leb (f_lit 8 10) tone_confidence then
       self <- get ;;
       if py_ne (_last_tone_event self) tone_label then
         yield {| type := TONE;
                  label := match tone_label with
                           | Some s => s
                           | None => EmptyString
                           end;
                  confidence := tone_confidence |} ;;
         modify (set_last_tone_event tone_label)
       else ret tt
     else ret tt) ;;
    modify (set_last_gloss_yielded false)
  else ret tt.

(** One iteration of [for landmark_frame in request_iterator], with
    [current_time] the reading of [time.time()]. *)
Definition loop_body (landmark_frame : LandmarkFrame F) (current_time : F)
    (locals : Locals) : Gen F C Locals :=
  let hand_landmarks :=
    match hands landmark_frame with
    | [] => []
    | _ => hands landmark_frame
    end in
  let hand_count :=
    match hand_landmarks with
    | [] => 0
    | _ => length hand_landmarks / 63
    end in
  hands_down_step hand_landmarks current_time ;;
  locals <- classify_step landmark_frame hand_landmarks hand_count locals ;;
  gloss_step locals ;;
  tone_step landmark_frame ;;
  ret locals.

(** The [for] loop over the request iterator: each request is a frame
    with the clock reading at its arrival.  The value is that of the
    locals when the loop is left. *)
Fixpoint for_frames (request_iterator : list (LandmarkFrame F * F))
    (locals : Locals) : Gen F C Locals :=
  match request_iterator with
  | [] => ret locals
  | (landmark_frame, current_time) :: rest =>
      locals <- loop_body landmark_frame current_time locals ;;
      for_frames rest locals
  end.

(** What one call of [StreamLandmarks] leaves behind. *)
Record StreamResult : Type := {
  actions : list (Action F);
  servicer : Servicer F C;
  context : ServicerContext
}.

(** [StreamLandmarks]: reset of the detector, then the loop inside
    [try ... except Exception]. *)
Definition StreamLandmarks (request_iterator : list (LandmarkFrame F * F))
    (ctx : ServicerContext) (self : Servicer F C) : StreamResult :=
  let o :=
    (modify (fun self =>
       set_hands_down_detector
         (HandsDownDetector.reset (hands_down_detector self)) self) ;;
     for_frames request_iterator None) self in
  match result o with
  | inr _ => {| actions := trace o; servicer := after o; context := ctx |}
  | inl e =>
      {| actions := trace o;
         servicer := after o;
         context := {| code := Some INTERNAL; details := Some e |} |}
  end.

(** The actions of a run, frame by frame: one list per request consumed,
    up to and including the one that raises. *)
Fixpoint frame_traces (request_iterator : list (LandmarkFrame F * F))
    (locals : Locals) (self : Servicer F C) : list (list (Action F)) :=
  match request_iterator with
  | [] => []
  | (landmark_frame, current_time) :: rest =>
      let o := loop_body landmark_frame current_time locals self in
      trace o ::
      match result o with
      | inr locals' => frame_traces rest locals' (after o)
      | inl _ => []
      end
  end.

(** The servicer as line 87 leaves it, before the first request. *)
Definition stream_start (self : Servicer F C) : Servicer F C :=
  set_hands_down_detector
    (HandsDownDetector.reset (hands_down_detector self)) self.

(** The actions of a call of [StreamLandmarks], frame by frame. *)
Definition stream_frames (request_iterator : list (LandmarkFrame F * F))
    (self : Servicer F C) : list (list (Action F)) :=
  frame_traces request_iterator None (stream_start self).

(** The events among the actions. *)
Definition events (tr : list (Action F)) : list (RecognitionEvent F) :=
  flat_map (fun a => match a with Yield e => [e] | _ => [] end) tr.

Definition events_of (ty : EventType) (tr : list (Action F))
  : list (RecognitionEvent F) :=
  filter (fun e => match type e, ty with
                   | GLOSS, GLOSS | TONE, TONE | HANDS_DOWN, HANDS_DOWN => true
                   | _, _ => false
                   end) (events tr).
End StreamLandmarks.

(** ** mock_classifier.py: MockClassifier

    The classifier [__init__] constructs.  Its answers come from the
    module [random]; the generator is modelled by the draws it is going
    to give, held with the classifier: the values [random.random()] will
    return and the indices [random.choice] will pick.  [time.sleep] only
    moves the clock, whose readings are inputs of the stream, so
    [processing_delay] is left out, as is [gloss_history], which no method
    reads or writes. *)

Module MockClassifier.
Section Mock.
Context {F : Type} {PF : PyFloat F}.

Definition SAMPLE_GLOSSES : list string :=
  ["HELLO"; "THANK_YOU"; "YES"; "NO"; "PLEASE"; "SORRY"; "GOODBYE";
   "HOW"; "WHAT"; "WHERE"; "WHEN"; "WHY"; "WHO"; "NAME"; "NICE";
   "MEET"; "YOU"; "I"; "LOVE"; "FRIEND"; "FAMILY"; "HOME"; "SCHOOL";
   "WORK"; "FOOD"; "WATER"; "HELP"; "STOP"; "GO"; "COME"; "SEE";
   "HEAR"; "KNOW"; "THINK"; "FEEL"; "HAPPY"; "SAD"; "ANGRY";
   "TIRED"]%string.

Definition TONES : list string :=
  ["neutral"; "question"; "exclamation"; "statement"]%string.

Record Random : Type := {
  unit_draws : list F;
  index_draws : list nat
}.

(** [random.random()]. *)
Definition random (g : Random) : F * Random :=
  match unit_draws g with
  | x :: rest =>
      (x, {| unit_draws := rest; index_draws := index_draws g |})
  | [] => (f_lit 0 1, g)
  end.

(** [random.choice(seq)], for a non-empty [seq]. *)
Definition choice (seq : list string) (g : Random) : string * Random :=
  match index_draws g with
  | n :: rest =>
      (nth (n mod length seq) seq EmptyString,
       {| unit_draws := unit_draws g; index_draws := rest |})
  | [] => (nth 0 seq EmptyString, g)
  end.

(** [random.uniform(a, b)]: [a + (b - a) * random()]. *)
Definition uniform (a b : F) (g : Random) : F * Random :=
  let '(r, g) := random g in
  (f_add a (f_mul (f_sub b a) r), g).

Record t : Type := {
  last_gloss : option string;
  rng : Random
}.

Definition __init__ (g : Random) : t := {| last_gloss := None; rng := g |}.

(** Lines 63-72 of [classify_hands]: the search for a hand with at
    least 15 coordinates above 0.001 in magnitude. *)
Fixpoint valid_hand_loop (hand_landmarks : list F) (range : list nat)
  : bool :=
  match range with
  | [] => false
  | i :: range' =>
      let hand_start := i * 63 in
      let hand_end := hand_start + 63 in
      let hand_data := slice hand_start hand_end hand_landmarks in
      if 15 <=? non_zero_count hand_data
      then true
      else valid_hand_loop hand_landmarks range'
  end.

Definition classify_hands (self : t) (landmark_frame : LandmarkFrame F)
  : (option string * F) * t :=
  match hands landmark_frame with
  | [] => ((None, f_lit 0 1), self)
  | _ =>
      let hand_landmarks := hands landmark_frame in
      let hand_count := length hand_landmarks / 63 in
      if hand_count =? 0 then ((None, f_lit 0 1), self)
      else if negb (valid_hand_loop hand_landmarks (seq 0 hand_count))
      then ((None, f_lit 0 1), self)
      else
        let '(gloss, g) :=
          if truthy (last_gloss self) then
            let '(r, g) := random (rng self) in
            if f_ltb r (f_lit 3 10)
            then (match last_gloss self with
                  | Some s => s
                  | None => EmptyString
                  end, g)
            else choice SAMPLE_GLOSSES g
          else choice SAMPLE_GLOSSES (rng self) in
        let '(confidence, g) := uniform (f_lit 90 100) (f_lit 99 100) g in
        ((Some gloss, confidence), {| last_gloss := Some gloss; rng := g |})
  end.

Definition classify_face (self : t) (landmark_frame : LandmarkFrame F)
  : (option string * F) * t :=
  let face_count :=
    match face landmark_frame with
    | [] => 0
    | _ => length (face landmark_frame) / 3
    end in
  if face_count =? 0 then ((None, f_lit 0 1), self)
  else
    let '(tone, g) := choice TONES (rng self) in
    let '(confidence, g) := uniform (f_lit 85 100) (f_lit 95 100) g in
    let tone_tag :=
      if String.prefix "/" tone then tone else String.append "/" tone in
    ((Some tone_tag, confidence),
     {| last_gloss := last_gloss self; rng := g |}).
(** [classify], the legacy entry point: the two classifiers on the
    first frame of the list. *)
Definition classify (self : t) (landmark_frames : list (LandmarkFrame F))
  : (list (string * F * string) * string) * t :=
  match landmark_frames with
  | [] => (([], "neutral"%string), self)
  | frame :: _ =>
      let '((gloss, gloss_conf), self) := classify_hands self frame in
      let '((tone, tone_conf), self) := classify_face self frame in
      let tone_or_neutral :=
        if truthy tone
        then match tone with Some s => s | None => EmptyString end
        else "neutral"%string in
      let glosses :=
        if truthy gloss
        then [(match gloss with Some s => s | None => EmptyString end,
               gloss_conf, tone_or_neutral)]
        else [] in
      let dominant_tone := tone_or_neutral in
      let dominant_tone :=
        if String.prefix "/" dominant_tone then dominant_tone
        else String.append "/" dominant_tone in
      ((glosses, dominant_tone), self)
  end.

(** [build_sentence]: the glosses joined by spaces, with the
    punctuation mark the tone of the first gloss selects. *)
Definition build_sentence (glosses : list (string * F * string))
  : string :=
  match glosses with
  | [] => EmptyString
  | first :: _ =>
      let sentence_parts := map (fun gloss => fst (fst gloss)) glosses in
      let sentence := String.concat " " sentence_parts in
      let dominant_tone := snd first in
      if String.eqb dominant_tone "question"
      then String.append sentence "?"
      else if String.eqb dominant_tone "exclamation"
      then String.append sentence "!"
      else String.append sentence "."
  end.
End Mock.
Arguments t F : clear implicits.
Arguments Random F : clear implicits.
End MockClassifier.

#[export] Instance mock_classifier {F : Type} {PF : PyFloat F}
  : Classifier F (MockClassifier.t F) := {
  classify_hands := MockClassifier.classify_hands;
  classify_face := MockClassifier.classify_face
}.

(** ** Notions the statements use *)

Section Notions.
Context {F : Type} {PF : PyFloat F}.

(** The [i]-th 63-float hand sub-block of a hands sequence. *)
Definition hand_block (hand_landmarks : list F) (i : nat) : list F :=
  slice (i * 63) (i * 63 + 63) hand_landmarks.

(** Number of complete hand sub-blocks. *)
Definition hand_blocks (hand_landmarks : list F) : nat :=
  length hand_landmarks / 63.

(** Density check of one sub-block: at least 15 coordinates above 0.001
    in magnitude. *)
Definition dense (block : list F) : bool := 15 <=? non_zero_count block.

(** Span check of one sub-block: wrist-to-middle-fingertip distance of
    0.08 or more. *)
Definition wide (block : list F) : bool :=
  f_leb (f_lit 8 100) (_calculate_hand_span block).

(** The triplet of coordinates that starts at position [p]. *)
Definition triplet (l : list F) (p : nat) : list F := slice p (p + 3) l.

(** Euclidean displacement between the [k]-th landmarks of hand slot
    [i] in two snapshots. *)
Definition displacement_at (current previous : list F) (i k : nat) : F :=
  norm (array_sub (triplet current (i * 63 + 3 * k))
                  (triplet previous (i * 63 + 3 * k))).

(** Displacements of the 21 landmarks of every hand slot that both
    snapshots hold, slot by slot. *)
Definition matching_displacements (current previous : list F) : list F :=
  flat_map (fun i => map (displacement_at current previous i) (seq 0 21))
           (seq 0 (Nat.min (hand_blocks current) (hand_blocks previous))).

(** Average per-landmark displacement: the sum of the displacements over
    their number. *)
Definition average_displacement (current previous : list F) : F :=
  f_div (fold_left f_add (matching_displacements current previous)
                   (f_lit 0 1))
        (f_of_nat (length (matching_displacements current previous))).

(** The outcome of the validator for a hands sequence: some sub-block
    passed the density loop and some sub-block passed the span loop. *)
Definition has_valid_hand (hand_landmarks : list F) : bool :=
  density_loop hand_landmarks (seq 0 (hand_blocks hand_landmarks))
  && snd (span_loop hand_landmarks (seq 0 (hand_blocks hand_landmarks))).

(** The gloss buffer after the append of line 239 and the eviction of
    lines 242-243. *)
Definition ring_append (buffer : list (string * F)) (x : string * F)
  : list (string * F) :=
  if 5 <? length (buffer ++ [x]) then tl (buffer ++ [x]) else buffer ++ [x].

(** The event of line 113. *)
Definition hands_down_event : RecognitionEvent F :=
  {| type := HANDS_DOWN; label := "hands_down"; confidence := f_lit 1 1 |}.

(** An action is the yield of an event of type [ty]. *)
Definition yields (ty : EventType) (a : Action F) : Prop :=
  exists e, a = Yield e /\ type e = ty.

(** The face classifier runs in an iteration exactly when the iteration
    yields a GLOSS event, right after the yield. *)
Definition tone_follows_gloss (tr : list (Action F)) : Prop :=
  (In Call_classify_face tr <-> Exists (yields GLOSS) tr) /\
  (In Call_classify_face tr ->
   exists pre e post,
     tr = pre ++ Yield e :: Call_classify_face :: post /\ type e = GLOSS).

(** Labels of the TONE events of a trace, in order. *)
Definition tone_labels (tr : list (Action F)) : list string :=
  map (@label F) (events_of TONE tr).

(** No label equals the one before it, [last] being the one before the
    first. *)
Fixpoint no_repeat (last : option string) (labels : list string) : Prop :=
  match labels with
  | [] => True
  | l :: rest => last <> Some l /\ no_repeat (Some l) rest
  end.

Definition last_label (last : option string) (labels : list string)
  : option string :=
  fold_left (fun _ l => Some l) labels last.

(** The servicer's detector has the thresholds [__init__] gives it. *)
Definition detector_configured {C : Type} (self : Servicer F C) : Prop :=
  HandsDownDetector.threshold_y (hands_down_detector self) = f_lit 9 10 /\
  HandsDownDetector.duration_threshold (hands_down_detector self)
    = f_lit 15 10.

(** The test of line 139 of landmark_buffer.py for a timer started at
    the clock reading [start] and a check at the reading [t]: whether the
    difference the program computes exceeds the duration threshold. *)
Definition dwelt (d : HandsDownDetector.t F) (start t : F) : bool :=
  f_ltb (HandsDownDetector.duration_threshold d) (f_sub t start).

(** The two tests [check] makes on the hands of a frame before it looks
    at the timer (lines 123 and 133): three floats or more, and a wrist
    y-coordinate found above the threshold. *)
Definition wrist_lowered (d : HandsDownDetector.t F)
    (hand_landmarks : list F) : bool :=
  (3 <=? length hand_landmarks)
  && f_ltb (HandsDownDetector.threshold_y d)
           (HandsDownDetector.wrist_y hand_landmarks).

(** Every request carries at least one full hand block, and the wrist
    y-coordinate the detector looks at passes the test of line 133: the
    program finds it above the threshold. *)
Definition lowered_hands (d : HandsDownDetector.t F)
    (reqs : list (LandmarkFrame F * F)) : Prop :=
  Forall (fun r =>
            (63 <= length (hands (fst r))) /\
            (f_ltb (HandsDownDetector.threshold_y d)
                   (HandsDownDetector.wrist_y (hands (fst r))) = true))
         reqs.

(** A dwell the program finds no longer than the duration threshold:
    lowered hands, and the test of line 139 fails for every reading
    against the first one. *)
Definition short_dwell (d : HandsDownDetector.t F)
    (reqs : list (LandmarkFrame F * F)) : Prop :=
  lowered_hands d reqs /\
  match reqs with
  | [] => True
  | first :: rest =>
      Forall (fun r => dwelt d (snd first) (snd r) = false) rest
  end.

(** A dwell the program finds longer than the duration threshold, once:
    lowered hands; after the first request, requests on which the test
    of line 139 against the first reading fails, then a request on which
    it holds; and what follows that request is a short dwell of its
    own. *)
Definition long_dwell (d : HandsDownDetector.t F)
    (reqs : list (LandmarkFrame F * F)) : Prop :=
  lowered_hands d reqs /\
  exists first waiting r rest,
    reqs = first :: waiting ++ r :: rest /\
    Forall (fun r' => dwelt d (snd first) (snd r') = false) waiting /\
    dwelt d (snd first) (snd r) = true /\
    short_dwell d rest.

(** What the statement on identical snapshots uses of the float
    arithmetic, for a set [null] of values that holds every difference
    [x - x] (in IEEE arithmetic: the zeros and not-a-number, the
    difference of an infinity and itself being not a number): [null]
    holds the literal 0.0, it is closed under addition, under division
    of its values by any value and under the norm of arrays of its
    values, and none of its values is found to be 0.01 or more. *)
Definition static_arithmetic (null : F -> bool) : Prop :=
  null (f_lit 0 1) = true /\
  (forall x, null (f_sub x x) = true) /\
  (forall x y, null x = true -> null y = true -> null (f_add x y) = true) /\
  (forall x y, null x = true -> null (f_div x y) = true) /\
  (forall v, Forall (fun x => null x = true) v -> null (norm v) = true) /\
  (forall x, null x = true -> f_leb (f_lit 1 100) x = false).
End Notions.

(** The hands-down stage alone, run over the requests from detector [d]:
    the number of detections, each followed by the reset of line 120. *)
Fixpoint detections {F : Type} {PF : PyFloat F} (d : HandsDownDetector.t F)
    (reqs : list (LandmarkFrame F * F)) : nat :=
  match reqs with
  | [] => 0
  | (frame, t) :: rest =>
      let cd := HandsDownDetector.check d (hands frame) t in
      if fst cd
      then S (detections (HandsDownDetector.reset (snd cd)) rest)
      else detections (snd cd) rest
  end.

(** The detector after the same run. *)
Fixpoint detector_after {F : Type} {PF : PyFloat F}
    (d : HandsDownDetector.t F) (reqs : list (LandmarkFrame F * F))
  : HandsDownDetector.t F :=
  match reqs with
  | [] => d
  | (frame, t) :: rest =>
      let cd := HandsDownDetector.check d (hands frame) t in
      if fst cd
      then detector_after (HandsDownDetector.reset (snd cd)) rest
      else detector_after (snd cd) rest
  end.

(** Every request carries at least one full hand block. *)
Definition full_hands {F : Type} (reqs : list (LandmarkFrame F * F)) : Prop :=
  Forall (fun r => 63 <= length (hands (fst r))) reqs.

(** A binary64 value that is a zero or not a number. *)
Definition zero_or_nan (x : spec_float) : bool :=
  match x with
  | S754_zero _ | S754_nan => true
  | _ => false
  end.

(** ** Test doubles and sample inputs *)

(** A classifier without state that gives the same two answers on every
    frame. *)
Definition const_classifier {F : Type} (h fc : option string * F)
  : Classifier F unit :=
  {| classify_hands := fun c _ => (h, c);
     classify_face := fun c _ => (fc, c) |}.

Definition no_context : ServicerContext := {| code := None; details := None |}.

Module Sample.
Section Frames.
Context {F : Type} {PF : PyFloat F}.

(** One hand block: every coordinate is [a], except the x-coordinate
    of the middle fingertip (index 36), which is [b]. *)
Definition hand (a b : F) : list F := repeat a 36 ++ [b] ++ repeat a 26.

Definition frame (hs : list F) : LandmarkFrame F :=
  {| hands := hs; face := []; pose := [] |}.

(** Two open hands at different places. *)
Definition open_a : list F := hand (f_lit 1 2) (f_lit 3 4).
Definition open_b : list F := hand (f_lit 1 4) (f_lit 1 2).

(** A hand collapsed to one point: dense, zero span. *)
Definition ghost : list F := hand (f_lit 1 2) (f_lit 1 2).

(** A block that is zero except for one coordinate: sparse, wide. *)
Definition sparse : list F := hand (f_lit 0 1) (f_lit 1 2).

(** An open hand low in the image (wrist y = 0.95). *)
Definition lowered : list F := hand (f_lit 95 100) (f_lit 1 2).

Definition hello : Classifier F unit :=
  const_classifier (Some "HELLO"%string, f_lit 95 100)
                   (Some "/question"%string, f_lit 9 10).
End Frames.
End Sample.

(** Binary64 servicer states used as concrete inputs. *)
Module SampleState.
Definition c95 : spec_float := f_lit 95 100.

(** A servicer whose gloss buffer already holds two detections of
    HELLO. *)
Definition two_hellos : Servicer spec_float unit :=
  set_recent_gloss_detections
    [("HELLO"%string, c95); ("HELLO"%string, c95)]
    (__init__ tt).

Definition t0 : spec_float := f_lit 0 1.

(** One collapsed hand: dense, zero span. *)
Definition ghost_frame : LandmarkFrame spec_float :=
  Sample.frame Sample.ghost.

(** One block with a single non-zero coordinate. *)
Definition sparse_frame : LandmarkFrame spec_float :=
  Sample.frame Sample.sparse.

(** Two blocks: a collapsed dense hand, then a sparse block whose
    fingertip lies half the image away from its wrist. *)
Definition ghost_and_sparse_frame : LandmarkFrame spec_float :=
  Sample.frame (Sample.ghost ++ Sample.sparse).

Definition t1 : spec_float := f_lit 1 10.

(** Two frames with one open hand each, at different places. *)
Definition open_a_frame : LandmarkFrame spec_float :=
  Sample.frame Sample.open_a.
Definition open_b_frame : LandmarkFrame spec_float :=
  Sample.frame Sample.open_b.

(** A frame without hands. *)
Definition no_hands_frame : LandmarkFrame spec_float := Sample.frame [].

Definition t2 : spec_float := f_lit 2 10.
Definition t3 : spec_float := f_lit 3 10.

(** Four frames of a hand that moves back and forth. *)
Definition waving : list (LandmarkFrame spec_float * spec_float) :=
  [(open_a_frame, t0); (open_b_frame, t1);
   (open_a_frame, t2); (open_b_frame, t3)].

(** Two frames of a moving hand, then a frame without hands. *)
Definition hand_then_none : list (LandmarkFrame spec_float * spec_float) :=
  [(open_a_frame, t0); (open_b_frame, t1); (no_hands_frame, t2)].

(** Two connections served one after the other. *)
Definition connection_a : list (LandmarkFrame spec_float * spec_float) :=
  [(open_a_frame, t0); (open_b_frame, t1)].
Definition connection_b : list (LandmarkFrame spec_float * spec_float) :=
  [(open_a_frame, t2)].

Definition hello_gloss : RecognitionEvent spec_float :=
  {| type := GLOSS; label := "HELLO"; confidence := c95 |}.
Definition question_tone : RecognitionEvent spec_float :=
  {| type := TONE; label := "/question"; confidence := f_lit 9 10 |}.

(** A lowered hand seen every tenth of a second, [n + 1] times. *)
Definition lowered_for (n : nat)
  : list (LandmarkFrame spec_float * spec_float) :=
  map (fun k => (Sample.frame Sample.lowered, f_lit (Z.of_nat k) 10))
      (seq 0 (S n)).

(** The frames above with a face in them, and the draws that make the
    repository's classifier answer HELLO three times (index 0, then
    0.1 < 0.3 twice, with 0.5 for each confidence) and then /question
    (index 1). *)
Definition with_face (frame : LandmarkFrame spec_float)
  : LandmarkFrame spec_float :=
  {| hands := hands frame;
     face := [f_lit 1 2; f_lit 1 2; f_lit 1 2];
     pose := pose frame |}.

Definition draws : MockClassifier.Random spec_float :=
  {| MockClassifier.unit_draws :=
       [f_lit 1 2; f_lit 1 10; f_lit 1 2; f_lit 1 10; f_lit 1 2; f_lit 1 2];
     MockClassifier.index_draws := [0; 1] |}.

Definition faces (reqs : list (LandmarkFrame spec_float * spec_float))
  : list (LandmarkFrame spec_float * spec_float) :=
  map (fun r => (with_face (fst r), snd r)) reqs.

Definition mock_servicer
  : Servicer spec_float (MockClassifier.t spec_float) :=
  __init__ (MockClassifier.__init__ draws).
End SampleState.

(** ** Notions of the pipeline invariants *)

Section Invariants.
Context {F : Type} {PF : PyFloat F}.

(** What the three [RecognitionEvent] constructions of
    [StreamLandmarks] can produce: the fixed HANDS_DOWN event, a GLOSS
    event with a non-empty label and a confidence of 0.90 or more, a
    TONE event with a non-empty label and a confidence of 0.80 or
    more. *)
Definition event_ok (e : RecognitionEvent F) : Prop :=
  match type e with
  | HANDS_DOWN => e = hands_down_event
  | GLOSS =>
      label e <> EmptyString /\
      f_leb CONFIDENCE_THRESHOLD (confidence e) = true
  | TONE =>
      label e <> EmptyString /\ f_leb (f_lit 8 10) (confidence e) = true
  end.

(** The actions of one iteration in the order of the loop body: the
    HANDS_DOWN event, the call of the hand classifier, the GLOSS event,
    the call of the face classifier and the TONE event, each at most
    once, and a TONE event only after a call of the face classifier. *)
Definition frame_shape (tr : list (Action F)) : Prop :=
  exists hd ch gl tn,
    tr = hd ++ ch ++ gl ++ tn /\
    (hd = [] \/ hd = [Yield hands_down_event]) /\
    (ch = [] \/ ch = [Call_classify_hands]) /\
    (gl = [] \/ exists e, gl = [Yield e] /\ type e = GLOSS) /\
    (tn = [] \/ tn = [Call_classify_face] \/
     exists e, tn = [Call_classify_face; Yield e] /\ type e = TONE).

(** The snapshot of the previous hands, when there is one, holds at
    least one full hand block. *)
Definition snapshot_ok {C : Type} (self : Servicer F C) : Prop :=
  match _previous_hand_landmarks self with
  | None => True
  | Some prev => 63 <= length prev
  end.

(** A run of [add_frame] calls, oldest first. *)
Definition add_frames (b : LandmarkBuffer.t F)
    (xs : list (LandmarkBuffer.Entry F)) : LandmarkBuffer.t F :=
  fold_left
    (fun b x => LandmarkBuffer.add_frame b (fst (fst x)) (snd (fst x))
                                         (snd x))
    xs b.

(** The tags [classify_face] can build from [TONES]. *)
Definition TONE_TAGS : list string :=
  map (String.append "/") MockClassifier.TONES.

(** The label the mock classifier remembers, if any, is one of
    [SAMPLE_GLOSSES]. *)
Definition remembers_sample (m : MockClassifier.t F) : Prop :=
  match MockClassifier.last_gloss m with
  | None => True
  | Some g => In g MockClassifier.SAMPLE_GLOSSES
  end.

(** The locals hold no label or one of [SAMPLE_GLOSSES]. *)
Definition sample_locals (locals : Locals (F := F)) : Prop :=
  match locals with
  | Some (Some g, _) => In g MockClassifier.SAMPLE_GLOSSES
  | _ => True
  end.

(** An event whose label, if it is a GLOSS or a TONE event, is one the
    mock classifier can give. *)
Definition sample_event (e : RecognitionEvent F) : Prop :=
  match type e with
  | GLOSS => In (label e) MockClassifier.SAMPLE_GLOSSES
  | TONE => In (label e) TONE_TAGS
  | HANDS_DOWN => True
  end.
End Invariants.

(** A run of frames that each pass the density and span checks and the
    motion check against the hands of the frame before, the first one
    against [previous]. *)
Fixpoint moving_hands {F : Type} {PF : PyFloat F} (previous : option (list F))
    (reqs : list (LandmarkFrame F * F)) : Prop :=
  match reqs with
  | [] => True
  | (frame, _) :: rest =>
      has_valid_hand (hands frame) = true /\
      hands_moved_of (hands frame) (hand_blocks (hands frame)) previous = true
      /\ moving_hands (Some (hands frame)) rest
  end.

(** ** Further sample inputs *)

Module MoreSamples.
(** A lowered hand at the given tenths of a second. *)
Definition lowered_at (tenths : list nat)
  : list (LandmarkFrame spec_float * spec_float) :=
  map (fun k => (Sample.frame Sample.lowered, f_lit (Z.of_nat k) 10))
      tenths.

(** A hand lowered from 0 s to 1.6 s, raised at 1.7 s and lowered again
    from 1.8 s to 3.4 s. *)
Definition first_dwell : list (LandmarkFrame spec_float * spec_float) :=
  lowered_at (seq 0 17).
Definition raised : LandmarkFrame spec_float * spec_float :=
  (SampleState.open_a_frame, f_lit 17 10).
Definition second_dwell : list (LandmarkFrame spec_float * spec_float) :=
  lowered_at (seq 18 17).

(** A detector with the thresholds of the servicer whose timer was
    started at time 0. *)
Definition armed : HandsDownDetector.t spec_float :=
  HandsDownDetector.set_hands_down_start
    (HandsDownDetector.__init__ (f_lit 9 10) (f_lit 15 10))
    (Some (f_lit 0 1)).

(** A lowered hand seen at time 0 and again one second later. *)
Definition one_second : list (LandmarkFrame spec_float * spec_float) :=
  lowered_at [0; 10].

(** Three calls of [add_frame]. *)
Definition three_entries : list (LandmarkBuffer.Entry spec_float) :=
  [(SampleState.open_a_frame, "HELLO"%string, SampleState.t0);
   (SampleState.open_b_frame, "HELLO"%string, SampleState.t1);
   (SampleState.open_a_frame, "YES"%string, SampleState.t2)].
End MoreSamples.

(** * Verification *)

Unset Implicit Arguments.

(** ** The steps in closed form *)

Section StepLemmas.
Context {F : Type} {PF : PyFloat F} {C : Type} {CL : Classifier F C}.
Implicit Types (self : Servicer F C) (locals : @Locals F).

Lemma hands_down_step_eq hl t self :
  hands_down_step hl t self =
    let cd := HandsDownDetector.check (hands_down_detector self) hl t in
    if fst cd
    then {| trace := [Yield hands_down_event];
            after := set_hands_down_detector
                       (HandsDownDetector.reset (snd cd)) self;
            result := inr tt |}
    else {| trace := [];
            after := set_hands_down_detector (snd cd) self;
            result := inr tt |}.
Proof.
  unfold hands_down_step, bind, get, modify, yield, ret. cbn.
  destruct (HandsDownDetector.check _ _ _) as [b d]. cbn.
  destruct b; reflexivity.
Qed.

Lemma classify_step_eq frame hl hc locals self :
  classify_step frame hl hc locals self =
    if hc =? 0 then {| trace := []; after := self; result := inr locals |}
    else if density_loop hl (seq 0 hc) && snd (span_loop hl (seq 0 hc)) then
      let self' :=
        set_previous_hand_landmarks
          (match hl with [] => None | _ => Some hl end) self in
      if hands_moved_of hl hc (_previous_hand_landmarks self) then
        let rc := classify_hands (classifier self) frame in
        {| trace := [Call_classify_hands];
           after := set_classifier (snd rc) self';
           result := inr (Some (fst rc)) |}
      else {| trace := [];
              after := self';
              result := inr (Some (None, f_lit 0 1)) |}
    else {| trace := [];
            after := set_previous_hand_landmarks None self;
            result := inr (Some (None, f_lit 0 1)) |}.
Proof.
  unfold classify_step.
  destruct (hc =? 0); [reflexivity|].
  destruct (density_loop hl (seq 0 hc)); cbn [negb andb]; [|reflexivity].
  destruct (span_loop hl (seq 0 hc)) as [max_span found]; cbn [snd].
  destruct found; cbn [negb]; [|reflexivity].
  unfold bind, get, modify, ret, call_classify_hands. cbn.
  destruct (hands_moved_of hl hc (_previous_hand_landmarks self)); cbn;
    [|reflexivity].
  destruct (classify_hands (classifier self) frame) as [r c]; reflexivity.
Qed.

Lemma gloss_step_eq locals self :
  gloss_step locals self =
    match locals with
    | None => {| trace := [];
                 after := self;
                 result := inl (UnboundLocalError "gloss_label") |}
    | Some (gloss_label, gloss_confidence) =>
        if truthy gloss_label && f_leb CONFIDENCE_THRESHOLD gloss_confidence
        then
          let buffer :=
            ring_append (_recent_gloss_detections self)
              (match gloss_label with Some s => s | None => EmptyString end,
               gloss_confidence) in
          if 3 <=? length buffer then
            if length (nodup string_dec (map fst (last_n 3 buffer))) =? 1
            then {| trace :=
                      [Yield {| type := GLOSS;
                                label := hd EmptyString
                                            (map fst (last_n 3 buffer));
                                confidence := gloss_confidence |}];
                    after := set_last_gloss_yielded true
                               (set_recent_gloss_detections [] self);
                    result := inr tt |}
            else {| trace := [];
                    after := set_recent_gloss_detections [] self;
                    result := inr tt |}
          else {| trace := [];
                  after := set_recent_gloss_detections buffer self;
                  result := inr tt |}
        else {| trace := []; after := self; result := inr tt |}
    end.
Proof.
  destruct locals as [[gloss_label gloss_confidence]|]; [|reflexivity].
  unfold gloss_step, read_gloss, bind, get, modify, yield, ret.
  cbn -[Nat.ltb Nat.leb Nat.eqb last_n nodup].
  destruct (truthy gloss_label && _); [|reflexivity].
  cbv zeta. unfold ring_append, _min_consistent_frames.
  cbn -[Nat.ltb Nat.leb Nat.eqb last_n nodup].
  destruct (5 <? length _); cbn -[Nat.ltb Nat.leb Nat.eqb last_n nodup];
    (destruct (3 <=? length _); cbn -[Nat.ltb Nat.leb Nat.eqb last_n nodup];
     [|reflexivity]);
    (destruct (length (nodup _ _) =? 1); reflexivity).
Qed.

Lemma tone_step_eq frame self :
  tone_step frame self =
    if _last_gloss_yielded self then
      let rc := classify_face (classifier self) frame in
      let self' := set_classifier (snd rc) self in
      if truthy (fst (fst rc)) && f_leb (f_lit 8 10) (snd (fst rc))
         && py_ne (_last_tone_event self) (fst (fst rc))
      then {| trace :=
                [Call_classify_face;
                 Yield {| type := TONE;
                          label := match fst (fst rc) with
                                   | Some s => s
                                   | None => EmptyString
                                   end;
                          confidence := snd (fst rc) |}];
              after := set_last_gloss_yielded false
                         (set_last_tone_event (fst (fst rc)) self');
              result := inr tt |}
      else {| trace := [Call_classify_face];
              after := set_last_gloss_yielded false self';
              result := inr tt |}
    else {| trace := []; after := self; result := inr tt |}.
Proof.
  unfold tone_step, bind, get, modify, yield, ret, call_classify_face. cbn.
  destruct (_last_gloss_yielded self); [|reflexivity].
  destruct (classify_face (classifier self) frame) as [[tone_label conf] c].
  cbn.
  destruct (truthy tone_label && f_leb (f_lit 8 10) conf); cbn;
    [|reflexivity].
  destruct (py_ne (_last_tone_event self) tone_label); reflexivity.
Qed.
End StepLemmas.

Section LoopBody.
Context {F : Type} {PF : PyFloat F} {C : Type} {CL : Classifier F C}.
Implicit Types (self : Servicer F C) (locals : @Locals F).

Lemma classify_step_result frame hl hc locals self :
  exists locals',
    result (classify_step frame hl hc locals self) = inr locals' /\
    (hc <> 0 -> locals' <> None) /\
    (hc = 0 -> locals' = locals).
Proof.
  rewrite classify_step_eq.
  destruct (Nat.eqb_spec hc 0) as [E|E].
  - exists locals. cbn. intuition congruence.
  - destruct (_ && _); [destruct (hands_moved_of _ _ _)|]; cbn;
      eexists; (split; [reflexivity|]); split; congruence.
Qed.

Lemma hands_down_step_result hl t self :
  result (hands_down_step hl t self) = inr tt.
Proof.
  rewrite hands_down_step_eq. cbv zeta.
  destruct (fst _); reflexivity.
Qed.

Lemma tone_step_result frame self :
  result (tone_step frame self) = inr tt.
Proof.
  rewrite tone_step_eq.
  destruct (_last_gloss_yielded self); [|reflexivity].
  cbv zeta. destruct (_ && _); reflexivity.
Qed.

(** One iteration, as the four steps in sequence. *)
Lemma loop_body_eq frame t locals self :
  loop_body frame t locals self =
    let hl := hands frame in
    let o1 := hands_down_step hl t self in
    let o2 := classify_step frame hl (hand_blocks hl) locals (after o1) in
    match result o2 with
    | inl e => {| trace := trace o1 ++ trace o2;
                  after := after o2;
                  result := inl e |}
    | inr locals' =>
        let o3 := gloss_step locals' (after o2) in
        match result o3 with
        | inl e => {| trace := trace o1 ++ trace o2 ++ trace o3;
                      after := after o3;
                      result := inl e |}
        | inr _ =>
            let o4 := tone_step frame (after o3) in
            {| trace := trace o1 ++ trace o2 ++ trace o3 ++ trace o4;
               after := after o4;
               result := inr locals' |}
        end
    end.
Proof.
  unfold loop_body.
  replace (match hands frame with [] => [] | _ => hands frame end)
    with (hands frame) by (destruct (hands frame); reflexivity).
  replace (match hands frame with [] => 0 | _ => length (hands frame) / 63 end)
    with (hand_blocks (hands frame))
    by (unfold hand_blocks; destruct (hands frame); reflexivity).
  pose proof (hands_down_step_result (hands frame) t self) as R1.
  unfold bind. cbv zeta.
  destruct (hands_down_step (hands frame) t self) as [tr1 s1 r1].
  cbn [result trace after] in *. subst r1.
  destruct (classify_step _ _ _ _ s1) as [tr2 s2 [e|locals']];
    cbn [result trace after]; [reflexivity|].
  destruct (gloss_step locals' s2) as [tr3 s3 [e|[]]];
    cbn [result trace after]; [reflexivity|].
  pose proof (tone_step_result frame s3) as R4.
  destruct (tone_step frame s3) as [tr4 s4 r4].
  cbn [result trace after] in *. subst r4.
  cbn [result trace after ret]. rewrite app_nil_r. reflexivity.
Qed.
End LoopBody.

(** ** What each step touches and what it emits *)

Section Frames.
Context {F : Type} {PF : PyFloat F} {C : Type} {CL : Classifier F C}.
Implicit Types (self : Servicer F C) (locals : @Locals F).

Lemma hands_down_step_frame hl t self :
  let s' := after (hands_down_step hl t self) in
  classifier s' = classifier self /\
  _recent_gloss_detections s' = _recent_gloss_detections self /\
  _previous_hand_landmarks s' = _previous_hand_landmarks self /\
  _last_tone_event s' = _last_tone_event self /\
  _last_gloss_yielded s' = _last_gloss_yielded self.
Proof.
  rewrite hands_down_step_eq. cbv zeta.
  destruct (fst _); cbn; repeat split.
Qed.

Lemma hands_down_step_trace hl t self :
  trace (hands_down_step hl t self) =
    if fst (HandsDownDetector.check (hands_down_detector self) hl t)
    then [Yield hands_down_event] else [].
Proof.
  rewrite hands_down_step_eq. cbv zeta. destruct (fst _); reflexivity.
Qed.

Lemma hands_down_step_detector hl t self :
  hands_down_detector (after (hands_down_step hl t self)) =
    let cd := HandsDownDetector.check (hands_down_detector self) hl t in
    if fst cd then HandsDownDetector.reset (snd cd) else snd cd.
Proof.
  rewrite hands_down_step_eq. cbv zeta. destruct (fst _); reflexivity.
Qed.

Lemma classify_step_frame frame hl hc locals self :
  let s' := after (classify_step frame hl hc locals self) in
  hands_down_detector s' = hands_down_detector self /\
  _recent_gloss_detections s' = _recent_gloss_detections self /\
  _last_tone_event s' = _last_tone_event self /\
  _last_gloss_yielded s' = _last_gloss_yielded self.
Proof.
  rewrite classify_step_eq. cbv zeta.
  destruct (hc =? 0); [cbn; repeat split|].
  destruct (_ && _); [destruct (hands_moved_of _ _ _)|];
    cbn; repeat split.
Qed.

Lemma classify_step_trace frame hl hc locals self :
  trace (classify_step frame hl hc locals self) = [] \/
  trace (classify_step frame hl hc locals self) = [Call_classify_hands].
Proof.
  rewrite classify_step_eq. cbv zeta.
  destruct (hc =? 0); [now left|].
  destruct (_ && _); [destruct (hands_moved_of _ _ _)|]; cbn; auto.
Qed.

(** What [classify_step] calls, returns and leaves as snapshot depends
    on the servicer only through the previous snapshot and the
    classifier. *)
Lemma classify_step_agree frame hl hc locals self self' :
  _previous_hand_landmarks self' = _previous_hand_landmarks self ->
  classifier self' = classifier self ->
  let o' := classify_step frame hl hc locals self' in
  let o := classify_step frame hl hc locals self in
  trace o' = trace o /\
  result o' = result o /\
  _previous_hand_landmarks (after o') = _previous_hand_landmarks (after o).
Proof.
  intros EP EC. cbv zeta. rewrite !classify_step_eq. cbv zeta.
  rewrite EP, EC.
  destruct (hc =? 0); [cbn; auto|].
  destruct (_ && _); [destruct (hands_moved_of _ _ _)|]; cbn; auto.
Qed.

Lemma gloss_step_frame locals self :
  let s' := after (gloss_step locals self) in
  classifier s' = classifier self /\
  hands_down_detector s' = hands_down_detector self /\
  _previous_hand_landmarks s' = _previous_hand_landmarks self /\
  _last_tone_event s' = _last_tone_event self.
Proof.
  rewrite gloss_step_eq. cbv zeta.
  destruct locals as [[gloss_label gloss_confidence]|];
    [|cbn; repeat split].
  destruct (_ && _); [|cbn; repeat split].
  destruct (3 <=? _); [|cbn; repeat split].
  destruct (_ =? 1); cbn; repeat split.
Qed.

(** The three ways [gloss_step] ends: the unbound read, silence, or one
    GLOSS event with the flag raised. *)
Lemma gloss_step_cases locals self :
  let o := gloss_step locals self in
  (locals = None /\ trace o = [] /\ after o = self /\
   result o = inl (UnboundLocalError "gloss_label")) \/
  (locals <> None /\ trace o = [] /\ result o = inr tt /\
   _last_gloss_yielded (after o) = _last_gloss_yielded self) \/
  (locals <> None /\ result o = inr tt /\
   _last_gloss_yielded (after o) = true /\
   exists l c, trace o = [Yield {| type := GLOSS; label := l;
                                   confidence := c |}]).
Proof.
  rewrite gloss_step_eq. cbv zeta.
  destruct locals as [[gloss_label gloss_confidence]|]; [right|now left].
  destruct (_ && _); [|left; cbn; repeat split; congruence].
  destruct (3 <=? _); [|left; cbn; repeat split; congruence].
  destruct (_ =? 1); [right|left]; cbn; repeat split; try congruence.
  eauto.
Qed.

Lemma tone_step_frame frame self :
  let s' := after (tone_step frame self) in
  hands_down_detector s' = hands_down_detector self /\
  _previous_hand_landmarks s' = _previous_hand_landmarks self /\
  _recent_gloss_detections s' = _recent_gloss_detections self.
Proof.
  rewrite tone_step_eq. cbv zeta.
  destruct (_last_gloss_yielded self); [|cbn; repeat split].
  destruct (_ && _); cbn; repeat split.
Qed.

(** [tone_step] does nothing unless the flag is up; when it is, it calls
    the face classifier, may yield one TONE event, and lowers the flag. *)
Lemma tone_step_cases frame self :
  let o := tone_step frame self in
  (_last_gloss_yielded self = false /\ trace o = [] /\ after o = self) \/
  (_last_gloss_yielded self = true /\
   _last_gloss_yielded (after o) = false /\
   (trace o = [Call_classify_face] \/
    exists l c, trace o = [Call_classify_face;
                           Yield {| type := TONE; label := l;
                                    confidence := c |}])).
Proof.
  rewrite tone_step_eq. cbv zeta.
  destruct (_last_gloss_yielded self); [right|now left].
  destruct (_ && _); cbn; repeat split; eauto.
Qed.

(** One iteration: either the gloss read raises after the first two
    steps, or all four steps run. *)
Lemma loop_body_struct frame t locals self :
  let o := loop_body frame t locals self in
  let o1 := hands_down_step (hands frame) t self in
  let o2 := classify_step frame (hands frame) (hand_blocks (hands frame))
                          locals (after o1) in
  exists locals',
    result o2 = inr locals' /\
    let o3 := gloss_step locals' (after o2) in
    let o4 := tone_step frame (after o3) in
    ((locals' = None /\
      result o = inl (UnboundLocalError "gloss_label") /\
      trace o = trace o1 ++ trace o2 /\
      after o = after o2) \/
     (locals' <> None /\
      result o = inr locals' /\
      result o3 = inr tt /\
      trace o = trace o1 ++ trace o2 ++ trace o3 ++ trace o4 /\
      after o = after o4)).
Proof.
  cbv zeta. rewrite loop_body_eq. cbv zeta.
  destruct (classify_step_result frame (hands frame)
              (hand_blocks (hands frame)) locals
              (after (hands_down_step (hands frame) t self)))
    as (locals' & R2 & _).
  exists locals'. split; [exact R2|]. rewrite R2.
  destruct (gloss_step_cases locals' (after
    (classify_step frame (hands frame) (hand_blocks (hands frame)) locals
       (after (hands_down_step (hands frame) t self)))))
    as [(E & T3 & A3 & R3)|[(E & T3 & R3 & _)|(E & R3 & _)]];
    rewrite R3; [left|right|right]; cbn [trace after result].
  - rewrite T3, A3, app_nil_r. auto.
  - auto.
  - auto.
Qed.
End Frames.

(** ** Lists *)

Section ListFacts.
Context {A : Type}.

Lemma last_n_all (n : nat) (l : list A) : length l <= n -> last_n n l = l.
Proof.
  intros H. unfold last_n.
  replace (length l - n) with 0 by lia. reflexivity.
Qed.

Lemma last_n_snoc (n : nat) (l : list A) (x : A) :
  0 < n -> In x (last_n n (l ++ [x])).
Proof.
  intros H. unfold last_n. rewrite skipn_app.
  apply in_or_app. right.
  rewrite length_app. cbn [length].
  replace (length l + 1 - n - length l) with 0 by lia.
  now left.
Qed.

Lemma tl_snoc (l : list A) (x : A) :
  l <> [] -> tl (l ++ [x]) = tl l ++ [x].
Proof. destruct l; [congruence|reflexivity]. Qed.
End ListFacts.

(** [len(set(labels)) == 1]: the list is not empty and holds one label
    only. *)
Lemma one_label_iff (labels : list string) :
  (length (nodup string_dec labels) =? 1) = true <->
  labels <> [] /\ exists l, forall x, In x labels -> x = l.
Proof.
  rewrite Nat.eqb_eq. split.
  - intros H.
    destruct (nodup string_dec labels) as [|a [|b r]] eqn:E;
      try discriminate.
    split.
    + intros ->. discriminate.
    + exists a. intros x Hx.
      apply (nodup_In string_dec) in Hx. rewrite E in Hx.
      destruct Hx as [->|[]]. reflexivity.
  - intros [Hne [l Hl]].
    pose proof (NoDup_nodup string_dec labels) as ND.
    assert (Hin : forall x, In x (nodup string_dec labels) -> x = l).
    { intros x Hx. apply Hl. apply (nodup_In string_dec). exact Hx. }
    destruct (nodup string_dec labels) as [|a [|b r]] eqn:E.
    + destruct labels as [|x xs]; [congruence|].
      assert (In x (nodup string_dec (x :: xs)))
        by (apply nodup_In; now left).
      rewrite E in H. destruct H.
    + reflexivity.
    + exfalso. inversion ND as [|? ? Hnot _]; subst.
      apply Hnot. left.
      rewrite (Hin a), (Hin b); cbn; auto.
Qed.

(** ** The gloss buffer *)

Section GlossBuffer.
Context {F : Type} {PF : PyFloat F}.

Lemma ring_append_snoc (buffer : list (string * F)) (x : string * F) :
  exists b, ring_append buffer x = b ++ [x].
Proof.
  unfold ring_append.
  destruct (5 <? length (buffer ++ [x])) eqn:E.
  - exists (tl buffer). apply tl_snoc.
    apply Nat.ltb_lt in E. rewrite length_app in E. cbn in E.
    destruct buffer; cbn in E; [lia|congruence].
  - now exists buffer.
Qed.

(** With at most five entries before, the buffer holds the five most
    recent ones after. *)
Lemma ring_append_capacity (buffer : list (string * F)) (x : string * F) :
  length buffer <= 5 ->
  ring_append buffer x = last_n 5 (buffer ++ [x]).
Proof.
  intros H. unfold ring_append.
  destruct (5 <? length (buffer ++ [x])) eqn:E.
  - apply Nat.ltb_lt in E. unfold last_n.
    rewrite length_app in *. cbn [length] in *.
    replace (length buffer + 1 - 5) with 1 by lia.
    destruct buffer; reflexivity.
  - apply Nat.ltb_ge in E. now rewrite last_n_all.
Qed.

Lemma ring_append_recent (buffer : list (string * F)) (x : string * F) :
  In x (last_n 3 (ring_append buffer x)).
Proof.
  destruct (ring_append_snoc buffer x) as [b ->].
  apply last_n_snoc. lia.
Qed.
End GlossBuffer.

(** ** GlossConsistencyValidator *)

Section GlossRule.
Context {F : Type} {PF : PyFloat F} {C : Type}.
Implicit Types (self : Servicer F C).

(** The decision of [gloss_step] on a classifier output that passes
    the guard of line 236. *)
Lemma gloss_step_rule self (label : string) (conf : F) :
  label <> EmptyString ->
  f_leb CONFIDENCE_THRESHOLD conf = true ->
  let buffer := ring_append (_recent_gloss_detections self) (label, conf) in
  let o := gloss_step (Some (Some label, conf)) self in
  result o = inr tt /\
  (length (_recent_gloss_detections self) <= 5 ->
   buffer = last_n 5 (_recent_gloss_detections self ++ [(label, conf)])) /\
  (3 <= length buffer ->
   (forall x, In x (last_n 3 buffer) -> fst x = label) ->
   trace o = [Yield {| type := GLOSS; label := label; confidence := conf |}]
   /\ _recent_gloss_detections (after o) = []
   /\ _last_gloss_yielded (after o) = true) /\
  (3 <= length buffer ->
   (exists x, In x (last_n 3 buffer) /\ fst x <> label) ->
   trace o = []
   /\ _recent_gloss_detections (after o) = []
   /\ _last_gloss_yielded (after o) = _last_gloss_yielded self) /\
  (length buffer < 3 ->
   trace o = []
   /\ _recent_gloss_detections (after o) = buffer
   /\ _last_gloss_yielded (after o) = _last_gloss_yielded self).
Proof.
  intros Hlabel Hconf buffer o.
  assert (Htruthy : truthy (Some label) = true).
  { cbn. destruct (String.eqb_spec label EmptyString); [contradiction|].
    reflexivity. }
  assert (Hrecent : In label (map fst (last_n 3 buffer))).
  { apply in_map_iff. exists (label, conf). split; [reflexivity|].
    apply ring_append_recent. }
  subst o. rewrite gloss_step_eq. rewrite Htruthy, Hconf.
  cbn [andb]. cbv zeta. fold buffer.
  split.
  { destruct (3 <=? length buffer); [destruct (_ =? 1)|]; reflexivity. }
  split.
  { apply ring_append_capacity. }
  split; [|split].
  - intros Hlen Hsame.
    apply Nat.leb_le in Hlen. rewrite Hlen.
    assert (E : (length (nodup string_dec (map fst (last_n 3 buffer))) =? 1)
                = true).
    { apply one_label_iff. split.
      - intros E. rewrite E in Hrecent. destruct Hrecent.
      - exists label. intros x Hx.
        apply in_map_iff in Hx. destruct Hx as (y & <- & Hy). auto. }
    rewrite E. cbn.
    assert (Hhd : hd EmptyString (map fst (last_n 3 buffer)) = label).
    { destruct (map fst (last_n 3 buffer)) as [|a r] eqn:El;
        [destruct Hrecent|].
      cbn. apply one_label_iff in E. destruct E as [_ [l Hl]].
      rewrite (Hl a), (Hl label); auto. now left. }
    rewrite Hhd. auto.
  - intros Hlen (x & Hx & Hne).
    apply Nat.leb_le in Hlen. rewrite Hlen.
    destruct (length (nodup string_dec (map fst (last_n 3 buffer))) =? 1)
      eqn:E; [|cbn; auto].
    exfalso. apply one_label_iff in E. destruct E as [_ [l Hl]].
    apply Hne. rewrite (Hl (fst x)), (Hl label); auto.
    apply in_map. exact Hx.
  - intros Hlen. apply Nat.leb_gt in Hlen. rewrite Hlen. cbn. auto.
Qed.
End GlossRule.


(** ** Actions of one iteration *)

Section Actions.
Context {F : Type} {PF : PyFloat F} {C : Type} {CL : Classifier F C}.
Implicit Types (self : Servicer F C) (locals : @Locals F).

Lemma events_of_app ty (a b : list (Action F)) :
  events_of ty (a ++ b) = events_of ty a ++ events_of ty b.
Proof.
  unfold events_of, events. now rewrite flat_map_app, filter_app.
Qed.

Lemma hands_down_step_actions hl t self a :
  In a (trace (hands_down_step hl t self)) -> a = Yield hands_down_event.
Proof.
  rewrite hands_down_step_trace.
  destruct (fst _); cbn; intuition congruence.
Qed.

Lemma classify_step_actions frame hl hc locals self a :
  In a (trace (classify_step frame hl hc locals self)) ->
  a = Call_classify_hands.
Proof.
  destruct (classify_step_trace frame hl hc locals self) as [-> | ->];
    cbn; intuition congruence.
Qed.

Lemma gloss_step_actions locals self a :
  In a (trace (gloss_step locals self)) -> yields GLOSS a.
Proof.
  destruct (gloss_step_cases locals self)
    as [(_ & -> & _)|[(_ & -> & _)|(_ & _ & _ & l & c & ->)]];
    cbn; try tauto.
  intros [<-|[]]. eexists; split; reflexivity.
Qed.

Lemma tone_step_actions frame self a :
  In a (trace (tone_step frame self)) ->
  a = Call_classify_face \/ yields TONE a.
Proof.
  destruct (tone_step_cases frame self)
    as [(_ & -> & _)|(_ & _ & [-> | (l & c & ->)])];
    cbn; try tauto.
  - intuition congruence.
  - intros [<-|[<-|[]]]; [now left|right].
    eexists; split; reflexivity.
Qed.

Lemma yields_not_call ty (a : Action F) :
  yields ty a -> a <> Call_classify_hands /\ a <> Call_classify_face.
Proof. intros (e & -> & _). split; discriminate. Qed.

(** The hand classifier is called in an iteration exactly when
    [classify_step] calls it, the snapshot the iteration leaves is the one
    [classify_step] leaves, and so are the locals. *)
Lemma loop_body_classify frame t locals self :
  let o := loop_body frame t locals self in
  let oc := classify_step frame (hands frame) (hand_blocks (hands frame))
                          locals self in
  (In Call_classify_hands (trace o) <-> In Call_classify_hands (trace oc))
  /\ _previous_hand_landmarks (after o) = _previous_hand_landmarks (after oc)
  /\ (forall l, result oc = inr (Some l) -> result o = inr (Some l)).
Proof.
  cbv zeta.
  destruct (loop_body_struct frame t locals self) as (locals' & R2 & H).
  cbv zeta in H.
  pose proof (hands_down_step_frame (hands frame) t self) as HF.
  cbv zeta in HF. destruct HF as (HC & _ & HP & _).
  destruct (classify_step_agree frame (hands frame)
              (hand_blocks (hands frame)) locals self
              (after (hands_down_step (hands frame) t self)) HP HC)
    as (ET & ER & EP).
  rewrite <- ET, <- ER, <- EP, R2.
  set (o1 := hands_down_step (hands frame) t self) in *.
  set (o2 := classify_step frame (hands frame) (hand_blocks (hands frame))
                           locals (after o1)) in *.
  set (o3 := gloss_step locals' (after o2)) in *.
  set (o4 := tone_step frame (after o3)) in *.
  assert (N1 : ~ In Call_classify_hands (trace o1)).
  { intros Hin. apply hands_down_step_actions in Hin. discriminate. }
  assert (N3 : ~ In Call_classify_hands (trace o3)).
  { intros Hin. apply gloss_step_actions, yields_not_call in Hin. tauto. }
  assert (N4 : ~ In Call_classify_hands (trace o4)).
  { intros Hin. apply tone_step_actions in Hin.
    destruct Hin as [Hin|Hin]; [discriminate|].
    apply yields_not_call in Hin. tauto. }
  destruct H as [(-> & R & T & A)|(NN & R & R3 & T & A)];
    rewrite T, A, R.
  - rewrite in_app_iff. repeat split; try tauto. discriminate.
  - rewrite !in_app_iff.
    pose proof (gloss_step_frame locals' (after o2)) as G.
    pose proof (tone_step_frame frame (after o3)) as T4.
    cbv zeta in G, T4. fold o3 in G. fold o4 in T4.
    destruct G as (_ & _ & G & _). destruct T4 as (_ & T4 & _).
    repeat split; try tauto. congruence.
Qed.
End Actions.

(** ** FrameValidator: density and span *)

Section FrameValidator.
Context {F : Type} {PF : PyFloat F} {C : Type} {CL : Classifier F C}.
Implicit Types (self : Servicer F C) (locals : @Locals F).

Lemma hand_blocks_bound (hl : list F) (i : nat) :
  i < hand_blocks hl -> i * 63 + 63 <= length hl.
Proof.
  unfold hand_blocks. intros H.
  pose proof (Nat.Div0.mul_div_le (length hl) 63). nia.
Qed.

Lemma hand_block_length (hl : list F) (i : nat) :
  i < hand_blocks hl -> length (hand_block hl i) = 63.
Proof.
  intros H. apply hand_blocks_bound in H.
  unfold hand_block, slice. rewrite length_firstn, length_skipn. lia.
Qed.

Lemma density_loop_true_iff (hl : list F) (range : list nat) :
  (forall i, In i range -> i < hand_blocks hl) ->
  density_loop hl range = true <->
  exists i, In i range /\ dense (hand_block hl i) = true.
Proof.
  induction range as [|i range IH]; intros Hr; cbn [density_loop].
  - split; [discriminate|]. intros (i & [] & _).
  - pose proof (hand_blocks_bound hl i (Hr i (or_introl eq_refl))) as Hb.
    cbv zeta. destruct (Nat.ltb_spec (length hl) (i * 63 + 63)); [lia|].
    fold (hand_block hl i). fold (dense (hand_block hl i)).
    destruct (dense (hand_block hl i)) eqn:E.
    + split; [|reflexivity]. intros _. exists i. split; [now left|exact E].
    + rewrite IH by (intros j Hj; apply Hr; now right).
      split; intros (j & Hj & Hd).
      * exists j. split; [now right|exact Hd].
      * destruct Hj as [<-|Hj]; [congruence|]. now exists j.
Qed.

Lemma span_loop_found_iff (hl : list F) (range : list nat)
    (acc : F * bool) :
  (forall i, In i range -> i < hand_blocks hl) ->
  snd (fold_left
         (fun (acc : F * bool) i =>
            let '(max_span, valid_span_found) := acc in
            let hand_start := i * 63 in
            let hand_end := hand_start + 63 in
            if length hl <? hand_end then acc
            else
              let hand_chunk := slice hand_start hand_end hl in
              let span := _calculate_hand_span hand_chunk in
              let max_span := py_max max_span span in
              if f_leb (f_lit 8 100) span
              then (max_span, true)
              else (max_span, valid_span_found))
         range acc) = true <->
  snd acc = true \/ exists i, In i range /\ wide (hand_block hl i) = true.
Proof.
  revert acc. induction range as [|i range IH]; intros acc Hr;
    cbn [fold_left].
  - split; [now left|]. intros [H|(i & [] & _)]. exact H.
  - rewrite IH by (intros j Hj; apply Hr; now right).
    pose proof (hand_blocks_bound hl i (Hr i (or_introl eq_refl))) as Hb.
    destruct acc as [max_span found]. cbv zeta.
    destruct (Nat.ltb_spec (length hl) (i * 63 + 63)); [lia|].
    fold (hand_block hl i). fold (wide (hand_block hl i)).
    destruct (wide (hand_block hl i)) eqn:E; cbn [snd].
    + split; intros _; [right; exists i; split; [now left|exact E]
                       |now left].
    + split; intros [H'|(j & Hj & Hw)]; auto.
      * right. exists j. split; [now right|exact Hw].
      * destruct Hj as [<-|Hj]; [congruence|]. right. now exists j.
Qed.

Lemma span_loop_true_iff (hl : list F) :
  snd (span_loop hl (seq 0 (hand_blocks hl))) = true <->
  exists i, i < hand_blocks hl /\ wide (hand_block hl i) = true.
Proof.
  unfold span_loop. rewrite span_loop_found_iff.
  - cbn [snd]. split.
    + intros [H|(i & Hi & Hw)]; [discriminate|].
      apply in_seq in Hi. exists i. split; [lia|exact Hw].
    + intros (i & Hi & Hw). right. exists i. split; [|exact Hw].
      apply in_seq. lia.
  - intros i Hi. apply in_seq in Hi. lia.
Qed.

Lemma density_check_true_iff (hl : list F) :
  density_loop hl (seq 0 (hand_blocks hl)) = true <->
  exists i, i < hand_blocks hl /\ dense (hand_block hl i) = true.
Proof.
  rewrite density_loop_true_iff.
  - split; intros (i & Hi & Hd); exists i; (split; [|exact Hd]).
    + apply in_seq in Hi. lia.
    + apply in_seq. lia.
  - intros i Hi. apply in_seq in Hi. lia.
Qed.

Lemma events_of_none ty (tr : list (Action F)) :
  (forall a, In a tr -> ~ yields ty a) -> events_of ty tr = [].
Proof.
  induction tr as [|a tr IH]; intros H; [reflexivity|].
  change (a :: tr) with ([a] ++ tr). rewrite events_of_app.
  rewrite IH by (intros b Hb; apply H; now right).
  rewrite app_nil_r.
  destruct a as [e| |]; try reflexivity.
  unfold events_of, events. cbn.
  destruct (type e) eqn:Ee, ty; try reflexivity;
    exfalso; apply (H (Yield e) (or_introl eq_refl));
    exists e; auto.
Qed.

(** When [classify_step] leaves no label, the iteration yields no GLOSS
    event. *)
Lemma loop_body_silent frame t locals self c :
  result (classify_step frame (hands frame) (hand_blocks (hands frame))
                        locals self) = inr (Some (None, c)) ->
  events_of GLOSS (trace (loop_body frame t locals self)) = [].
Proof.
  intros HR.
  destruct (loop_body_classify frame t locals self) as (_ & _ & HR').
  specialize (HR' _ HR).
  destruct (loop_body_struct frame t locals self) as (locals' & R2 & H).
  cbv zeta in H.
  destruct H as [(-> & R & _)|(_ & R & _ & T & _)]; [congruence|].
  rewrite HR' in R. injection R as <-.
  rewrite T. rewrite !events_of_app.
  rewrite (events_of_none GLOSS (trace (hands_down_step _ _ _))).
  2:{ intros a Ha (e & -> & Ty). apply hands_down_step_actions in Ha.
      injection Ha as ->. discriminate. }
  rewrite (events_of_none GLOSS (trace (classify_step _ _ _ _ _))).
  2:{ intros a Ha (e & -> & Ty). apply classify_step_actions in Ha.
      discriminate. }
  rewrite (events_of_none GLOSS (trace (tone_step _ _))).
  2:{ intros a Ha (e & -> & Ty). apply tone_step_actions in Ha.
      destruct Ha as [Ha|(e' & [= <-] & Ty')]; congruence. }
  rewrite gloss_step_eq. reflexivity.
Qed.

(** A frame the validator rejects: no classifier call, no GLOSS event,
    the snapshot dropped, and the locals set to [(None, 0.0)]. *)
Lemma loop_body_rejected frame t locals self :
  hand_blocks (hands frame) <> 0 ->
  density_loop (hands frame) (seq 0 (hand_blocks (hands frame)))
    && snd (span_loop (hands frame) (seq 0 (hand_blocks (hands frame))))
    = false ->
  let o := loop_body frame t locals self in
  ~ In Call_classify_hands (trace o) /\
  events_of GLOSS (trace o) = [] /\
  _previous_hand_landmarks (after o) = None /\
  result o = inr (Some (None, f_lit 0 1)).
Proof.
  intros Hcount Hvalid. cbv zeta.
  destruct (loop_body_classify frame t locals self) as (HT & HP & HR).
  assert (E : classify_step frame (hands frame) (hand_blocks (hands frame))
                locals self
              = {| trace := [];
                   after := set_previous_hand_landmarks None self;
                   result := inr (Some (None, f_lit 0 1)) |}).
  { rewrite classify_step_eq.
    apply Nat.eqb_neq in Hcount. rewrite Hcount, Hvalid. reflexivity. }
  split; [rewrite HT, E; cbn; tauto|].
  split; [apply (loop_body_silent _ _ _ _ (f_lit 0 1)); now rewrite E|].
  split; [rewrite HP, E; reflexivity|].
  apply HR. now rewrite E.
Qed.

(** A frame the validator accepts: the snapshot becomes the frame's
    hands, the classifier is called exactly when the hands moved, and
    the iteration does not raise. *)
Lemma loop_body_accepted frame t locals self :
  density_loop (hands frame) (seq 0 (hand_blocks (hands frame))) = true ->
  snd (span_loop (hands frame) (seq 0 (hand_blocks (hands frame)))) = true ->
  let o := loop_body frame t locals self in
  let moved := hands_moved_of (hands frame) (hand_blocks (hands frame))
                              (_previous_hand_landmarks self) in
  _previous_hand_landmarks (after o) = Some (hands frame) /\
  (In Call_classify_hands (trace o) <-> moved = true) /\
  (moved = false ->
   result o = inr (Some (None, f_lit 0 1)) /\
   events_of GLOSS (trace o) = []) /\
  (exists l, result o = inr (Some l)).
Proof.
  intros Hd Hs. cbv zeta.
  assert (Hcount : hand_blocks (hands frame) <> 0).
  { apply density_check_true_iff in Hd. destruct Hd as (i & Hi & _). lia. }
  assert (Hne : match hands frame with [] => None | _ => Some (hands frame)
                end = Some (hands frame)).
  { destruct (hands frame); [|reflexivity]. now cbn in Hcount. }
  destruct (loop_body_classify frame t locals self) as (HT & HP & HR).
  pose proof (loop_body_silent frame t locals self (f_lit 0 1)) as HS.
  revert HT HP HR HS. rewrite classify_step_eq. cbv zeta.
  apply Nat.eqb_neq in Hcount. rewrite Hcount, Hd, Hs, Hne. cbn [andb].
  destruct (hands_moved_of _ _ _); cbn; intros HT HP HR HS.
  - split; [exact HP|]. split; [tauto|]. split; [discriminate|]. eauto.
  - split; [exact HP|]. split; [split; [tauto|discriminate]|].
    split; eauto.
Qed.

(** C7.  For every frame that holds at least one 63-float sub-block,
    all of them with fewer than 15 elements above 0.001 in magnitude, the
    density check fails, and the iteration calls no hand classifier,
    yields no GLOSS event, sets the locals to [(None, 0.0)] and resets
    [_previous_hand_landmarks] to [None]; in general the check passes
    exactly when some sub-block has at least 15 such elements. *)
Theorem density_check_rejects_sparse_hands frame t locals self :
  let hl := hands frame in
  hand_blocks hl <> 0 ->
  (forall i, i < hand_blocks hl -> non_zero_count (hand_block hl i) < 15) ->
  let o := loop_body frame t locals self in
  density_loop hl (seq 0 (hand_blocks hl)) = false /\
  ~ In Call_classify_hands (trace o) /\
  events_of GLOSS (trace o) = [] /\
  _previous_hand_landmarks (after o) = None /\
  result o = inr (Some (None, f_lit 0 1)) /\
  (forall hl' : list F,
     density_loop hl' (seq 0 (hand_blocks hl')) = true <->
     exists i, i < hand_blocks hl' /\
               15 <= non_zero_count (hand_block hl' i)).
Proof.
  cbv zeta. intros Hcount Hsparse.
  assert (Hiff : forall hl' : list F,
     density_loop hl' (seq 0 (hand_blocks hl')) = true <->
     exists i, i < hand_blocks hl' /\
               15 <= non_zero_count (hand_block hl' i)).
  { intros hl'. rewrite density_check_true_iff.
    split; intros (i & Hi & Hd); exists i; (split; [exact Hi|]).
    - now apply Nat.leb_le in Hd.
    - now apply Nat.leb_le. }
  assert (E : density_loop (hands frame)
                (seq 0 (hand_blocks (hands frame))) = false).
  { destruct (density_loop _ _) eqn:E; [|reflexivity].
    apply Hiff in E. destruct E as (i & Hi & Hd).
    specialize (Hsparse i Hi). lia. }
  split; [exact E|].
  rewrite <- !and_assoc. split; [|exact Hiff]. rewrite !and_assoc.
  apply loop_body_rejected; [exact Hcount|].
  rewrite E. reflexivity.
Qed.

(** C6, as the code has it.  For every frame in which some sub-block
    passes the density check and no sub-block at all, dense or not, has a
    span of 0.08 or more, the iteration calls no hand classifier, yields
    no GLOSS event, sets the locals to [(None, 0.0)] and resets
    [_previous_hand_landmarks] to [None]; in general the span of a
    63-float sub-block is the distance between its triplets at indices
    0-2 and 36-38, and the span check passes exactly when some sub-block
    of the frame has a span of 0.08 or more. *)
Theorem span_check_rejects_ghost_hands frame t locals self :
  let hl := hands frame in
  (exists i, i < hand_blocks hl /\ dense (hand_block hl i) = true) ->
  (forall i, i < hand_blocks hl -> wide (hand_block hl i) = false) ->
  let o := loop_body frame t locals self in
  ~ In Call_classify_hands (trace o) /\
  events_of GLOSS (trace o) = [] /\
  _previous_hand_landmarks (after o) = None /\
  result o = inr (Some (None, f_lit 0 1)) /\
  (forall block : list F, length block = 63 ->
     _calculate_hand_span block
     = norm (array_sub (triplet block 0) (triplet block 36))) /\
  (forall hl' : list F,
     snd (span_loop hl' (seq 0 (hand_blocks hl'))) = true <->
     exists i, i < hand_blocks hl' /\ wide (hand_block hl' i) = true).
Proof.
  cbv zeta. intros (i & Hi & Hd) Hghost.
  rewrite <- !and_assoc. split; [split|]; rewrite ?and_assoc.
  - apply loop_body_rejected; [lia|].
    apply andb_false_iff. right.
    destruct (snd (span_loop _ _)) eqn:E; [|reflexivity].
    apply span_loop_true_iff in E. destruct E as (j & Hj & Hw).
    rewrite (Hghost j Hj) in Hw. discriminate.
  - intros block Hlen. unfold _calculate_hand_span. rewrite Hlen.
    reflexivity.
  - intros hl'. apply span_loop_true_iff.
Qed.
End FrameValidator.

Lemma density_check_rejects_sparse_hands_witness :
  _previous_hand_landmarks
    (after (loop_body (CL := Sample.hello) SampleState.sparse_frame
                      SampleState.t0 None SampleState.two_hellos)) = None.
Proof.
  refine (proj1 (proj2 (proj2 (proj2
    (@density_check_rejects_sparse_hands spec_float binary64 unit
       Sample.hello SampleState.sparse_frame SampleState.t0 None
       SampleState.two_hellos _ _))))).
  - vm_compute. discriminate.
  - intros i Hi.
    assert (E : i = 0) by (vm_compute in Hi; lia). subst i.
    vm_compute. lia.
Defined.

Lemma span_check_rejects_ghost_hands_witness :
  _previous_hand_landmarks
    (after (loop_body (CL := Sample.hello) SampleState.ghost_frame
                      SampleState.t0 None SampleState.two_hellos)) = None.
Proof.
  refine (proj1 (proj2 (proj2
    (@span_check_rejects_ghost_hands spec_float binary64 unit
       Sample.hello SampleState.ghost_frame SampleState.t0 None
       SampleState.two_hellos _ _)))).
  - exists 0. split; vm_compute; [lia|reflexivity].
  - intros i Hi.
    assert (E : i = 0) by (vm_compute in Hi; lia). subst i.
    vm_compute. reflexivity.
Defined.

(** C6, as worded, fails: the frame holds a collapsed dense hand and a
    sparse block with a wide span, so no sub-block that passes the density
    check has a span of 0.08 or more; yet the hand classifier is called
    and the frame becomes the snapshot. *)
Lemma span_check_counterexample :
  let frame := SampleState.ghost_and_sparse_frame in
  let hl := hands frame in
  let o := loop_body (CL := Sample.hello) frame SampleState.t0 None
                     (__init__ tt) in
  hand_blocks hl = 2 /\
  (forall i, i < hand_blocks hl ->
     dense (hand_block hl i) = true -> wide (hand_block hl i) = false) /\
  In Call_classify_hands (trace o) /\
  _previous_hand_landmarks (after o) = Some hl.
Proof.
  cbv zeta. split; [reflexivity|]. split; [|split].
  - intros i Hi.
    assert (E : i = 0 \/ i = 1) by (vm_compute in Hi; lia).
    destruct E as [-> | ->]; vm_compute; congruence.
  - vm_compute. auto.
  - vm_compute. reflexivity.
Qed.

(** ** GlossConsistencyValidator in the frame *)

Section GlossRuleInFrame.
Context {F : Type} {PF : PyFloat F} {C : Type} {CL : Classifier F C}.
Implicit Types (self : Servicer F C) (locals : @Locals F).

(** [gloss_step] looks at the servicer only through the gloss buffer. *)
Lemma gloss_step_agree locals self self' :
  _recent_gloss_detections self' = _recent_gloss_detections self ->
  trace (gloss_step locals self') = trace (gloss_step locals self) /\
  _recent_gloss_detections (after (gloss_step locals self'))
    = _recent_gloss_detections (after (gloss_step locals self)).
Proof.
  intros E. rewrite !gloss_step_eq.
  destruct locals as [[gl gc]|]; [|auto].
  destruct (_ && _); [|auto].
  cbv zeta. rewrite E.
  destruct (3 <=? _); [destruct (_ =? 1)|]; cbn; auto.
Qed.

(** On a frame that is accepted and moving, the GLOSS events of the
    iteration and the buffer it leaves are those of [gloss_step] on what
    the hand classifier answered. *)
Lemma loop_body_gloss frame t locals self :
  has_valid_hand (hands frame) = true ->
  hands_moved_of (hands frame) (hand_blocks (hands frame))
                 (_previous_hand_landmarks self) = true ->
  let answer := fst (classify_hands (classifier self) frame) in
  let o := loop_body frame t locals self in
  let g := gloss_step (Some answer) self in
  events_of GLOSS (trace o) = events_of GLOSS (trace g) /\
  _recent_gloss_detections (after o) = _recent_gloss_detections (after g).
Proof.
  intros Hvalid Hmoved. cbv zeta.
  assert (Hcount : (hand_blocks (hands frame) =? 0) = false).
  { apply andb_prop in Hvalid. destruct Hvalid as [D _].
    apply density_check_true_iff in D. destruct D as (i & Hi & _).
    apply Nat.eqb_neq. lia. }
  destruct (loop_body_struct frame t locals self) as (locals' & R2 & H).
  cbv zeta in H.
  pose proof (hands_down_step_frame (hands frame) t self) as F1.
  cbv zeta in F1. destruct F1 as (C1 & B1 & P1 & _).
  set (o1 := hands_down_step (hands frame) t self) in *.
  pose proof (classify_step_frame frame (hands frame)
                (hand_blocks (hands frame)) locals (after o1)) as F2.
  cbv zeta in F2. destruct F2 as (_ & B2 & _).
  assert (E2 : locals'
               = Some (fst (classify_hands (classifier self) frame))).
  { revert R2. rewrite classify_step_eq. cbv zeta.
    unfold has_valid_hand in Hvalid.
    rewrite Hcount, Hvalid, P1, Hmoved, C1. cbn. congruence. }
  set (o2 := classify_step frame (hands frame) (hand_blocks (hands frame))
                           locals (after o1)) in *.
  destruct (gloss_step_agree locals' self (after o2)) as (T3 & B3);
    [congruence|].
  pose proof (tone_step_frame frame (after (gloss_step locals' (after o2))))
    as F4.
  cbv zeta in F4. destruct F4 as (_ & _ & B4).
  destruct H as [(E & _)|(_ & _ & _ & T & A)]; [congruence|].
  rewrite T, A, !events_of_app.
  rewrite (events_of_none GLOSS (trace o1)).
  2:{ intros a Ha (e & -> & Ty). apply hands_down_step_actions in Ha.
      injection Ha as ->. discriminate. }
  rewrite (events_of_none GLOSS (trace o2)).
  2:{ intros a Ha (e & -> & Ty). apply classify_step_actions in Ha.
      discriminate. }
  rewrite (events_of_none GLOSS (trace (tone_step _ _))).
  2:{ intros a Ha (e & -> & Ty). apply tone_step_actions in Ha.
      destruct Ha as [Ha|(e' & [= <-] & Ty')]; congruence. }
  rewrite app_nil_r, T3, B4, B3, E2. cbn [app]. auto.
Qed.

(** C2.  For a classifier output [(label, conf)] that passes the guard of
    line 236 (a non-empty label and a confidence of 0.90 or more), and
    the buffer as it is after the append and the eviction (the five most
    recent entries): with three entries or more whose last three carry
    the same label, [gloss_step] yields exactly one GLOSS event with that
    label and the current confidence, empties the buffer and raises
    [_last_gloss_yielded]; with three entries or more whose last three do
    not agree, it yields nothing and empties the buffer; with fewer than
    three, it yields nothing and keeps the buffer.  On every frame that
    passes validation and the motion check and on which the hand
    classifier answers [(label, conf)], the GLOSS events of the iteration
    and the buffer it leaves are those of this [gloss_step]. *)
Theorem gloss_consistency_decision_rule self (label : string) (conf : F) :
  label <> EmptyString ->
  f_leb CONFIDENCE_THRESHOLD conf = true ->
  let buffer := ring_append (_recent_gloss_detections self) (label, conf) in
  let o := gloss_step (Some (Some label, conf)) self in
  result o = inr tt /\
  (length (_recent_gloss_detections self) <= 5 ->
   buffer = last_n 5 (_recent_gloss_detections self ++ [(label, conf)])) /\
  (3 <= length buffer ->
   (forall x, In x (last_n 3 buffer) -> fst x = label) ->
   trace o = [Yield {| type := GLOSS; label := label; confidence := conf |}]
   /\ _recent_gloss_detections (after o) = []
   /\ _last_gloss_yielded (after o) = true) /\
  (3 <= length buffer ->
   (exists x, In x (last_n 3 buffer) /\ fst x <> label) ->
   trace o = []
   /\ _recent_gloss_detections (after o) = []
   /\ _last_gloss_yielded (after o) = _last_gloss_yielded self) /\
  (length buffer < 3 ->
   trace o = []
   /\ _recent_gloss_detections (after o) = buffer
   /\ _last_gloss_yielded (after o) = _last_gloss_yielded self) /\
  (forall frame t locals,
     has_valid_hand (hands frame) = true ->
     hands_moved_of (hands frame) (hand_blocks (hands frame))
                    (_previous_hand_landmarks self) = true ->
     fst (classify_hands (classifier self) frame) = (Some label, conf) ->
     let f := loop_body frame t locals self in
     events_of GLOSS (trace f) = events_of GLOSS (trace o) /\
     _recent_gloss_detections (after f)
       = _recent_gloss_detections (after o)).
Proof.
  intros Hlabel Hconf. cbv zeta.
  destruct (gloss_step_rule self label conf Hlabel Hconf)
    as (H1 & H2 & H3 & H4 & H5).
  repeat (split; [assumption|]).
  intros frame t locals Hvalid Hmoved Hanswer.
  pose proof (loop_body_gloss frame t locals self Hvalid Hmoved) as H.
  cbv zeta in H. rewrite Hanswer in H. exact H.
Qed.
End GlossRuleInFrame.

Lemma gloss_consistency_decision_rule_witness :
  trace (gloss_step (Some (Some "HELLO"%string, SampleState.c95))
                    SampleState.two_hellos)
  = [Yield SampleState.hello_gloss].
Proof.
  pose proof (@gloss_consistency_decision_rule spec_float binary64 unit
                Sample.hello SampleState.two_hellos "HELLO" SampleState.c95)
    as H.
  destruct H as (_ & _ & H & _).
  - discriminate.
  - vm_compute. reflexivity.
  - apply H.
    + vm_compute. lia.
    + intros x Hx. vm_compute in Hx.
      destruct Hx as [<-|[<-|[<-|[]]]]; reflexivity.
Defined.

(** ** MotionGate *)

Section MotionGate.
Context {F : Type} {PF : PyFloat F}.

(** A triplet of a hand block is a triplet of the whole sequence. *)
Lemma triplet_hand_block (hl : list F) (i k : nat) :
  k < 21 ->
  slice (3 * k) (3 * k + 3) (hand_block hl i) = triplet hl (i * 63 + 3 * k).
Proof.
  intros Hk. unfold triplet, hand_block, slice.
  rewrite skipn_firstn_comm, firstn_firstn, skipn_skipn.
  f_equal; [lia|]. f_equal. lia.
Qed.

(** The inner loop adds the displacements of one slot. *)
Lemma landmark_loop_eq (hl prev : list F) (i : nat) (ks : list nat)
    (total : F) (count : nat) :
  i < hand_blocks hl -> i < hand_blocks prev ->
  (forall k, In k ks -> k < 21) ->
  fold_left
    (fun (acc : F * nat) j =>
       let '(total_displacement, landmark_count) := acc in
       if (j + 2 <? length (hand_block hl i))
          && (j + 2 <? length (hand_block prev i))
       then
         let current_point := slice j (j + 3) (hand_block hl i) in
         let prev_point := slice j (j + 3) (hand_block prev i) in
         let displacement := norm (array_sub current_point prev_point) in
         (f_add total_displacement displacement, landmark_count + 1)
       else acc)
    (map (fun k => 3 * k) ks) (total, count)
  = (fold_left f_add (map (displacement_at hl prev i) ks) total,
     count + length ks).
Proof.
  intros Hi Hi'.
  match goal with
  | |- _ -> fold_left ?f _ _ = _ => set (step := f)
  end.
  assert (Hstep : forall k total count, k < 21 ->
            step (total, count) (3 * k)
            = (f_add total (displacement_at hl prev i k), count + 1)).
  { intros k total' count' Hk. unfold step.
    rewrite !(hand_block_length _ _ Hi), !(hand_block_length _ _ Hi').
    destruct (Nat.ltb_spec (3 * k + 2) 63) as [_|]; [|lia].
    cbn [andb]. cbv zeta.
    rewrite !triplet_hand_block by exact Hk. reflexivity. }
  clearbody step. revert total count.
  induction ks as [|k ks IH]; intros total count Hks; cbn [map fold_left].
  - cbn. f_equal. lia.
  - rewrite Hstep by (apply Hks; now left).
    rewrite IH by (intros j Hj; apply Hks; now right).
    cbn [length]. f_equal. lia.
Qed.

(** The outer loop adds the displacements of all matching slots. *)
Lemma displacement_fold_eq (hl prev : list F) (slots : list nat)
    (total : F) (count : nat) :
  (forall i, In i slots -> i < hand_blocks hl /\ i < hand_blocks prev) ->
  fold_left
    (fun (acc : F * nat) i =>
       let hand_start := i * 63 in
       let hand_end := hand_start + 63 in
       if (length hl <? hand_end) || (length prev <? hand_end)
       then acc
       else
         landmark_loop (slice hand_start hand_end hl)
                       (slice hand_start hand_end prev) acc)
    slots (total, count)
  = (fold_left f_add
       (flat_map (fun i => map (displacement_at hl prev i) (seq 0 21)) slots)
       total,
     count
     + length (flat_map (fun i => map (displacement_at hl prev i) (seq 0 21))
                        slots)).
Proof.
  match goal with
  | |- _ -> fold_left ?f _ _ = _ => set (step := f)
  end.
  assert (Hstep : forall i total count,
            i < hand_blocks hl -> i < hand_blocks prev ->
            step (total, count) i
            = (fold_left f_add (map (displacement_at hl prev i) (seq 0 21))
                         total,
               count + 21)).
  { intros i total' count' Hi Hi'. unfold step. cbv zeta.
    pose proof (hand_blocks_bound hl i Hi).
    pose proof (hand_blocks_bound prev i Hi').
    destruct (Nat.ltb_spec (length hl) (i * 63 + 63)); [lia|].
    destruct (Nat.ltb_spec (length prev) (i * 63 + 63)); [lia|].
    cbn [orb].
    fold (hand_block hl i). fold (hand_block prev i).
    unfold landmark_loop.
    rewrite landmark_loop_eq; auto.
    intros k Hk. apply in_seq in Hk. lia. }
  clearbody step. revert total count.
  induction slots as [|i slots IH]; intros total count Hs;
    cbn [fold_left flat_map].
  - cbn. f_equal. lia.
  - destruct (Hs i (or_introl eq_refl)) as [Hi Hi'].
    rewrite Hstep by assumption.
    rewrite IH by (intros j Hj; apply Hs; now right).
    rewrite fold_left_app, length_app, length_map, length_seq.
    f_equal. lia.
Qed.

Lemma displacement_loop_eq (hl prev : list F) :
  displacement_loop hl prev (hand_blocks hl)
  = (fold_left f_add (matching_displacements hl prev) (f_lit 0 1),
     length (matching_displacements hl prev)).
Proof.
  unfold displacement_loop, matching_displacements.
  change (length prev / 63) with (hand_blocks prev).
  rewrite displacement_fold_eq; [reflexivity|].
  intros i Hi. apply in_seq in Hi. lia.
Qed.

Lemma matching_displacements_length (hl prev : list F) :
  length (matching_displacements hl prev)
  = 21 * Nat.min (hand_blocks hl) (hand_blocks prev).
Proof.
  unfold matching_displacements.
  rewrite <- (length_seq (Nat.min (hand_blocks hl) (hand_blocks prev)) 0)
    at 2.
  induction (seq 0 (Nat.min (hand_blocks hl) (hand_blocks prev)))
    as [|i slots IH]; [reflexivity|].
  cbn [flat_map]. rewrite length_app, length_map, length_seq, IH.
  cbn [length]. lia.
Qed.

(** [hands_moved] against a snapshot that holds a full hand block: the
    average displacement is 0.01 or more. *)
Lemma hands_moved_of_eq (hl prev : list F) :
  hand_blocks hl <> 0 -> 63 <= length prev ->
  hands_moved_of hl (hand_blocks hl) (Some prev)
  = f_leb (f_lit 1 100) (average_displacement hl prev).
Proof.
  intros Hhl Hprev. unfold hands_moved_of.
  rewrite displacement_loop_eq.
  assert (hand_blocks prev <> 0).
  { unfold hand_blocks.
    pose proof (Nat.Div0.div_le_mono 63 (length prev) 63 Hprev) as D.
    change (63 / 63) with 1 in D. lia. }
  pose proof (matching_displacements_length hl prev) as L.
  destruct (Nat.ltb_spec 0 (length (matching_displacements hl prev)));
    [reflexivity|lia].
Qed.
End MotionGate.
(** *** A snapshot compared with itself *)

Section Static.
Context {F : Type} {PF : PyFloat F}.
Variable null : F -> bool.
Hypothesis arithmetic : static_arithmetic null.

Lemma array_sub_self (v : list F) :
  Forall (fun x => null x = true) (array_sub v v).
Proof.
  destruct arithmetic as (_ & Hsub & _).
  induction v as [|x v IH]; cbn [array_sub]; constructor; auto.
Qed.

Lemma fold_add_static (v : list F) (acc : F) :
  Forall (fun x => null x = true) v ->
  null acc = true ->
  null (fold_left f_add v acc) = true.
Proof.
  destruct arithmetic as (_ & _ & Hadd & _).
  intros Hv. revert acc.
  induction Hv as [|x v Hx _ IH]; intros acc Hacc; cbn [fold_left];
    [exact Hacc|].
  apply IH. apply Hadd; auto.
Qed.

(** The average displacement of a snapshot against itself lies in
    [null], hence is never found to be 0.01 or more. *)
Lemma average_displacement_self (hl : list F) :
  f_leb (f_lit 1 100) (average_displacement hl hl) = false.
Proof.
  pose proof arithmetic as (Hzero & _ & _ & Hdiv & Hnorm & Hleb).
  apply Hleb. unfold average_displacement. apply Hdiv.
  apply fold_add_static; [|exact Hzero].
  unfold matching_displacements.
  apply Forall_flat_map, Forall_forall. intros i _.
  apply Forall_map, Forall_forall. intros k _.
  unfold displacement_at. apply Hnorm, array_sub_self.
Qed.
End Static.

(** *** IEEE binary64: the zeros and not-a-number *)

Section StaticBinary64.
Variable nrm : list spec_float -> spec_float.

Lemma sub_self (x : spec_float) :
  zero_or_nan (f_sub (PyFloat := binary64_with nrm) x x) = true.
Proof.
  destruct x as [s|s| |s m e]; try (destruct s; reflexivity);
    try reflexivity.
  cbn [f_sub binary64_with SFsub]. cbv zeta. rewrite Z.sub_diag.
  reflexivity.
Qed.

Lemma add_static (x y : spec_float) :
  zero_or_nan x = true -> zero_or_nan y = true ->
  zero_or_nan (f_add (PyFloat := binary64_with nrm) x y) = true.
Proof.
  destruct x as [[|]| | |], y as [[|]| | |]; cbn; congruence.
Qed.

Lemma div_static (x y : spec_float) :
  zero_or_nan x = true ->
  zero_or_nan (f_div (PyFloat := binary64_with nrm) x y) = true.
Proof. destruct x, y; cbn; congruence. Qed.

Lemma leb_static (x : spec_float) :
  zero_or_nan x = true ->
  f_leb (PyFloat := binary64_with nrm) (f_lit 1 100) x = false.
Proof. destruct x; cbn; congruence. Qed.

(** Binary64 has the arithmetic of [static_arithmetic] for the zeros and
    not-a-number, whatever way the norm is computed, as long as the norm
    of an array of zeros and not-a-numbers is a zero or not a number. *)
Lemma binary64_static_arithmetic :
  (forall v, Forall (fun x => zero_or_nan x = true) v ->
             zero_or_nan (nrm v) = true) ->
  static_arithmetic (PF := binary64_with nrm) zero_or_nan.
Proof.
  intros Hnrm. unfold static_arithmetic.
  split; [reflexivity|]. split; [exact sub_self|].
  split; [exact add_static|]. split; [exact div_static|].
  split; [exact Hnrm|exact leb_static].
Qed.
End StaticBinary64.

(** The norm computed product by product and sum by sum is such a norm. *)
Lemma norm_static (v : list spec_float) :
  Forall (fun x => zero_or_nan x = true) v ->
  zero_or_nan (Binary64.norm v) = true.
Proof.
  intros Hv. unfold Binary64.norm.
  assert (H : forall acc,
            zero_or_nan acc = true ->
            zero_or_nan
              (fold_left
                 (fun a x =>
                    SFadd Binary64.prec Binary64.emax a
                          (SFmul Binary64.prec Binary64.emax x x))
                 v acc) = true).
  { induction Hv as [|x v Hx _ IH]; intros acc Hacc; cbn [fold_left];
      [exact Hacc|].
    apply IH. apply (add_static Binary64.norm); [exact Hacc|].
    destruct x; cbn in *; congruence. }
  specialize (H (Binary64.lit 0 1) eq_refl).
  destruct (fold_left _ v (Binary64.lit 0 1)); cbn in *; congruence.
Qed.

Section MotionGateRule.
Context {F : Type} {PF : PyFloat F} {C : Type} {CL : Classifier F C}.

(** C5.  In every float arithmetic, for two consecutive frames that both
    pass hand validation: the first is classified if no snapshot existed
    before it and leaves its hands as the snapshot; the hand classifier
    is called on the second exactly when the program finds the average
    per-landmark displacement between the matching hand slots of the two
    to be 0.01 or more; if not, there is no call, the locals become
    [(None, 0.0)] and no GLOSS event is yielded; either way the second
    frame's hands replace the snapshot; and when the two frames carry the
    same hands there is no call, in any arithmetic in which a value minus
    itself lies in a set closed under the sum, the division and the norm
    and below 0.01 (IEEE: the zeros and not-a-number). *)
Theorem motion_gate_rule (first second : LandmarkFrame F)
    (t1 t2 : F) (locals : Locals) (self : Servicer F C) :
  has_valid_hand (hands first) = true ->
  has_valid_hand (hands second) = true ->
  let o1 := loop_body first t1 locals self in
  (_previous_hand_landmarks self = None ->
   In Call_classify_hands (trace o1)) /\
  _previous_hand_landmarks (after o1) = Some (hands first) /\
  exists locals1,
    result o1 = inr (Some locals1) /\
    let o2 := loop_body second t2 (Some locals1) (after o1) in
    let avg := average_displacement (hands second) (hands first) in
    (In Call_classify_hands (trace o2) <-> f_leb (f_lit 1 100) avg = true)
    /\
    (f_leb (f_lit 1 100) avg = false ->
     result o2 = inr (Some (None, f_lit 0 1)) /\
     events_of GLOSS (trace o2) = []) /\
    _previous_hand_landmarks (after o2) = Some (hands second) /\
    (forall null,
       static_arithmetic null ->
       hands second = hands first ->
       ~ In Call_classify_hands (trace o2)).
Proof.
  intros V1 V2. cbv zeta.
  apply andb_prop in V1, V2. destruct V1 as [D1 S1], V2 as [D2 S2].
  destruct (loop_body_accepted first t1 locals self D1 S1)
    as (P1 & M1 & _ & (locals1 & R1)).
  split.
  { intros E. apply M1. rewrite E. reflexivity. }
  split; [exact P1|].
  exists locals1. split; [exact R1|].
  destruct (loop_body_accepted second t2 (Some locals1)
              (after (loop_body first t1 locals self)) D2 S2)
    as (P2 & M2 & Q2 & _).
  rewrite P1 in M2, Q2.
  assert (H1 : hand_blocks (hands first) <> 0).
  { apply density_check_true_iff in D1. destruct D1 as (i & Hi & _). lia. }
  assert (H2 : hand_blocks (hands second) <> 0).
  { apply density_check_true_iff in D2. destruct D2 as (i & Hi & _). lia. }
  assert (L1 : 63 <= length (hands first)).
  { pose proof (hand_blocks_bound (hands first) 0). lia. }
  rewrite (hands_moved_of_eq _ _ H2 L1) in M2, Q2.
  split; [exact M2|]. split; [exact Q2|]. split; [exact P2|].
  intros null Hnull E.
  rewrite M2, E, (average_displacement_self null Hnull). discriminate.
Qed.
End MotionGateRule.

Lemma motion_gate_rule_witness :
  exists locals1,
    result (loop_body (CL := Sample.hello) SampleState.open_a_frame
                      SampleState.t0 None (__init__ tt))
    = inr (Some locals1) /\
    ~ In Call_classify_hands
         (trace (loop_body (CL := Sample.hello) SampleState.open_a_frame
                   SampleState.t1 (Some locals1)
                   (after (loop_body (CL := Sample.hello)
                             SampleState.open_a_frame SampleState.t0 None
                             (__init__ tt))))).
Proof.
  destruct (@motion_gate_rule spec_float binary64 unit Sample.hello
              SampleState.open_a_frame SampleState.open_a_frame
              SampleState.t0 SampleState.t1 None (__init__ tt))
    as (_ & _ & locals1 & R1 & _ & _ & _ & H).
  - vm_compute. reflexivity.
  - vm_compute. reflexivity.
  - exists locals1. split; [exact R1|].
    apply (H zero_or_nan); [|reflexivity].
    exact (binary64_static_arithmetic Binary64.norm norm_static).
Defined.

(** ** The stream *)

Section Stream.
Context {F : Type} {PF : PyFloat F} {C : Type} {CL : Classifier F C}.
Implicit Types (self : Servicer F C) (locals : @Locals F).

Lemma StreamLandmarks_eq reqs ctx self :
  StreamLandmarks reqs ctx self =
    let o := for_frames reqs None (stream_start self) in
    match result o with
    | inr _ => {| actions := trace o; servicer := after o; context := ctx |}
    | inl e =>
        {| actions := trace o;
           servicer := after o;
           context := {| code := Some INTERNAL; details := Some e |} |}
    end.
Proof.
  unfold StreamLandmarks, bind, modify. cbn [result trace after].
  fold (stream_start self). cbv zeta.
  destruct (result (for_frames reqs None (stream_start self)));
    reflexivity.
Qed.

Lemma for_frames_cons frame t reqs locals self :
  for_frames ((frame, t) :: reqs) locals self =
    let o := loop_body frame t locals self in
    match result o with
    | inl e => {| trace := trace o; after := after o; result := inl e |}
    | inr locals' =>
        let o' := for_frames reqs locals' (after o) in
        {| trace := trace o ++ trace o';
           after := after o';
           result := result o' |}
    end.
Proof. reflexivity. Qed.

(** The actions of the loop are those of its iterations, in order. *)
Lemma for_frames_trace reqs locals self :
  trace (for_frames reqs locals self)
  = concat (frame_traces reqs locals self).
Proof.
  revert locals self.
  induction reqs as [|[frame t] reqs IH]; intros locals self;
    [reflexivity|].
  rewrite for_frames_cons. cbn [frame_traces concat]. cbv zeta.
  destruct (result (loop_body frame t locals self)) as [e|locals'];
    cbn [trace].
  - cbn. now rewrite app_nil_r.
  - now rewrite IH.
Qed.

Lemma stream_frames_actions reqs ctx self :
  actions (StreamLandmarks reqs ctx self)
  = concat (stream_frames reqs self).
Proof.
  rewrite StreamLandmarks_eq. cbv zeta. unfold stream_frames.
  rewrite <- for_frames_trace.
  destruct (result _); reflexivity.
Qed.

(** An iteration on a frame without hands: the first two steps do
    nothing but clear the dwell timer, and the locals stay as they
    were. *)
Lemma loop_body_no_hands frame t locals self :
  hands frame = [] ->
  let o := loop_body frame t locals self in
  match locals with
  | None =>
      trace o = [] /\ result o = inl (UnboundLocalError "gloss_label")
  | Some _ => result o = inr locals
  end.
Proof.
  intros E. cbv zeta.
  destruct (loop_body_struct frame t locals self) as (locals' & R2 & H).
  cbv zeta in H. revert R2 H.
  rewrite hands_down_step_trace, classify_step_eq, E.
  cbn [hand_blocks length Nat.div Nat.eqb HandsDownDetector.check orb fst
       Nat.divmod result trace app].
  intros [= <-] [(-> & R & T & _)|(N & R & _)].
  - split; assumption.
  - destruct locals; [exact R|congruence].
Qed.

(** C10.  Every stream whose first frame has an empty hands sequence
    ends at that frame: the read of [gloss_label] at line 236 finds the
    name unbound, the handler catches the error and sets the status to
    INTERNAL, and nothing has been yielded (nor any classifier called).
    No iteration on a frame with an empty hands sequence assigns
    [gloss_label]: if the iteration completes, the locals are what they
    were, and if it raises, they were unbound. *)
Theorem unbound_gloss_label_on_empty_first_frame frame t rest ctx self :
  hands frame = [] ->
  let r := StreamLandmarks ((frame, t) :: rest) ctx self in
  actions r = [] /\
  context r = {| code := Some INTERNAL;
                 details := Some (UnboundLocalError "gloss_label") |} /\
  (forall frame' t' locals self',
     hands frame' = [] ->
     match result (loop_body frame' t' locals self') with
     | inr locals' => locals' = locals
     | inl _ => locals = None
     end).
Proof.
  intros E. cbv zeta.
  rewrite StreamLandmarks_eq. cbv zeta. rewrite for_frames_cons.
  cbv zeta.
  destruct (loop_body_no_hands frame t None (stream_start self) E)
    as (T & R).
  rewrite R. cbn [result trace]. rewrite T.
  split; [reflexivity|]. split; [reflexivity|].
  intros frame' t' locals self' E'.
  pose proof (loop_body_no_hands frame' t' locals self' E') as H.
  cbv zeta in H. destruct locals as [v|].
  - rewrite H. reflexivity.
  - destruct H as (_ & ->). reflexivity.
Qed.
End Stream.

Lemma unbound_gloss_label_on_empty_first_frame_witness :
  context (StreamLandmarks (CL := Sample.hello)
             [(SampleState.no_hands_frame, SampleState.t0);
              (SampleState.open_a_frame, SampleState.t1)]
             no_context (__init__ tt))
  = {| code := Some INTERNAL;
       details := Some (UnboundLocalError "gloss_label") |}.
Proof.
  refine (proj1 (proj2
    (@unbound_gloss_label_on_empty_first_frame spec_float binary64 unit
       Sample.hello SampleState.no_hands_frame SampleState.t0
       [(SampleState.open_a_frame, SampleState.t1)] no_context
       (__init__ tt) _))).
  reflexivity.
Defined.

(** ** ToneGate: when the face classifier runs *)

Section ToneGateTiming.
Context {F : Type} {PF : PyFloat F} {C : Type} {CL : Classifier F C}.
Implicit Types (self : Servicer F C) (locals : @Locals F).

Lemma no_gloss_before_gloss_step frame t locals self :
  let o1 := hands_down_step (hands frame) t self in
  let o2 := classify_step frame (hands frame) (hand_blocks (hands frame))
                          locals (after o1) in
  ~ In Call_classify_face (trace o1 ++ trace o2) /\
  ~ Exists (yields GLOSS) (trace o1 ++ trace o2).
Proof.
  cbv zeta. split.
  - rewrite in_app_iff. intros [H|H].
    + apply hands_down_step_actions in H. discriminate.
    + apply classify_step_actions in H. discriminate.
  - rewrite Exists_exists. intros (a & Ha & e & -> & Ty).
    apply in_app_iff in Ha. destruct Ha as [H|H].
    + apply hands_down_step_actions in H. injection H as ->.
      discriminate.
    + apply classify_step_actions in H. discriminate.
Qed.

Lemma loop_body_tone_gate frame t locals self :
  _last_gloss_yielded self = false ->
  let o := loop_body frame t locals self in
  tone_follows_gloss (trace o) /\ _last_gloss_yielded (after o) = false.
Proof.
  intros Hflag. cbv zeta.
  destruct (loop_body_struct frame t locals self) as (locals' & R2 & H).
  cbv zeta in H.
  destruct (no_gloss_before_gloss_step frame t locals self) as (N1 & N2).
  cbv zeta in N1, N2.
  set (o1 := hands_down_step (hands frame) t self) in *.
  set (o2 := classify_step frame (hands frame) (hand_blocks (hands frame))
                           locals (after o1)) in *.
  assert (F2 : _last_gloss_yielded (after o2) = false).
  { pose proof (hands_down_step_frame (hands frame) t self) as H1.
    pose proof (classify_step_frame frame (hands frame)
                  (hand_blocks (hands frame)) locals (after o1)) as H2.
    cbv zeta in H1, H2. fold o1 in H1. fold o2 in H2.
    destruct H1 as (_ & _ & _ & _ & H1). destruct H2 as (_ & _ & _ & H2).
    congruence. }
  destruct H as [(_ & _ & T & A)|(NN & _ & _ & T & A)]; rewrite T, A.
  - split; [|exact F2]. split; [tauto|]. intros H. contradiction.
  - destruct (gloss_step_cases locals' (after o2))
      as [(E & _)|[(_ & T3 & _ & F3)|(_ & _ & F3 & l & c & T3)]];
      [congruence| |].
    + (* no GLOSS event: the flag stays down and tone_step does nothing *)
      rewrite F2 in F3.
      destruct (tone_step_cases frame (after (gloss_step locals' (after o2))))
        as [(_ & T4 & A4)|(F4 & _)]; [|congruence].
      rewrite T3, T4, A4, !app_nil_r.
      split; [|exact F3]. split; [tauto|]. intros H. contradiction.
    + (* one GLOSS event: the flag goes up and tone_step runs *)
      destruct (tone_step_cases frame (after (gloss_step locals' (after o2))))
        as [(F4 & _)|(_ & F4 & T4)]; [congruence|].
      rewrite T3. split; [|exact F4].
      assert (exists post,
                trace (tone_step frame
                         (after (gloss_step locals' (after o2))))
                = Call_classify_face :: post) as (post & ->).
      { destruct T4 as [-> | (l' & c' & ->)]; eauto. }
      rewrite app_assoc. cbn [app].
      assert (Hin : In Call_classify_face
                      ((trace o1 ++ trace o2)
                       ++ Yield {| type := GLOSS; label := l;
                                   confidence := c |}
                       :: Call_classify_face :: post)).
      { apply in_or_app. right. right. now left. }
      split; [split|].
      * intros _. apply Exists_app. right. constructor.
        eexists. split; reflexivity.
      * intros _. exact Hin.
      * intros _. eexists _, _, _. split; reflexivity.
Qed.

Lemma frame_traces_tone_gate reqs locals self :
  _last_gloss_yielded self = false ->
  Forall tone_follows_gloss (frame_traces reqs locals self) /\
  _last_gloss_yielded (after (for_frames reqs locals self)) = false.
Proof.
  revert locals self.
  induction reqs as [|[frame t] reqs IH]; intros locals self Hflag.
  - split; [constructor|exact Hflag].
  - destruct (loop_body_tone_gate frame t locals self Hflag) as (HT & HF).
    cbv zeta in HT, HF.
    rewrite for_frames_cons. cbn [frame_traces]. cbv zeta.
    destruct (result (loop_body frame t locals self)) as [e|locals'];
      cbn [after].
    + split; [constructor; [exact HT|constructor]|exact HF].
    + destruct (IH locals' _ HF) as (IH1 & IH2).
      split; [constructor; assumption|exact IH2].
Qed.

(** C3, as the code has it.  For every stream handled by a servicer whose
    [_last_gloss_yielded] flag is down at the start, in each frame the
    face classifier is called if and only if a GLOSS event is yielded in
    that same frame, the call coming right after the yield; and the flag
    is down again at the end of every frame, hence at the end of the
    stream, whether or not a TONE event was yielded. *)
Theorem tone_gate_runs_in_the_gloss_frame reqs ctx self :
  _last_gloss_yielded self = false ->
  Forall tone_follows_gloss (stream_frames reqs self) /\
  concat (stream_frames reqs self)
    = actions (StreamLandmarks reqs ctx self) /\
  _last_gloss_yielded (servicer (StreamLandmarks reqs ctx self)) = false /\
  (forall frame t locals self',
     _last_gloss_yielded self' = false ->
     _last_gloss_yielded (after (loop_body frame t locals self')) = false).
Proof.
  intros Hflag.
  destruct (frame_traces_tone_gate reqs None (stream_start self) Hflag)
    as (H1 & H2).
  split; [exact H1|]. split; [now rewrite stream_frames_actions|].
  split.
  - rewrite StreamLandmarks_eq. cbv zeta.
    destruct (result _); exact H2.
  - intros frame t locals self' H.
    apply (loop_body_tone_gate frame t locals self' H).
Qed.
End ToneGateTiming.

Lemma tone_gate_runs_in_the_gloss_frame_witness :
  Forall tone_follows_gloss
         (stream_frames (CL := Sample.hello) SampleState.waving (__init__ tt)).
Proof.
  refine (proj1
    (@tone_gate_runs_in_the_gloss_frame spec_float binary64 unit Sample.hello
       SampleState.waving no_context (__init__ tt) _)).
  reflexivity.
Defined.

(** C3, as worded, fails: on the third frame of a waving hand the GLOSS
    event is yielded and the face classifier is called in that same frame;
    on the frame right after it the face classifier is not called. *)
Lemma tone_gate_counterexample :
  let frames := stream_frames (CL := Sample.hello) SampleState.waving
                              (__init__ tt) in
  Exists (yields GLOSS) (nth 2 frames []) /\
  In Call_classify_face (nth 2 frames []) /\
  ~ In Call_classify_face (nth 3 frames []) /\
  length frames = 4.
Proof.
  cbv zeta. split; [|split; [|split]].
  - vm_compute. apply Exists_cons_tl. constructor.
    eexists. split; reflexivity.
  - vm_compute. tauto.
  - vm_compute. intros [H|[]]. discriminate.
  - reflexivity.
Qed.

(** ** ToneGate: acceptance and deduplication *)

Section ToneGateDedup.
Context {F : Type} {PF : PyFloat F} {C : Type} {CL : Classifier F C}.
Implicit Types (self : Servicer F C) (locals : @Locals F).

Lemma tone_labels_app (a b : list (Action F)) :
  tone_labels (a ++ b) = tone_labels a ++ tone_labels b.
Proof. unfold tone_labels. now rewrite events_of_app, map_app. Qed.

Lemma tone_labels_none (tr : list (Action F)) :
  (forall a, In a tr -> ~ yields TONE a) -> tone_labels tr = [].
Proof.
  intros H. unfold tone_labels. now rewrite events_of_none.
Qed.

Lemma last_label_app (last : option string) (l1 l2 : list string) :
  last_label last (l1 ++ l2) = last_label (last_label last l1) l2.
Proof. unfold last_label. apply fold_left_app. Qed.

Lemma no_repeat_app (last : option string) (l1 l2 : list string) :
  no_repeat last (l1 ++ l2) <->
  no_repeat last l1 /\ no_repeat (last_label last l1) l2.
Proof.
  revert last. induction l1 as [|x l1 IH]; intros last; cbn.
  - tauto.
  - rewrite IH. fold (last_label (Some x) l1). tauto.
Qed.

Lemma py_ne_true (a : option string) (l : string) :
  py_ne a (Some l) = true -> a <> Some l.
Proof.
  destruct a as [x|]; cbn; [|discriminate].
  destruct (String.eqb_spec x l); [discriminate|congruence].
Qed.

Lemma truthy_some (o : option string) :
  truthy o = true -> exists s, o = Some s /\ s <> EmptyString.
Proof.
  destruct o as [s|]; cbn; [|discriminate].
  destruct (String.eqb_spec s EmptyString); [discriminate|eauto].
Qed.

(** A TONE event leaves [tone_step] only with the flag up, for what the
    face classifier returned, at a confidence of 0.80 or more and with a
    label other than the last one. *)
Lemma tone_step_emission frame self e :
  In (Yield e) (trace (tone_step frame self)) ->
  type e = TONE /\
  _last_gloss_yielded self = true /\
  fst (classify_face (classifier self) frame)
    = (Some (label e), confidence e) /\
  label e <> EmptyString /\
  f_leb (f_lit 8 10) (confidence e) = true /\
  _last_tone_event self <> Some (label e).
Proof.
  rewrite tone_step_eq. cbv zeta.
  destruct (_last_gloss_yielded self); [|intros []].
  destruct (classify_face (classifier self) frame) as [[tl tc] c].
  cbn [fst snd].
  destruct (truthy tl && f_leb (f_lit 8 10) tc && py_ne _ tl) eqn:E;
    cbn [trace In]; [|intros [H|[]]; discriminate].
  apply andb_prop in E. destruct E as [E Hne].
  apply andb_prop in E. destruct E as [Ht Hc].
  apply truthy_some in Ht. destruct Ht as (s & -> & Hs).
  apply py_ne_true in Hne.
  intros [H|[H|[]]]; [discriminate|].
  injection H as <-. cbn. repeat split; auto.
Qed.

(** [_last_tone_event] after [tone_step] is the label of the TONE event
    it yielded, if any, and that label is not the one before. *)
Lemma tone_step_tones frame self :
  let o := tone_step frame self in
  no_repeat (_last_tone_event self) (tone_labels (trace o)) /\
  _last_tone_event (after o)
    = last_label (_last_tone_event self) (tone_labels (trace o)).
Proof.
  cbv zeta. rewrite tone_step_eq. cbv zeta.
  destruct (_last_gloss_yielded self); [|cbn; auto].
  destruct (classify_face (classifier self) frame) as [[tl tc] c].
  cbn [fst snd].
  destruct (truthy tl && f_leb (f_lit 8 10) tc && py_ne _ tl) eqn:E;
    [|cbn; auto].
  apply andb_prop in E. destruct E as [E Hne].
  apply andb_prop in E. destruct E as [Ht Hc].
  apply truthy_some in Ht. destruct Ht as (s & -> & Hs).
  apply py_ne_true in Hne. cbn. auto.
Qed.

Lemma loop_body_tones frame t locals self :
  let o := loop_body frame t locals self in
  no_repeat (_last_tone_event self) (tone_labels (trace o)) /\
  _last_tone_event (after o)
    = last_label (_last_tone_event self) (tone_labels (trace o)).
Proof.
  cbv zeta.
  destruct (loop_body_struct frame t locals self) as (locals' & R2 & H).
  cbv zeta in H.
  set (o1 := hands_down_step (hands frame) t self) in *.
  set (o2 := classify_step frame (hands frame) (hand_blocks (hands frame))
                           locals (after o1)) in *.
  set (o3 := gloss_step locals' (after o2)) in *.
  assert (T1 : tone_labels (trace o1) = []).
  { apply tone_labels_none. intros a Ha (e & -> & Ty).
    apply hands_down_step_actions in Ha. injection Ha as ->.
    discriminate. }
  assert (T2 : tone_labels (trace o2) = []).
  { apply tone_labels_none. intros a Ha (e & -> & Ty).
    apply classify_step_actions in Ha. discriminate. }
  assert (T3 : tone_labels (trace o3) = []).
  { apply tone_labels_none. intros a Ha (e & -> & Ty).
    apply gloss_step_actions in Ha. destruct Ha as (e' & [= <-] & Ty').
    congruence. }
  assert (L3 : _last_tone_event (after o3) = _last_tone_event self).
  { pose proof (hands_down_step_frame (hands frame) t self) as H1.
    pose proof (classify_step_frame frame (hands frame)
                  (hand_blocks (hands frame)) locals (after o1)) as H2.
    pose proof (gloss_step_frame locals' (after o2)) as H3.
    cbv zeta in H1, H2, H3. fold o1 in H1. fold o2 in H2. fold o3 in H3.
    destruct H1 as (_ & _ & _ & H1 & _). destruct H2 as (_ & _ & H2 & _).
    destruct H3 as (_ & _ & _ & H3). congruence. }
  destruct H as [(E & _ & T & A)|(_ & _ & _ & T & A)]; rewrite T, A.
  - rewrite tone_labels_app, T1, T2. cbn. split; [exact I|].
    subst locals'. unfold o3 in L3. rewrite gloss_step_eq in L3.
    exact L3.
  - rewrite !tone_labels_app, T1, T2, T3. cbn [app].
    rewrite <- L3. apply tone_step_tones.
Qed.

Lemma for_frames_tones reqs locals self :
  let o := for_frames reqs locals self in
  no_repeat (_last_tone_event self) (tone_labels (trace o)) /\
  _last_tone_event (after o)
    = last_label (_last_tone_event self) (tone_labels (trace o)).
Proof.
  cbv zeta. revert locals self.
  induction reqs as [|[frame t] reqs IH]; intros locals self.
  - cbn. auto.
  - destruct (loop_body_tones frame t locals self) as (N & L).
    cbv zeta in N, L. rewrite for_frames_cons. cbv zeta.
    destruct (result (loop_body frame t locals self)) as [e|locals'];
      cbn [trace after]; [auto|].
    destruct (IH locals' (after (loop_body frame t locals self)))
      as (N' & L').
    rewrite tone_labels_app, no_repeat_app, last_label_app, <- L.
    auto.
Qed.

(** C9.  A TONE event is yielded only for a label the face classifier
    returned with a confidence of 0.80 or more and that differs from
    [_last_tone_event]; [_last_tone_event] changes exactly on such a
    yield, to the label yielded; and in the output of a stream no TONE
    event carries the label of the TONE event before it (nor, for the
    first one, the label the servicer remembered at the start). *)
Theorem tone_gate_acceptance_and_dedup reqs ctx self :
  (forall frame self' e,
     In (Yield e) (trace (tone_step frame self')) ->
     type e = TONE /\
     fst (classify_face (classifier self') frame)
       = (Some (label e), confidence e) /\
     f_leb (f_lit 8 10) (confidence e) = true /\
     _last_tone_event self' <> Some (label e)) /\
  (forall frame self',
     _last_tone_event (after (tone_step frame self'))
     = last_label (_last_tone_event self')
                  (tone_labels (trace (tone_step frame self')))) /\
  (forall frame t locals self',
     tone_labels (trace (loop_body frame t locals self')) = [] ->
     _last_tone_event (after (loop_body frame t locals self'))
     = _last_tone_event self') /\
  let r := StreamLandmarks reqs ctx self in
  no_repeat (_last_tone_event self) (tone_labels (actions r)) /\
  _last_tone_event (servicer r)
    = last_label (_last_tone_event self) (tone_labels (actions r)).
Proof.
  split; [|split; [|split]].
  - intros frame self' e H.
    destruct (tone_step_emission frame self' e H) as (? & ? & ? & ? & ? & ?).
    auto.
  - intros frame self'. apply tone_step_tones.
  - intros frame t locals self' E.
    destruct (loop_body_tones frame t locals self') as (_ & L).
    cbv zeta in L. rewrite L, E. reflexivity.
  - cbv zeta. rewrite StreamLandmarks_eq. cbv zeta.
    destruct (for_frames_tones reqs None (stream_start self)) as (N & L).
    cbv zeta in N, L.
    destruct (result (for_frames reqs None (stream_start self)));
      cbn [actions servicer]; auto.
Qed.
End ToneGateDedup.

(** ** HandsDownDetector in the stream *)

Section HandsDownStream.
Context {F : Type} {PF : PyFloat F} {C : Type} {CL : Classifier F C}.
Implicit Types (self : Servicer F C) (locals : @Locals F).

Lemma yields_events_of ty (tr : list (Action F)) :
  Exists (yields ty) tr <-> events_of ty tr <> [].
Proof.
  split.
  - intros H E. apply Exists_exists in H. destruct H as (a & Ha & e & -> & Ty).
    apply in_split in Ha. destruct Ha as (l1 & l2 & ->).
    rewrite events_of_app in E. apply app_eq_nil in E. destruct E as [_ E].
    change (Yield e :: l2) with ([Yield e] ++ l2) in E.
    rewrite events_of_app in E. apply app_eq_nil in E. destruct E as [E _].
    unfold events_of, events in E. cbn in E. rewrite Ty in E.
    destruct ty; discriminate.
  - intros H. apply Exists_exists.
    destruct (events_of ty tr) as [|e l] eqn:E; [congruence|].
    assert (He : In e (events_of ty tr)) by (rewrite E; now left).
    unfold events_of in He. apply filter_In in He. destruct He as [He Ty].
    unfold events in He. apply in_flat_map in He.
    destruct He as (a & Ha & Hae). exists a. split; [exact Ha|].
    destruct a as [e'| |]; cbn in Hae; try tauto.
    destruct Hae as [->|[]]. exists e. split; [reflexivity|].
    destruct (type e), ty; congruence.
Qed.

(** The HANDS_DOWN events of an iteration and the detector it leaves are
    those of the hands-down step. *)
Lemma loop_body_hands_down frame t locals self :
  let o := loop_body frame t locals self in
  let cd := HandsDownDetector.check (hands_down_detector self)
                                    (hands frame) t in
  events_of HANDS_DOWN (trace o)
    = (if fst cd then [hands_down_event] else []) /\
  hands_down_detector (after o)
    = (if fst cd then HandsDownDetector.reset (snd cd) else snd cd).
Proof.
  cbv zeta.
  destruct (loop_body_struct frame t locals self) as (locals' & R2 & H).
  cbv zeta in H.
  pose proof (hands_down_step_trace (hands frame) t self) as T1.
  pose proof (hands_down_step_detector (hands frame) t self) as D1.
  cbv zeta in D1.
  set (o1 := hands_down_step (hands frame) t self) in *.
  set (o2 := classify_step frame (hands frame) (hand_blocks (hands frame))
                           locals (after o1)) in *.
  set (o3 := gloss_step locals' (after o2)) in *.
  set (o4 := tone_step frame (after o3)) in *.
  assert (E1 : events_of HANDS_DOWN (trace o1)
               = if fst (HandsDownDetector.check (hands_down_detector self)
                           (hands frame) t)
                 then [hands_down_event] else []).
  { rewrite T1. destruct (fst _); reflexivity. }
  assert (E2 : events_of HANDS_DOWN (trace o2) = []).
  { apply events_of_none. intros a Ha (e & -> & Ty).
    apply classify_step_actions in Ha. discriminate. }
  assert (E3 : events_of HANDS_DOWN (trace o3) = []).
  { apply events_of_none. intros a Ha (e & -> & Ty).
    apply gloss_step_actions in Ha. destruct Ha as (e' & [= <-] & Ty').
    congruence. }
  assert (E4 : events_of HANDS_DOWN (trace o4) = []).
  { apply events_of_none. intros a Ha (e & -> & Ty).
    apply tone_step_actions in Ha.
    destruct Ha as [Ha|(e' & [= <-] & Ty')]; congruence. }
  pose proof (classify_step_frame frame (hands frame)
                (hand_blocks (hands frame)) locals (after o1)) as F2.
  pose proof (gloss_step_frame locals' (after o2)) as F3.
  pose proof (tone_step_frame frame (after o3)) as F4.
  cbv zeta in F2, F3, F4. fold o2 in F2. fold o3 in F3. fold o4 in F4.
  destruct F2 as (F2 & _). destruct F3 as (_ & F3 & _).
  destruct F4 as (F4 & _).
  destruct H as [(_ & _ & T & A)|(_ & _ & _ & T & A)]; rewrite T, A.
  - rewrite events_of_app, E1, E2, app_nil_r. split; congruence.
  - rewrite !events_of_app, E1, E2, E3, E4, !app_nil_r. split; congruence.
Qed.

(** With a full hand block the iteration does not raise. *)
Lemma loop_body_full_hands frame t locals self :
  63 <= length (hands frame) ->
  exists l, result (loop_body frame t locals self) = inr (Some l).
Proof.
  intros Hlen.
  assert (Hc : hand_blocks (hands frame) <> 0).
  { unfold hand_blocks.
    pose proof (Nat.Div0.div_le_mono 63 (length (hands frame)) 63 Hlen) as D.
    change (63 / 63) with 1 in D. lia. }
  destruct (loop_body_struct frame t locals self) as (locals' & R2 & H).
  cbv zeta in H.
  destruct (classify_step_result frame (hands frame)
              (hand_blocks (hands frame)) locals
              (after (hands_down_step (hands frame) t self)))
    as (l2 & R2' & N & _).
  rewrite R2 in R2'. injection R2' as <-. specialize (N Hc).
  destruct H as [(E & _)|(_ & R & _)]; [congruence|].
  destruct locals' as [l|]; [eauto|congruence].
Qed.

(** Over requests with full hand blocks the loop runs to its end, and
    its HANDS_DOWN events and final detector are those of the hands-down
    stage alone. *)
Lemma for_frames_hands_down reqs locals self :
  full_hands reqs ->
  let o := for_frames reqs locals self in
  length (events_of HANDS_DOWN (trace o))
    = detections (hands_down_detector self) reqs /\
  hands_down_detector (after o)
    = detector_after (hands_down_detector self) reqs /\
  (exists l, result o = inr l) /\
  length (frame_traces reqs locals self) = length reqs.
Proof.
  cbv zeta. intros Hfull. revert locals self.
  induction Hfull as [|[frame t] reqs Hlen _ IH]; intros locals self.
  - cbn. eauto.
  - cbn [fst] in Hlen.
    destruct (loop_body_full_hands frame t locals self Hlen) as (l & R).
    destruct (loop_body_hands_down frame t locals self) as (E & D).
    cbv zeta in E, D.
    rewrite for_frames_cons. cbn [frame_traces]. cbv zeta. rewrite R.
    cbn [trace after result detections detector_after length].
    destruct (IH (Some l) (after (loop_body frame t locals self)))
      as (IH1 & IH2 & IH3 & IH4).
    rewrite events_of_app, length_app, E, IH1, IH2, IH4, D.
    destruct (fst (HandsDownDetector.check _ _ _)); cbn [length]; auto.
Qed.

Lemma detections_app (d : HandsDownDetector.t F) reqs1 reqs2 :
  detections d (reqs1 ++ reqs2)
  = detections d reqs1 + detections (detector_after d reqs1) reqs2.
Proof.
  revert d. induction reqs1 as [|[frame t] reqs1 IH]; intros d;
    [reflexivity|].
  cbn [app detections detector_after]. cbv zeta.
  destruct (fst (HandsDownDetector.check d (hands frame) t));
    rewrite IH; reflexivity.
Qed.

Lemma stream_hands_down reqs ctx self :
  full_hands reqs ->
  length (events_of HANDS_DOWN (actions (StreamLandmarks reqs ctx self)))
  = detections (HandsDownDetector.reset (hands_down_detector self)) reqs.
Proof.
  intros Hfull. rewrite StreamLandmarks_eq. cbv zeta.
  destruct (for_frames_hands_down reqs None (stream_start self) Hfull)
    as (E & _ & (l & R) & _).
  rewrite R. cbn [actions]. exact E.
Qed.

(** When the last frame of a run yielded HANDS_DOWN, the run left the
    detector reset. *)
Lemma detector_after_detection reqs locals self :
  full_hands reqs ->
  Exists (yields HANDS_DOWN) (last (frame_traces reqs locals self) []) ->
  HandsDownDetector.hands_down_start
    (detector_after (hands_down_detector self) reqs) = None.
Proof.
  intros Hfull. revert locals self.
  induction Hfull as [|[frame t] reqs Hlen Hfull IH]; intros locals self.
  - cbn. intros H. inversion H.
  - cbn [fst] in Hlen.
    destruct (loop_body_full_hands frame t locals self Hlen) as (l & R).
    destruct (loop_body_hands_down frame t locals self) as (E & D).
    cbv zeta in E, D.
    cbn [frame_traces detector_after]. cbv zeta. rewrite R.
    destruct reqs as [|r reqs].
    + cbn [frame_traces last detector_after].
      rewrite yields_events_of, E.
      destruct (fst (HandsDownDetector.check _ _ _)); [|congruence].
      reflexivity.
    + intros H.
      assert (H' : Exists (yields HANDS_DOWN)
                     (last (frame_traces (r :: reqs) (Some l)
                              (after (loop_body frame t locals self))) [])).
      { destruct r as [frame' t']. cbn [frame_traces] in *. exact H. }
      specialize (IH _ _ H'). rewrite D in IH.
      destruct (fst (HandsDownDetector.check _ _ _)); exact IH.
Qed.
End HandsDownStream.

(** ** HandsDownDetector: dwell time *)

Section Dwell.
Context {F : Type} {PF : PyFloat F}.
Implicit Types (d : HandsDownDetector.t F) (hl : list F).

(** The effective wrist y-coordinate: that of the first hand, or the
    larger of the two when a second hand is present. *)
Lemma wrist_y_effective hl :
  (length hl <= 64 ->
   HandsDownDetector.wrist_y hl = nth 1 hl (f_lit 0 1)) /\
  (64 < length hl ->
   HandsDownDetector.wrist_y hl
   = py_max (nth 1 hl (f_lit 0 1)) (nth 64 hl (f_lit 0 1))).
Proof.
  unfold HandsDownDetector.wrist_y. split; intros H.
  - destruct (Nat.ltb_spec 64 (length hl)); [lia|].
    destruct (Nat.leb_spec 63 (length hl)).
    + destruct (Nat.ltb_spec 1 (length hl)); [|lia].
      unfold py_max. destruct (f_ltb _ _); reflexivity.
    + destruct (Nat.ltb_spec 1 (length hl)); [reflexivity|].
      rewrite nth_overflow by lia. reflexivity.
  - destruct (Nat.ltb_spec 64 (length hl)); [|lia].
    destruct (Nat.leb_spec 63 (length hl)); [|lia].
    destruct (Nat.ltb_spec 1 (length hl)); [|lia].
    reflexivity.
Qed.

(** [check] writes nothing but the start time. *)
Lemma check_config d hl (t : F) :
  snd (HandsDownDetector.check d hl t)
  = HandsDownDetector.set_hands_down_start d
      (HandsDownDetector.hands_down_start
         (snd (HandsDownDetector.check d hl t))).
Proof.
  unfold HandsDownDetector.check. destruct d as [thr dur start].
  destruct (_ || _); [reflexivity|].
  cbn [HandsDownDetector.threshold_y HandsDownDetector.hands_down_start
       HandsDownDetector.duration_threshold].
  destruct (f_ltb thr _); [|reflexivity].
  destruct start as [s|]; [|reflexivity].
  destruct (f_ltb dur _); reflexivity.
Qed.

Lemma step_config d hl (t : F) :
  let cd := HandsDownDetector.check d hl t in
  exists start,
    (if fst cd then HandsDownDetector.reset (snd cd) else snd cd)
    = HandsDownDetector.set_hands_down_start d start.
Proof.
  cbv zeta. pose proof (check_config d hl t) as E.
  destruct (fst (HandsDownDetector.check d hl t)).
  - exists None. rewrite E. reflexivity.
  - eexists. exact E.
Qed.

Lemma detector_after_config d reqs :
  exists start,
    detector_after d reqs = HandsDownDetector.set_hands_down_start d start.
Proof.
  revert d. induction reqs as [|[frame t] reqs IH]; intros d.
  - exists (HandsDownDetector.hands_down_start d). destruct d; reflexivity.
  - cbn [detector_after fst snd].
    destruct (step_config d (hands frame) t) as (s1 & E1). cbv zeta in E1.
    assert (E : detector_after d ((frame, t) :: reqs)
                = detector_after
                    (HandsDownDetector.set_hands_down_start d s1) reqs).
    { cbn [detector_after fst snd]. rewrite <- E1.
      destruct (fst (HandsDownDetector.check d (hands frame) t));
        reflexivity. }
    cbn [detector_after fst snd] in E. rewrite E.
    destruct (IH (HandsDownDetector.set_hands_down_start d s1)) as (s2 & E2).
    exists s2. rewrite E2. reflexivity.
Qed.

(** [check] on a lowered hand: it starts a timer that is off, and
    reports the test of line 139 for one that runs. *)
Lemma check_lowered d (start : option F) hl (t : F) :
  63 <= length hl ->
  f_ltb (HandsDownDetector.threshold_y d) (HandsDownDetector.wrist_y hl)
  = true ->
  HandsDownDetector.check
    (HandsDownDetector.set_hands_down_start d start) hl t =
    match start with
    | None => (false, HandsDownDetector.set_hands_down_start d (Some t))
    | Some s => (dwelt d s t, HandsDownDetector.set_hands_down_start d start)
    end.
Proof.
  intros Hlen Hy. unfold HandsDownDetector.check.
  destruct hl as [|x hl]; [cbn in Hlen; lia|].
  destruct (Nat.ltb_spec (length (x :: hl)) 3); [lia|].
  cbn [orb HandsDownDetector.threshold_y HandsDownDetector.hands_down_start
       HandsDownDetector.duration_threshold
       HandsDownDetector.set_hands_down_start].
  rewrite Hy. destruct start as [s|]; [|reflexivity].
  unfold dwelt.
  destruct (f_ltb (HandsDownDetector.duration_threshold d) (f_sub t s));
    reflexivity.
Qed.

Lemma lowered_hands_app d reqs1 reqs2 :
  lowered_hands d (reqs1 ++ reqs2)
  <-> lowered_hands d reqs1 /\ lowered_hands d reqs2.
Proof. unfold lowered_hands. apply Forall_app. Qed.

Lemma lowered_hands_full d reqs : lowered_hands d reqs -> full_hands reqs.
Proof.
  unfold lowered_hands, full_hands. apply Forall_impl. intros r H. apply H.
Qed.

(** A running timer never fires on requests that fail the test of
    line 139 against its start, and stays as it is. *)
Lemma quiet_armed reqs d (s : F) :
  lowered_hands d reqs ->
  Forall (fun r => dwelt d s (snd r) = false) reqs ->
  detections (HandsDownDetector.set_hands_down_start d (Some s)) reqs = 0 /\
  detector_after (HandsDownDetector.set_hands_down_start d (Some s)) reqs
  = HandsDownDetector.set_hands_down_start d (Some s).
Proof.
  intros Hlow. induction Hlow as [|[frame t] reqs (Hlen & Hy) _ IH];
    intros Hq; [split; reflexivity|].
  apply Forall_cons_iff in Hq. destruct Hq as (Ht & Hq).
  cbn [fst snd] in *. cbn [detections detector_after]. cbv zeta.
  rewrite (check_lowered d (Some s) _ t Hlen Hy), Ht. cbn [fst snd].
  exact (IH Hq).
Qed.

(** A timer that is off never fires over a short dwell. *)
Lemma quiet_idle reqs d :
  short_dwell d reqs ->
  detections (HandsDownDetector.set_hands_down_start d None) reqs = 0.
Proof.
  intros (Hlow & Hq).
  destruct reqs as [|[frame t] reqs]; [reflexivity|].
  apply Forall_cons_iff in Hlow. destruct Hlow as ((Hlen & Hy) & Hlow).
  cbn [fst snd] in *. cbn [detections]. cbv zeta.
  rewrite (check_lowered d None _ t Hlen Hy). cbn [fst snd].
  apply quiet_armed; assumption.
Qed.

(** A timer that is off fires exactly once over a long dwell. *)
Lemma long_dwell_fires reqs d :
  long_dwell d reqs ->
  detections (HandsDownDetector.set_hands_down_start d None) reqs = 1.
Proof.
  intros (Hlow & [frame0 t0] & waiting & [frame t] & rest & -> & Hw & Hf
          & Hrest).
  apply Forall_cons_iff in Hlow. destruct Hlow as ((Hlen0 & Hy0) & Hlow).
  apply lowered_hands_app in Hlow. destruct Hlow as (Hlw & Hlow).
  apply Forall_cons_iff in Hlow. destruct Hlow as ((Hlen & Hy) & _).
  cbn [fst snd] in *. cbn [detections]. cbv zeta.
  rewrite (check_lowered d None _ t0 Hlen0 Hy0). cbn [fst snd].
  rewrite detections_app.
  destruct (quiet_armed waiting d t0 Hlw Hw) as (-> & ->).
  cbn [detections Nat.add]. cbv zeta.
  rewrite (check_lowered d (Some t0) _ t Hlen Hy), Hf. cbn [fst snd].
  f_equal. exact (quiet_idle rest d Hrest).
Qed.
End Dwell.

Section DwellRule.
Context {F : Type} {PF : PyFloat F} {C : Type} {CL : Classifier F C}.

(** C8.  In every float arithmetic, with the thresholds of [__init__]
    (0.9 for the wrist and 1.5 seconds for the dwell), and a dwell
    measured as the program measures it (the difference of two clock
    readings it computes at line 138, compared with 1.5 at line 139, on
    frames with a full hand block whose wrist it finds above 0.9): a
    stream that is one dwell found longer than 1.5 seconds once (as a
    dwell of 1.6 seconds is) yields exactly one HANDS_DOWN event; a
    stream that is one dwell never found longer than 1.5 seconds (as a
    dwell of 1.0 second is) yields none; and when a stream of frames with
    full hand blocks has just yielded HANDS_DOWN on its last frame (which
    resets the detector), a long dwell that follows yields exactly one
    more.  The wrist y-coordinate compared with the threshold is that of
    the first hand, or the larger of the two when a second hand is
    present. *)
Theorem hands_down_dwell_timing (self : Servicer F C)
    (ctx : ServicerContext) :
  detector_configured self ->
  let d := hands_down_detector self in
  (forall s t, dwelt d s t = f_ltb (f_lit 15 10) (f_sub t s)) /\
  (forall reqs,
     lowered_hands d reqs <->
     Forall (fun r =>
               (63 <= length (hands (fst r))) /\
               (f_ltb (f_lit 9 10)
                      (HandsDownDetector.wrist_y (hands (fst r))) = true))
            reqs) /\
  (forall reqs,
     long_dwell d reqs ->
     length (events_of HANDS_DOWN (actions (StreamLandmarks reqs ctx self)))
     = 1) /\
  (forall reqs,
     short_dwell d reqs ->
     length (events_of HANDS_DOWN (actions (StreamLandmarks reqs ctx self)))
     = 0) /\
  (forall pre reqs,
     full_hands pre ->
     Exists (yields HANDS_DOWN) (last (stream_frames pre self) []) ->
     long_dwell d reqs ->
     length (events_of HANDS_DOWN
               (actions (StreamLandmarks (pre ++ reqs) ctx self)))
     = S (length (events_of HANDS_DOWN
                    (actions (StreamLandmarks pre ctx self))))) /\
  (forall hl : list F,
     (length hl <= 64 ->
      HandsDownDetector.wrist_y hl = nth 1 hl (f_lit 0 1)) /\
     (64 < length hl ->
      HandsDownDetector.wrist_y hl
      = py_max (nth 1 hl (f_lit 0 1)) (nth 64 hl (f_lit 0 1)))).
Proof.
  intros (H1 & H2). cbv zeta.
  split; [|split; [|split; [|split; [|split]]]].
  - intros s t. unfold dwelt. rewrite H2. reflexivity.
  - intros reqs. unfold lowered_hands. rewrite H1. reflexivity.
  - intros reqs Hdw.
    rewrite stream_hands_down
      by (apply lowered_hands_full with (1 := proj1 Hdw)).
    now apply long_dwell_fires.
  - intros reqs Hdw.
    rewrite stream_hands_down
      by (apply lowered_hands_full with (1 := proj1 Hdw)).
    now apply quiet_idle.
  - intros pre reqs Hpre Hlast Hdw.
    rewrite !stream_hands_down; auto.
    2:{ apply Forall_app. split; [exact Hpre|].
        apply lowered_hands_full with (1 := proj1 Hdw). }
    rewrite detections_app, Nat.add_comm.
    destruct (detector_after_config
                (HandsDownDetector.reset (hands_down_detector self)) pre)
      as (start & E).
    pose proof (detector_after_detection pre None (stream_start self)
                  Hpre Hlast) as N.
    change (hands_down_detector (stream_start self))
      with (HandsDownDetector.reset (hands_down_detector self)) in N.
    rewrite E in N |- *. cbn in N. subst start.
    change (HandsDownDetector.set_hands_down_start
              (HandsDownDetector.reset (hands_down_detector self)) None)
      with (HandsDownDetector.set_hands_down_start
              (hands_down_detector self) None).
    rewrite (long_dwell_fires reqs _ Hdw). reflexivity.
  - apply wrist_y_effective.
Qed.
End DwellRule.

(** On binary64 clock readings a tenth of a second apart, a hand lowered
    for 1.6 seconds is a long dwell and one lowered for 1.0 second is a
    short one. *)
Lemma tenths_of_a_second_dwell :
  long_dwell (hands_down_detector (__init__ (C := unit) tt))
             (SampleState.lowered_for 16) /\
  short_dwell (hands_down_detector (__init__ (C := unit) tt))
              (SampleState.lowered_for 10).
Proof.
  assert (L : forall n,
            lowered_hands (hands_down_detector (__init__ (C := unit) tt))
                          (SampleState.lowered_for n)).
  { intros n. unfold lowered_hands, SampleState.lowered_for.
    apply Forall_map, Forall_forall. intros k _. cbn [fst hands Sample.frame].
    split; [vm_compute; lia|vm_compute; reflexivity]. }
  split.
  - split; [apply L|].
    exists (Sample.frame Sample.lowered, f_lit 0 10),
           (MoreSamples.lowered_at (seq 1 15)),
           (Sample.frame Sample.lowered, f_lit 16 10), [].
    split; [reflexivity|]. split; [|split].
    + vm_compute. repeat constructor.
    + vm_compute. reflexivity.
    + split; constructor.
  - split; [apply L|]. vm_compute. repeat constructor.
Qed.

Lemma hands_down_dwell_timing_witness :
  length (events_of HANDS_DOWN
            (actions (StreamLandmarks (CL := Sample.hello)
                        (SampleState.lowered_for 16) no_context
                        (__init__ tt))))
  = 1.
Proof.
  refine (proj1 (proj2 (proj2
    (@hands_down_dwell_timing spec_float binary64 unit Sample.hello
       (__init__ tt) no_context _)))
    (SampleState.lowered_for 16) _).
  - split; reflexivity.
  - exact (proj1 tenths_of_a_second_dwell).
Defined.

(** ** Runs on concrete streams (binary64) *)

Section Runs.
(** C4 at its failing input: after two classified frames, a frame
    without hands reaches the gloss validation with the label and
    confidence the locals still hold from the frame before; the stale
    detection is appended as the third HELLO and a GLOSS event is
    yielded in response to the frame without hands. *)
Lemma no_hands_frame_replays_stale_gloss :
  let frames :=
    stream_frames (CL := Sample.hello) SampleState.hand_then_none
                  (__init__ tt) in
  hands SampleState.no_hands_frame = [] /\
  nth 0 frames [] = [Call_classify_hands] /\
  nth 1 frames [] = [Call_classify_hands] /\
  nth 2 frames [] = [Yield SampleState.hello_gloss;
                     Call_classify_face;
                     Yield SampleState.question_tone].
Proof. vm_compute. repeat split. Qed.

(** The same defect one frame earlier: the frame without hands appends
    the stale detection to the gloss buffer. *)
Lemma no_hands_frame_appends_stale_detection :
  let self :=
    after (loop_body (CL := Sample.hello) SampleState.open_a_frame
                     SampleState.t0 None (__init__ tt)) in
  let o :=
    loop_body (CL := Sample.hello) SampleState.no_hands_frame
              SampleState.t1
              (Some (Some "HELLO"%string, SampleState.c95)) self in
  _recent_gloss_detections self = [("HELLO"%string, SampleState.c95)] /\
  _recent_gloss_detections (after o)
    = [("HELLO"%string, SampleState.c95); ("HELLO"%string, SampleState.c95)].
Proof. vm_compute. split; reflexivity. Qed.

(** C1 at its failing input: a second connection served by the servicer
    that served a first one starts with that connection's gloss buffer
    and hand snapshot (only the dwell timer is cleared), and yields on
    its single frame a GLOSS and a TONE event that the same connection
    on a new servicer does not yield. *)
Lemma second_connection_sees_first_connection_state :
  let first :=
    StreamLandmarks (CL := Sample.hello) SampleState.connection_a
                    no_context (__init__ tt) in
  let shared := stream_start (servicer first) in
  _recent_gloss_detections shared
    = [("HELLO"%string, SampleState.c95); ("HELLO"%string, SampleState.c95)]
  /\
  _previous_hand_landmarks shared = Some (hands SampleState.open_b_frame) /\
  HandsDownDetector.hands_down_start (hands_down_detector shared) = None /\
  events (actions (StreamLandmarks (CL := Sample.hello)
                     SampleState.connection_b no_context (servicer first)))
    = [SampleState.hello_gloss; SampleState.question_tone] /\
  events (actions (StreamLandmarks (CL := Sample.hello)
                     SampleState.connection_b no_context (__init__ tt)))
    = [].
Proof. vm_compute. repeat split. Qed.

(** The dwell of C8 on binary64 clock readings a tenth of a second
    apart: 1.6 seconds give one HANDS_DOWN event, on the last frame, and
    1.0 second gives none. *)
Lemma hands_down_dwell_binary64 :
  events (actions (StreamLandmarks (CL := Sample.hello)
                     (SampleState.lowered_for 16) no_context (__init__ tt)))
    = [hands_down_event] /\
  Exists (yields HANDS_DOWN)
         (last (stream_frames (CL := Sample.hello)
                  (SampleState.lowered_for 16) (__init__ tt)) []) /\
  events (actions (StreamLandmarks (CL := Sample.hello)
                     (SampleState.lowered_for 10) no_context (__init__ tt)))
    = [].
Proof.
  split; [vm_compute; reflexivity|]. split; [|vm_compute; reflexivity].
  vm_compute. constructor. eexists. split; reflexivity.
Qed.
End Runs.

Lemma tone_gate_acceptance_and_dedup_witness :
  no_repeat None
    (tone_labels
       (actions (StreamLandmarks (CL := Sample.hello) SampleState.waving
                                 no_context (__init__ tt)))).
Proof.
  exact (proj1 (proj2 (proj2 (proj2
    (@tone_gate_acceptance_and_dedup spec_float binary64 unit Sample.hello
       SampleState.waving no_context (__init__ tt)))))).
Defined.

(** ** The same defects with the repository's classifier *)

Section NewServicer.
Context {F : Type} {PF : PyFloat F} {C : Type} {CL : Classifier F C}.

(** What a new stream starts from: the servicer as the stream before
    left it, but for the dwell timer. *)
Lemma stream_start_keeps_servicer_state (self : Servicer F C) :
  let s := stream_start self in
  classifier s = classifier self /\
  _recent_gloss_detections s = _recent_gloss_detections self /\
  _previous_hand_landmarks s = _previous_hand_landmarks self /\
  _last_tone_event s = _last_tone_event self /\
  _last_gloss_yielded s = _last_gloss_yielded self /\
  HandsDownDetector.hands_down_start (hands_down_detector s) = None.
Proof. cbv zeta. repeat split. Qed.

Lemma events_app (a b : list (Action F)) :
  events (a ++ b) = events a ++ events b.
Proof. unfold events. apply flat_map_app. Qed.

Lemma check_idle (d : HandsDownDetector.t F) (hl : list F) (t : F) :
  HandsDownDetector.hands_down_start d = None ->
  fst (HandsDownDetector.check d hl t) = false.
Proof.
  intros E. unfold HandsDownDetector.check. rewrite E.
  destruct (_ || _); [reflexivity|].
  destruct (f_ltb _ _); reflexivity.
Qed.

(** On a servicer just built by [__init__], a stream of one frame yields
    no event, whatever the frame and the classifier. *)
Lemma single_frame_on_new_servicer_is_silent (c : C)
    (frame : LandmarkFrame F) (t : F) (ctx : ServicerContext) :
  events (actions (StreamLandmarks [(frame, t)] ctx (__init__ c))) = [].
Proof.
  rewrite StreamLandmarks_eq. cbv zeta. rewrite for_frames_cons.
  cbv zeta.
  set (self := stream_start (__init__ c)).
  assert (E : events (trace (loop_body frame t None self)) = []).
  { destruct (loop_body_struct frame t None self) as (locals' & R2 & H).
    cbv zeta in H.
    pose proof (hands_down_step_trace (hands frame) t self) as T1.
    rewrite check_idle in T1 by reflexivity.
    pose proof (hands_down_step_frame (hands frame) t self) as F1.
    cbv zeta in F1. destruct F1 as (_ & B1 & _ & _ & G1).
    set (o1 := hands_down_step (hands frame) t self) in *.
    pose proof (classify_step_frame frame (hands frame)
                  (hand_blocks (hands frame)) None (after o1)) as F2.
    cbv zeta in F2. destruct F2 as (_ & B2 & _ & G2).
    set (o2 := classify_step frame (hands frame)
                 (hand_blocks (hands frame)) None (after o1)) in *.
    assert (E2 : events (trace o2) = []).
    { destruct (classify_step_trace frame (hands frame)
                  (hand_blocks (hands frame)) None (after o1))
        as [E|E]; fold o2 in E; rewrite E; reflexivity. }
    assert (B : _recent_gloss_detections (after o2) = [])
      by (rewrite B2, B1; reflexivity).
    assert (G : _last_gloss_yielded (after o2) = false)
      by (rewrite G2, G1; reflexivity).
    destruct H as [(_ & _ & T & _)|(_ & _ & _ & T & _)]; rewrite T.
    - rewrite events_app, T1, E2. reflexivity.
    - assert (E3 : trace (gloss_step locals' (after o2)) = [] /\
                   _last_gloss_yielded (after (gloss_step locals' (after o2)))
                   = false).
      { rewrite gloss_step_eq.
        destruct locals' as [[gl gc]|]; [|auto].
        destruct (_ && _); [|auto].
        cbv zeta. rewrite B. cbn. auto. }
      destruct E3 as (E3 & G3).
      destruct (tone_step_cases frame (after (gloss_step locals' (after o2))))
        as [(_ & T4 & _)|(G4 & _)]; [|congruence].
      rewrite E3, T4, !events_app, T1, E2. reflexivity. }
  destruct (result (loop_body frame t None self)) as [e|locals'];
    cbn [actions trace result].
  - exact E.
  - cbn [for_frames ret result trace actions].
    rewrite events_app, E. reflexivity.
Qed.
End NewServicer.

(** With [MockClassifier] and the draws of [SampleState.draws]: the frame
    without hands yields the GLOSS event (C4), and a connection of one
    frame yields events when the servicer has served a connection before
    (C1). *)
Lemma mock_classifier_runs :
  let frames := stream_frames (SampleState.faces SampleState.hand_then_none)
                              SampleState.mock_servicer in
  map events frames
    = [[]; [];
       [{| type := GLOSS; label := "HELLO";
           confidence := S754_finite false 8511803295730238 (-53) |};
        {| type := TONE; label := "/question";
           confidence := S754_finite false 7746191359077253 (-53) |}]]
  /\
  let first := StreamLandmarks (SampleState.faces SampleState.connection_a)
                               no_context SampleState.mock_servicer in
  map (@type spec_float)
      (events (actions (StreamLandmarks
                          (SampleState.faces SampleState.connection_b)
                          no_context (servicer first))))
    = [GLOSS; TONE].
Proof. vm_compute. split; reflexivity. Qed.

Section NoHandsFrame.
Context {F : Type} {PF : PyFloat F} {C : Type} {CL : Classifier F C}.

(** The defect behind C4 in general: on a frame without hands the hand
    classifier is not called, and what the locals still hold from an
    earlier frame goes through [gloss_step] as if it had just been
    classified. *)
Lemma no_hands_frame_runs_gloss_step (frame : LandmarkFrame F) (t : F)
    (stale : option string * F) (self : Servicer F C) :
  hands frame = [] ->
  let o := loop_body frame t (Some stale) self in
  let g := gloss_step (Some stale) self in
  ~ In Call_classify_hands (trace o) /\
  events_of GLOSS (trace o) = events_of GLOSS (trace g) /\
  _recent_gloss_detections (after o) = _recent_gloss_detections (after g).
Proof.
  intros E. cbv zeta.
  destruct (loop_body_classify frame t (Some stale) self) as (HC & _ & _).
  destruct (loop_body_struct frame t (Some stale) self)
    as (locals' & R2 & H).
  cbv zeta in H.
  pose proof (hands_down_step_frame (hands frame) t self) as F1.
  cbv zeta in F1. destruct F1 as (_ & B1 & _).
  set (o1 := hands_down_step (hands frame) t self) in *.
  assert (E2 : classify_step frame (hands frame)
                 (hand_blocks (hands frame)) (Some stale) (after o1)
               = {| trace := []; after := after o1;
                    result := inr (Some stale) |}).
  { rewrite classify_step_eq, E. reflexivity. }
  rewrite E2 in R2, H. cbn [trace after result] in R2, H.
  injection R2 as <-.
  split.
  { rewrite HC, classify_step_eq, E. cbn. tauto. }
  destruct (gloss_step_agree (Some stale) self (after o1) B1) as (T3 & B3).
  pose proof (tone_step_frame frame (after (gloss_step (Some stale)
                                                       (after o1)))) as F4.
  cbv zeta in F4. destruct F4 as (_ & _ & B4).
  destruct H as [(E' & _)|(_ & _ & _ & T & A)]; [congruence|].
  rewrite T, A, !events_of_app.
  rewrite (events_of_none GLOSS (trace o1)).
  2:{ intros a Ha (e & -> & Ty). apply hands_down_step_actions in Ha.
      injection Ha as ->. discriminate. }
  rewrite (events_of_none GLOSS (trace (tone_step _ _))).
  2:{ intros a Ha (e & -> & Ty). apply tone_step_actions in Ha.
      destruct Ha as [Ha|(e' & [= <-] & Ty')]; congruence. }
  cbn [app events_of events flat_map filter].
  rewrite app_nil_r, T3, B4, B3. auto.
Qed.
End NoHandsFrame.

(** * Further properties of the stream handler *)

Section StreamOutcome.
Context {F : Type} {PF : PyFloat F} {C : Type} {CL : Classifier F C}.

(** Once the locals are bound an iteration cannot raise, and they stay
    bound. *)
Lemma loop_body_bound frame t (l : option string * F)
    (self : Servicer F C) :
  exists l', result (loop_body frame t (Some l) self) = inr (Some l').
Proof.
  destruct (loop_body_struct frame t (Some l) self) as (locals' & R2 & H).
  cbv zeta in H.
  destruct (classify_step_result frame (hands frame)
              (hand_blocks (hands frame)) (Some l)
              (after (hands_down_step (hands frame) t self)))
    as (l2 & R2' & Hn & Hz).
  rewrite R2 in R2'. injection R2' as <-.
  assert (Hb : locals' <> None).
  { destruct (Nat.eq_dec (hand_blocks (hands frame)) 0) as [E|E].
    - rewrite (Hz E). discriminate.
    - auto. }
  destruct H as [(E & _)|(_ & R & _)]; [contradiction|].
  destruct locals' as [l'|]; [|contradiction]. exists l'. exact R.
Qed.

Lemma for_frames_bound reqs (l : option string * F)
    (self : Servicer F C) :
  (exists l', result (for_frames reqs (Some l) self) = inr (Some l')) /\
  length (frame_traces reqs (Some l) self) = length reqs.
Proof.
  revert l self. induction reqs as [|[frame t] reqs IH]; intros l self.
  - split; [exists l; reflexivity|reflexivity].
  - destruct (loop_body_bound frame t l self) as (l' & R).
    rewrite for_frames_cons. cbv zeta. cbn [frame_traces]. rewrite R.
    cbn [result length].
    destruct (IH l' (after (loop_body frame t (Some l) self)))
      as (H1 & H2).
    split; [exact H1|now rewrite H2].
Qed.

(** An iteration on unbound locals whose frame holds no full hand
    block, from an idle detector. *)
Lemma loop_body_without_block frame t (self : Servicer F C) :
  length (hands frame) < 63 ->
  HandsDownDetector.hands_down_start (hands_down_detector self) = None ->
  let o := loop_body frame t None self in
  trace o = [] /\
  result o = inl (UnboundLocalError "gloss_label") /\
  classifier (after o) = classifier self /\
  _recent_gloss_detections (after o) = _recent_gloss_detections self /\
  _previous_hand_landmarks (after o) = _previous_hand_landmarks self /\
  _last_tone_event (after o) = _last_tone_event self /\
  _last_gloss_yielded (after o) = _last_gloss_yielded self.
Proof.
  intros Hlen Hidle. cbv zeta.
  destruct (loop_body_struct frame t None self) as (locals' & R2 & H).
  cbv zeta in H.
  pose proof (hands_down_step_trace (hands frame) t self) as T1.
  rewrite (check_idle _ _ _ Hidle) in T1.
  pose proof (hands_down_step_frame (hands frame) t self) as F1.
  cbv zeta in F1.
  set (o1 := hands_down_step (hands frame) t self) in *.
  assert (E2 : classify_step frame (hands frame)
                 (hand_blocks (hands frame)) None (after o1)
               = {| trace := []; after := after o1; result := inr None |}).
  { rewrite classify_step_eq. unfold hand_blocks.
    rewrite (Nat.div_small _ _ Hlen). reflexivity. }
  rewrite E2 in R2, H. cbn [trace after result] in R2, H.
  injection R2 as <-.
  destruct H as [(_ & R & T & A)|(Hb & _)]; [|congruence].
  rewrite T, A, T1. split; [reflexivity|]. split; [exact R|]. exact F1.
Qed.

(** X1.  A call of [StreamLandmarks] ends in the [except] branch exactly
    when its first frame holds fewer than 63 hand floats: then nothing is
    yielded, no classifier is called, the context carries INTERNAL with
    the unbound-local error of [gloss_label], and apart from the detector
    the servicer is as it was.  When the first frame holds 63 hand floats
    or more the context is left as it was and every request of the stream
    is consumed, whatever the later frames hold. *)
Theorem stream_fails_exactly_on_a_first_frame_without_hand_block
    frame t rest ctx (self : Servicer F C) :
  let r := StreamLandmarks ((frame, t) :: rest) ctx self in
  (length (hands frame) < 63 ->
   actions r = [] /\
   context r = {| code := Some INTERNAL;
                  details := Some (UnboundLocalError "gloss_label") |} /\
   classifier (servicer r) = classifier self /\
   _recent_gloss_detections (servicer r) = _recent_gloss_detections self /\
   _previous_hand_landmarks (servicer r) = _previous_hand_landmarks self /\
   _last_tone_event (servicer r) = _last_tone_event self /\
   _last_gloss_yielded (servicer r) = _last_gloss_yielded self) /\
  (63 <= length (hands frame) ->
   context r = ctx /\
   length (stream_frames ((frame, t) :: rest) self) = S (length rest)).
Proof.
  cbv zeta. rewrite StreamLandmarks_eq. cbv zeta.
  rewrite for_frames_cons. cbv zeta. unfold stream_frames.
  cbn [frame_traces]. split.
  - intros Hlen.
    destruct (loop_body_without_block frame t (stream_start self) Hlen
                eq_refl) as (T & R & A).
    rewrite R. cbn [result actions context servicer trace after].
    split; [exact T|]. split; [reflexivity|]. exact A.
  - intros Hlen.
    destruct (loop_body_full_hands frame t None (stream_start self) Hlen)
      as (l & R).
    rewrite R. cbn [result].
    destruct (for_frames_bound rest l
                (after (loop_body frame t None (stream_start self))))
      as ((l' & R') & L).
    rewrite R'. cbn [context length]. split; [reflexivity|].
    now rewrite L.
Qed.
End StreamOutcome.

Lemma stream_fails_exactly_on_a_first_frame_without_hand_block_witness :
  context (StreamLandmarks (CL := Sample.hello)
             [(Sample.frame [SampleState.t1; SampleState.t1], SampleState.t0);
              (SampleState.open_a_frame, SampleState.t1)]
             no_context (__init__ tt))
  = {| code := Some INTERNAL;
       details := Some (UnboundLocalError "gloss_label") |}
  /\
  length (stream_frames (CL := Sample.hello)
            [(SampleState.open_a_frame, SampleState.t0);
             (SampleState.no_hands_frame, SampleState.t1)]
            (__init__ tt)) = 2.
Proof.
  split.
  - refine (proj1 (proj2 (proj1
      (@stream_fails_exactly_on_a_first_frame_without_hand_block
         spec_float binary64 unit Sample.hello
         (Sample.frame [SampleState.t1; SampleState.t1]) SampleState.t0
         [(SampleState.open_a_frame, SampleState.t1)]
         no_context (__init__ tt)) _))).
    vm_compute. lia.
  - refine (proj2 (proj2
      (@stream_fails_exactly_on_a_first_frame_without_hand_block
         spec_float binary64 unit Sample.hello
         SampleState.open_a_frame SampleState.t0
         [(SampleState.no_hands_frame, SampleState.t1)]
         no_context (__init__ tt)) _)).
    vm_compute. lia.
Defined.

Section GlossBuffer.
Context {F : Type} {PF : PyFloat F} {C : Type} {CL : Classifier F C}.

Lemma ring_append_length (buffer : list (string * F)) (x : string * F) :
  length (ring_append buffer x) <= length buffer + 1.
Proof.
  unfold ring_append.
  destruct (5 <? length (buffer ++ [x])).
  - destruct (buffer ++ [x]) eqn:E.
    + cbn. lia.
    + apply (f_equal (@length _)) in E. rewrite length_app in E.
      cbn [tl length] in *. lia.
  - rewrite length_app. cbn. lia.
Qed.

Lemma ring_append_small (buffer : list (string * F)) (x : string * F) :
  length buffer <= 4 -> ring_append buffer x = buffer ++ [x].
Proof.
  intros H. unfold ring_append.
  destruct (5 <? length (buffer ++ [x])) eqn:E; [|reflexivity].
  apply Nat.ltb_lt in E. rewrite length_app in E. cbn in E. lia.
Qed.

(** The accounting of one run of the gloss validation: a GLOSS event
    uses up three buffered detections. *)
Lemma gloss_step_buffer locals (self : Servicer F C) :
  let o := gloss_step locals self in
  3 * length (events_of GLOSS (trace o))
  + length (_recent_gloss_detections (after o))
  <= length (_recent_gloss_detections self) + 1 /\
  (length (_recent_gloss_detections self) <= 2 ->
   length (_recent_gloss_detections (after o)) <= 2).
Proof.
  cbv zeta. rewrite gloss_step_eq.
  destruct locals as [[gl gc]|]; [|cbn; lia].
  destruct (truthy gl && f_leb CONFIDENCE_THRESHOLD gc); [|cbn; lia].
  cbv zeta.
  pose proof (ring_append_length (_recent_gloss_detections self)
                (match gl with Some s => s | None => EmptyString end, gc))
    as HL.
  destruct (3 <=? length (ring_append _ _)) eqn:E3.
  - apply Nat.leb_le in E3.
    destruct (length (nodup _ _) =? 1); cbn; lia.
  - apply Nat.leb_gt in E3. cbn. lia.
Qed.

(** The GLOSS events of an iteration and the buffer it leaves are those
    of its gloss validation, which starts from the buffer the iteration
    found. *)
Lemma loop_body_gloss_step frame t locals (self : Servicer F C) :
  exists locals' (self' : Servicer F C),
    _recent_gloss_detections self' = _recent_gloss_detections self /\
    events_of GLOSS (trace (loop_body frame t locals self))
    = events_of GLOSS (trace (gloss_step locals' self')) /\
    _recent_gloss_detections (after (loop_body frame t locals self))
    = _recent_gloss_detections (after (gloss_step locals' self')).
Proof.
  destruct (loop_body_struct frame t locals self) as (locals' & R2 & H).
  cbv zeta in H.
  pose proof (hands_down_step_frame (hands frame) t self) as F1.
  cbv zeta in F1. destruct F1 as (_ & B1 & _).
  set (o1 := hands_down_step (hands frame) t self) in *.
  pose proof (classify_step_frame frame (hands frame)
                (hand_blocks (hands frame)) locals (after o1)) as F2.
  cbv zeta in F2. destruct F2 as (_ & B2 & _).
  destruct (no_gloss_before_gloss_step frame t locals self) as (_ & NG).
  fold o1 in NG.
  set (o2 := classify_step frame (hands frame)
               (hand_blocks (hands frame)) locals (after o1)) in *.
  assert (E12 : events_of GLOSS (trace o1 ++ trace o2) = []).
  { destruct (events_of GLOSS (trace o1 ++ trace o2)) eqn:E;
      [reflexivity|].
    exfalso. apply NG. apply yields_events_of. rewrite E. discriminate. }
  exists locals', (after o2). split; [congruence|].
  destruct H as [(EN & _ & T & A)|(_ & _ & _ & T & A)].
  - subst locals'. rewrite T, A, E12, gloss_step_eq. split; reflexivity.
  - rewrite T, A.
    pose proof (tone_step_frame frame
                  (after (gloss_step locals' (after o2)))) as F4.
    cbv zeta in F4. destruct F4 as (_ & _ & B4).
    split; [|exact B4].
    rewrite app_assoc, (events_of_app GLOSS (trace o1 ++ trace o2)), E12.
    cbn [app]. rewrite events_of_app.
    rewrite (events_of_none GLOSS (trace (tone_step frame _))).
    + apply app_nil_r.
    + intros a Ha (e & -> & Ty).
      apply tone_step_actions in Ha.
      destruct Ha as [Ha|(e' & Ha & Ty')]; [discriminate|].
      injection Ha as <-. congruence.
Qed.

Lemma loop_body_buffer frame t locals (self : Servicer F C) :
  let o := loop_body frame t locals self in
  3 * length (events_of GLOSS (trace o))
  + length (_recent_gloss_detections (after o))
  <= length (_recent_gloss_detections self) + 1 /\
  (length (_recent_gloss_detections self) <= 2 ->
   length (_recent_gloss_detections (after o)) <= 2).
Proof.
  cbv zeta.
  destruct (loop_body_gloss_step frame t locals self)
    as (locals' & self' & B & E & A).
  rewrite E, A, <- B. apply gloss_step_buffer.
Qed.

Lemma for_frames_buffer reqs locals (self : Servicer F C) :
  let o := for_frames reqs locals self in
  3 * length (events_of GLOSS (trace o))
  + length (_recent_gloss_detections (after o))
  <= length (_recent_gloss_detections self) + length reqs /\
  (length (_recent_gloss_detections self) <= 2 ->
   length (_recent_gloss_detections (after o)) <= 2).
Proof.
  cbv zeta. revert locals self.
  induction reqs as [|[frame t] reqs IH]; intros locals self.
  - cbn. lia.
  - rewrite for_frames_cons. cbv zeta.
    pose proof (loop_body_buffer frame t locals self) as H.
    cbv zeta in H. destruct H as (H1 & H2).
    destruct (result (loop_body frame t locals self)) as [e|locals'].
    + cbn [trace after length]. split; [lia|exact H2].
    + cbn [trace after length].
      destruct (IH locals' (after (loop_body frame t locals self)))
        as (I1 & I2).
      rewrite events_of_app, length_app. split; [lia|auto].
Qed.

(** X2.  From a servicer whose gloss buffer holds at most two
    detections, as the one [__init__] builds, a call of
    [StreamLandmarks] leaves a buffer of at most two detections, so the
    append of the next accepted detection evicts nothing: the test
    [len(...) > 5] of line 242 is false in every state the handler can
    reach. *)
Theorem gloss_buffer_holds_at_most_two reqs ctx (self : Servicer F C) :
  length (_recent_gloss_detections self) <= 2 ->
  let buffer :=
    _recent_gloss_detections (servicer (StreamLandmarks reqs ctx self)) in
  length buffer <= 2 /\
  forall x, ring_append buffer x = buffer ++ [x].
Proof.
  intros H. cbv zeta.
  assert (B : length (_recent_gloss_detections
                        (servicer (StreamLandmarks reqs ctx self))) <= 2).
  { rewrite StreamLandmarks_eq. cbv zeta.
    pose proof (for_frames_buffer reqs None (stream_start self)) as I.
    cbv zeta in I. destruct I as (_ & I).
    destruct (result (for_frames reqs None (stream_start self)));
      cbn [servicer]; apply I; exact H. }
  split; [exact B|]. intros x. apply ring_append_small. lia.
Qed.

(** X3.  Three times the number of GLOSS events of a call of
    [StreamLandmarks], plus the detections left in the buffer, is at
    most the number of detections the buffer held before plus the number
    of requests: every GLOSS event uses up three accepted frames. *)
Theorem gloss_events_cost_three_frames reqs ctx (self : Servicer F C) :
  let r := StreamLandmarks reqs ctx self in
  3 * length (events_of GLOSS (actions r))
  + length (_recent_gloss_detections (servicer r))
  <= length (_recent_gloss_detections self) + length reqs.
Proof.
  cbv zeta. rewrite StreamLandmarks_eq. cbv zeta.
  pose proof (for_frames_buffer reqs None (stream_start self)) as I.
  cbv zeta in I. destruct I as (I & _).
  destruct (result (for_frames reqs None (stream_start self)));
    cbn [servicer actions]; exact I.
Qed.
End GlossBuffer.

Lemma gloss_buffer_holds_at_most_two_witness :
  length (_recent_gloss_detections
            (servicer (StreamLandmarks (CL := Sample.hello)
                         SampleState.waving no_context
                         SampleState.two_hellos))) <= 2.
Proof.
  refine (proj1
    (@gloss_buffer_holds_at_most_two spec_float binary64 unit Sample.hello
       SampleState.waving no_context SampleState.two_hellos _)).
  vm_compute. lia.
Defined.

Section StreamEvents.
Context {F : Type} {PF : PyFloat F} {C : Type} {CL : Classifier F C}.

Lemma events_forall (P : RecognitionEvent F -> Prop)
    (tr : list (Action F)) :
  (forall e, In (Yield e) tr -> P e) -> Forall P (events tr).
Proof.
  induction tr as [|a tr IH]; intros H; [constructor|].
  unfold events in *. cbn [flat_map]. apply Forall_app. split.
  - destruct a; constructor; [|constructor].
    apply H. left. reflexivity.
  - apply IH. intros e He. apply H. right. exact He.
Qed.

(** A GLOSS event carries the label and the confidence the locals hold
    in that iteration. *)
Lemma gloss_step_emission locals (self : Servicer F C) e :
  In (Yield e) (trace (gloss_step locals self)) ->
  type e = GLOSS /\
  locals = Some (Some (label e), confidence e) /\
  label e <> EmptyString /\
  f_leb CONFIDENCE_THRESHOLD (confidence e) = true.
Proof.
  rewrite gloss_step_eq.
  destruct locals as [[gl gc]|]; [|contradiction].
  destruct (truthy gl && f_leb CONFIDENCE_THRESHOLD gc) eqn:G;
    [|contradiction].
  cbv zeta.
  destruct (3 <=? length (ring_append _ _)); [|contradiction].
  destruct (length (nodup _ _) =? 1) eqn:N; [|contradiction].
  intros [H|[]]. injection H as <-. cbn [type label confidence].
  apply andb_true_iff in G. destruct G as (G1 & G2).
  apply truthy_some in G1. destruct G1 as (s & -> & Hs).
  apply one_label_iff in N. destruct N as (Hne & l & Hall).
  assert (Hin : In s (map fst (last_n 3
                    (ring_append (_recent_gloss_detections self) (s, gc))))).
  { apply (in_map fst _ (s, gc)). apply ring_append_recent. }
  assert (Hhd : hd EmptyString (map fst (last_n 3
                    (ring_append (_recent_gloss_detections self) (s, gc))))
                = s).
  { pose proof (Hall s Hin) as Es.
    destruct (map fst (last_n 3 (ring_append _ _))) as [|h rest];
      [contradiction|].
    cbn [hd]. rewrite Es. apply Hall. left. reflexivity. }
  rewrite Hhd. repeat split; assumption.
Qed.

Lemma loop_body_events frame t locals (self : Servicer F C) e :
  In (Yield e) (trace (loop_body frame t locals self)) -> event_ok e.
Proof.
  intros H.
  destruct (loop_body_struct frame t locals self) as (locals' & R2 & S).
  cbv zeta in S.
  assert (H12 : forall a,
            In a (trace (hands_down_step (hands frame) t self)
                  ++ trace (classify_step frame (hands frame)
                              (hand_blocks (hands frame)) locals
                              (after (hands_down_step (hands frame) t
                                                      self)))) ->
            a = Yield e -> event_ok e).
  { intros a Ha ->. apply in_app_or in Ha. destruct Ha as [Ha|Ha].
    - apply hands_down_step_actions in Ha. injection Ha as ->.
      reflexivity.
    - apply classify_step_actions in Ha. discriminate. }
  destruct S as [(_ & _ & T & _)|(_ & _ & _ & T & _)]; rewrite T in H.
  - exact (H12 _ H eq_refl).
  - rewrite app_assoc in H. apply in_app_or in H. destruct H as [H|H].
    { exact (H12 _ H eq_refl). }
    apply in_app_or in H. destruct H as [H|H].
    + apply gloss_step_emission in H. destruct H as (Ty & _ & L & Cf).
      unfold event_ok. rewrite Ty. split; assumption.
    + apply tone_step_emission in H.
      destruct H as (Ty & _ & _ & L & Cf & _).
      unfold event_ok. rewrite Ty. split; assumption.
Qed.

Lemma for_frames_events reqs locals (self : Servicer F C) e :
  In (Yield e) (trace (for_frames reqs locals self)) -> event_ok e.
Proof.
  revert locals self.
  induction reqs as [|[frame t] reqs IH]; intros locals self.
  - intros [].
  - rewrite for_frames_cons. cbv zeta.
    pose proof (loop_body_events frame t locals self e) as H1.
    destruct (result (loop_body frame t locals self)) as [x|locals'];
      cbn [trace]; [exact H1|].
    intros H. apply in_app_or in H. destruct H as [H|H]; [auto|].
    exact (IH _ _ H).
Qed.

(** X4.  Every event a call of [StreamLandmarks] yields, from any
    servicer state and with any classifier, is one of three kinds: the
    fixed HANDS_DOWN event (label "hands_down", confidence 1.0), a GLOSS
    event with a non-empty label and a confidence of 0.90 or more, or a
    TONE event with a non-empty label and a confidence of 0.80 or more. *)
Theorem stream_events_are_well_formed reqs ctx (self : Servicer F C) :
  Forall event_ok (events (actions (StreamLandmarks reqs ctx self))).
Proof.
  apply events_forall. intros e.
  rewrite StreamLandmarks_eq. cbv zeta.
  pose proof (for_frames_events reqs None (stream_start self) e) as H.
  destruct (result (for_frames reqs None (stream_start self)));
    cbn [actions]; exact H.
Qed.

Lemma loop_body_shape frame t locals (self : Servicer F C) :
  frame_shape (trace (loop_body frame t locals self)).
Proof.
  destruct (loop_body_struct frame t locals self) as (locals' & R2 & S).
  cbv zeta in S.
  pose proof (hands_down_step_trace (hands frame) t self) as T1.
  set (o1 := hands_down_step (hands frame) t self) in *.
  pose proof (classify_step_trace frame (hands frame)
                (hand_blocks (hands frame)) locals (after o1)) as T2.
  set (o2 := classify_step frame (hands frame)
               (hand_blocks (hands frame)) locals (after o1)) in *.
  assert (H1 : trace o1 = [] \/ trace o1 = [Yield hands_down_event]).
  { rewrite T1. destruct (fst _); auto. }
  destruct S as [(_ & _ & T & _)|(_ & _ & _ & T & _)].
  - exists (trace o1), (trace o2), [], [].
    rewrite T, !app_nil_r. repeat split; auto.
  - pose proof (gloss_step_cases locals' (after o2)) as G.
    cbv zeta in G.
    set (o3 := gloss_step locals' (after o2)) in *.
    pose proof (tone_step_cases frame (after o3)) as N.
    cbv zeta in N.
    exists (trace o1), (trace o2), (trace o3),
           (trace (tone_step frame (after o3))).
    split; [exact T|]. split; [exact H1|]. split; [exact T2|]. split.
    + destruct G as [(_ & G & _)|[(_ & G & _)|(_ & _ & _ & l & c & G)]];
        auto.
      right. eexists. split; [exact G|reflexivity].
    + destruct N as [(_ & N & _)|(_ & _ & [N|(l & c & N)])]; auto.
      right. right. eexists. split; [exact N|reflexivity].
Qed.

Lemma frame_traces_shape reqs locals (self : Servicer F C) :
  Forall frame_shape (frame_traces reqs locals self).
Proof.
  revert locals self.
  induction reqs as [|[frame t] reqs IH]; intros locals self;
    [constructor|].
  cbn [frame_traces]. constructor; [apply loop_body_shape|].
  destruct (result (loop_body frame t locals self)); [constructor|].
  apply IH.
Qed.

(** X5.  The actions of every iteration of a call of [StreamLandmarks]
    come in the order of the loop body and each at most once: the
    HANDS_DOWN event, the call of the hand classifier, the GLOSS event,
    the call of the face classifier, the TONE event; so an iteration
    yields at most three events and calls each classifier at most once,
    the hand classifier before any GLOSS event. *)
Theorem every_iteration_follows_the_loop_body_order reqs
    (self : Servicer F C) :
  Forall frame_shape (stream_frames reqs self) /\
  Forall (fun tr => length (events tr) <= 3) (stream_frames reqs self).
Proof.
  assert (H : Forall frame_shape (stream_frames reqs self))
    by apply frame_traces_shape.
  split; [exact H|].
  eapply Forall_impl; [|exact H].
  intros tr (hd & ch & gl & tn & -> & Hh & Hc & Hg & Ht).
  rewrite !events_app, !length_app.
  assert (length (events hd) <= 1)
    by (destruct Hh as [->| ->]; cbn; lia).
  assert (length (events ch) = 0) by (destruct Hc as [->| ->]; reflexivity).
  assert (length (events gl) <= 1)
    by (destruct Hg as [->|(e & -> & _)]; cbn; lia).
  assert (length (events tn) <= 1)
    by (destruct Ht as [->|[->|(e & -> & _)]]; cbn; lia).
  lia.
Qed.

Lemma frame_traces_hands_down reqs locals (self : Servicer F C) :
  let frames := frame_traces reqs locals self in
  (HandsDownDetector.hands_down_start (hands_down_detector self) = None ->
   events_of HANDS_DOWN (nth 0 frames []) = []) /\
  (forall i,
     events_of HANDS_DOWN (nth i frames []) <> [] ->
     events_of HANDS_DOWN (nth (S i) frames []) = []).
Proof.
  cbv zeta. revert locals self.
  induction reqs as [|[frame t] reqs IH]; intros locals self.
  - split; [reflexivity|]. intros [|i]; reflexivity.
  - cbn [frame_traces].
    pose proof (loop_body_hands_down frame t locals self) as H.
    cbv zeta in H. destruct H as (HE & HD).
    set (o := loop_body frame t locals self) in *.
    assert (Hnil : forall i, events_of HANDS_DOWN
                               (nth i (@nil (list (Action F))) []) = []).
    { intros [|i]; reflexivity. }
    split.
    + intros Hidle. cbn [nth]. rewrite HE.
      now rewrite (check_idle _ _ _ Hidle).
    + intros [|i]; cbn [nth].
      * rewrite HE. intros Hfire.
        destruct (fst (HandsDownDetector.check _ _ _)) eqn:Ef;
          [|contradiction].
        destruct (result o) as [x|locals']; [apply Hnil|].
        apply (proj1 (IH locals' (after o))). rewrite HD. reflexivity.
      * destruct (result o) as [x|locals'].
        -- intros _. apply Hnil.
        -- apply (proj2 (IH locals' (after o))).
Qed.

(** X6.  In a call of [StreamLandmarks] the first iteration yields no
    HANDS_DOWN event, and no two consecutive iterations both yield one:
    the reset of line 87, and the reset of line 120 after each yield,
    leave the detector without a start time, so that the next check can
    only start the timer. *)
Theorem hands_down_events_are_never_adjacent reqs (self : Servicer F C) :
  let frames := stream_frames reqs self in
  events_of HANDS_DOWN (nth 0 frames []) = [] /\
  (forall i,
     events_of HANDS_DOWN (nth i frames []) <> [] ->
     events_of HANDS_DOWN (nth (S i) frames []) = []).
Proof.
  cbv zeta. unfold stream_frames.
  pose proof (frame_traces_hands_down reqs None (stream_start self)) as H.
  cbv zeta in H. destruct H as (H0 & Hi).
  split; [apply H0; reflexivity|exact Hi].
Qed.
End StreamEvents.

Lemma hands_down_events_are_never_adjacent_witness :
  events_of HANDS_DOWN
    (nth 17 (stream_frames (CL := Sample.hello)
               (MoreSamples.first_dwell ++ MoreSamples.second_dwell)
               (__init__ tt)) []) = [].
Proof.
  refine (proj2
    (@hands_down_events_are_never_adjacent spec_float binary64 unit
       Sample.hello (MoreSamples.first_dwell ++ MoreSamples.second_dwell)
       (__init__ tt)) 16 _).
  vm_compute. discriminate.
Defined.

Section MotionBaseline.
Context {F : Type} {PF : PyFloat F} {C : Type} {CL : Classifier F C}.

Lemma classify_step_snapshot frame locals (self : Servicer F C) :
  snapshot_ok self ->
  snapshot_ok (after (classify_step frame (hands frame)
                        (hand_blocks (hands frame)) locals self)).
Proof.
  intros H. rewrite classify_step_eq.
  destruct (hand_blocks (hands frame) =? 0) eqn:E0; [exact H|].
  apply Nat.eqb_neq in E0.
  assert (Hlen : 63 <= length (hands frame)).
  { unfold hand_blocks in E0.
    destruct (Nat.lt_ge_cases (length (hands frame)) 63) as [Hl|Hl];
      [|exact Hl].
    rewrite (Nat.div_small _ _ Hl) in E0. congruence. }
  assert (Hs : match hands frame with
               | [] => None
               | _ => Some (hands frame)
               end = Some (hands frame)).
  { destruct (hands frame); [cbn in Hlen; lia|reflexivity]. }
  destruct (density_loop _ _ && snd (span_loop _ _)); cbv zeta.
  - rewrite Hs.
    destruct (hands_moved_of _ _ _); unfold snapshot_ok; cbn; exact Hlen.
  - exact I.
Qed.

Lemma loop_body_snapshot frame t locals (self : Servicer F C) :
  snapshot_ok self -> snapshot_ok (after (loop_body frame t locals self)).
Proof.
  intros H.
  destruct (loop_body_classify frame t locals self) as (_ & E & _).
  unfold snapshot_ok. rewrite E.
  apply (classify_step_snapshot frame locals self H).
Qed.

Lemma for_frames_snapshot reqs locals (self : Servicer F C) :
  snapshot_ok self -> snapshot_ok (after (for_frames reqs locals self)).
Proof.
  revert locals self.
  induction reqs as [|[frame t] reqs IH]; intros locals self H;
    [exact H|].
  rewrite for_frames_cons. cbv zeta.
  pose proof (loop_body_snapshot frame t locals self H) as H1.
  destruct (result (loop_body frame t locals self)) as [x|locals'];
    cbn [after]; [exact H1|].
  apply IH. exact H1.
Qed.

Lemma has_valid_hand_block (hl : list F) :
  has_valid_hand hl = true -> hand_blocks hl <> 0.
Proof.
  unfold has_valid_hand. intros H E. rewrite E in H. discriminate.
Qed.

(** X7.  If the snapshot of the previous hands is absent or holds at
    least 63 floats, as in the servicer [__init__] builds, it is so
    again after a call of [StreamLandmarks]; and then, for a frame that
    passes the density and span checks, the displacement loop counts at
    least one landmark (the test [landmark_count > 0] of line 204 never
    fails), so that the hand classifier is called exactly when there is
    no snapshot or the average displacement is 0.01 or more. *)
Theorem motion_baseline_always_holds_a_full_hand reqs ctx
    (self : Servicer F C) :
  snapshot_ok self ->
  let self' := servicer (StreamLandmarks reqs ctx self) in
  snapshot_ok self' /\
  forall frame t locals,
    has_valid_hand (hands frame) = true ->
    match _previous_hand_landmarks self' with
    | None => In Call_classify_hands (trace (loop_body frame t locals self'))
    | Some prev =>
        0 < snd (displacement_loop (hands frame) prev
                                   (hand_blocks (hands frame))) /\
        (In Call_classify_hands (trace (loop_body frame t locals self'))
         <-> f_leb (f_lit 1 100)
                   (average_displacement (hands frame) prev) = true)
    end.
Proof.
  intros H. cbv zeta.
  assert (S : snapshot_ok (servicer (StreamLandmarks reqs ctx self))).
  { rewrite StreamLandmarks_eq. cbv zeta.
    pose proof (for_frames_snapshot reqs None (stream_start self) H) as I.
    destruct (result (for_frames reqs None (stream_start self)));
      cbn [servicer]; exact I. }
  split; [exact S|].
  set (self' := servicer (StreamLandmarks reqs ctx self)) in *.
  intros frame t locals V.
  pose proof (has_valid_hand_block _ V) as Hb.
  pose proof V as V'. unfold has_valid_hand in V'.
  apply andb_true_iff in V'. destruct V' as (Vd & Vs).
  destruct (loop_body_accepted frame t locals self' Vd Vs)
    as (_ & Hcall & _).
  unfold snapshot_ok in S.
  destruct (_previous_hand_landmarks self') as [prev|].
  - rewrite (hands_moved_of_eq _ _ Hb S) in Hcall.
    split; [|exact Hcall].
    rewrite displacement_loop_eq. cbn [snd].
    rewrite matching_displacements_length.
    assert (0 < hand_blocks prev).
    { unfold hand_blocks.
      apply (Nat.lt_le_trans _ (63 / 63)); [cbn; lia|].
      apply Nat.Div0.div_le_mono. exact S. }
    lia.
  - apply Hcall. reflexivity.
Qed.
End MotionBaseline.

Lemma motion_baseline_always_holds_a_full_hand_witness :
  snapshot_ok (servicer (StreamLandmarks (CL := Sample.hello)
                           SampleState.waving no_context (__init__ tt))).
Proof.
  refine (proj1
    (@motion_baseline_always_holds_a_full_hand spec_float binary64 unit
       Sample.hello SampleState.waving no_context (__init__ tt) _)).
  exact I.
Defined.

(** ** A steady stream of accepted detections *)

Section SteadySigning.
Context {F : Type} {PF : PyFloat F} {C : Type} {CL : Classifier F C}.

Lemma repeat_snoc {A : Type} (x : A) (k : nat) :
  repeat x k ++ [x] = repeat x (S k).
Proof. induction k as [|k IH]; [reflexivity|]. cbn. now rewrite IH. Qed.

(** One accepted detection of [label] on a buffer of [k <= 2] such
    detections: the third one yields the event and empties the buffer. *)
Lemma gloss_step_steady (self : Servicer F C) (label : string) (conf : F)
    (k : nat) :
  label <> EmptyString ->
  f_leb CONFIDENCE_THRESHOLD conf = true ->
  _recent_gloss_detections self = repeat (label, conf) k ->
  k <= 2 ->
  let o := gloss_step (Some (Some label, conf)) self in
  events_of GLOSS (trace o)
  = repeat {| type := GLOSS; label := label; confidence := conf |}
           (S k / 3) /\
  _recent_gloss_detections (after o) = repeat (label, conf) (S k mod 3).
Proof.
  intros Hl Hc Hb Hk. cbv zeta.
  destruct (gloss_step_rule self label conf Hl Hc)
    as (_ & _ & Hyield & _ & Hwait).
  cbv zeta in Hyield, Hwait.
  assert (E : ring_append (_recent_gloss_detections self) (label, conf)
              = repeat (label, conf) (S k)).
  { rewrite ring_append_small by (rewrite Hb, repeat_length; lia).
    rewrite Hb. apply repeat_snoc. }
  rewrite E in Hyield, Hwait. rewrite repeat_length in Hyield, Hwait.
  destruct (Nat.eq_dec k 2) as [->|Hk2].
  - destruct Hyield as (T & B & _); [lia| |].
    + intros x Hx. rewrite last_n_all in Hx by (rewrite repeat_length; lia).
      apply repeat_spec in Hx. subst x. reflexivity.
    + rewrite T, B. split; reflexivity.
  - destruct Hwait as (T & B & _); [lia|].
    rewrite T, B.
    assert (Hs : S k = 1 \/ S k = 2) by lia.
    destruct Hs as [-> | ->]; split; reflexivity.
Qed.

Lemma for_frames_steady reqs locals (self : Servicer F C)
    (label : string) (conf : F) (k : nat) :
  (forall c frame, fst (classify_hands c frame) = (Some label, conf)) ->
  label <> EmptyString ->
  f_leb CONFIDENCE_THRESHOLD conf = true ->
  _recent_gloss_detections self = repeat (label, conf) k ->
  k <= 2 ->
  moving_hands (_previous_hand_landmarks self) reqs ->
  let o := for_frames reqs locals self in
  events_of GLOSS (trace o)
  = repeat {| type := GLOSS; label := label; confidence := conf |}
           ((k + length reqs) / 3) /\
  _recent_gloss_detections (after o)
  = repeat (label, conf) ((k + length reqs) mod 3).
Proof.
  intros Hans Hl Hc. cbv zeta. revert locals self k.
  induction reqs as [|[frame t] reqs IH]; intros locals self k Hb Hk Hm.
  - cbn [for_frames ret trace after length]. rewrite Nat.add_0_r.
    rewrite (Nat.div_small k 3), (Nat.mod_small k 3) by lia.
    split; [reflexivity|exact Hb].
  - cbn [moving_hands] in Hm. destruct Hm as (Hv & Hmv & Hm).
    pose proof Hv as Hv'. unfold has_valid_hand in Hv'.
    apply andb_true_iff in Hv'. destruct Hv' as (Hd & Hsp).
    destruct (loop_body_accepted frame t locals self Hd Hsp)
      as (Hprev & _ & _ & (l & Rl)).
    destruct (loop_body_gloss frame t locals self Hv Hmv) as (He & Hbuf).
    rewrite (Hans (classifier self) frame) in He, Hbuf.
    destruct (gloss_step_steady self label conf k Hl Hc Hb Hk)
      as (Ge & Gb).
    rewrite Ge in He. rewrite Gb in Hbuf.
    rewrite for_frames_cons. cbv zeta. rewrite Rl. cbn [trace after].
    assert (Hk' : S k mod 3 <= 2).
    { pose proof (Nat.mod_upper_bound (S k) 3). lia. }
    rewrite <- Hprev in Hm.
    destruct (IH (Some l) (after (loop_body frame t locals self))
                (S k mod 3) Hbuf Hk' Hm) as (I1 & I2).
    rewrite events_of_app, He, I1, I2, <- repeat_app.
    cbn [length].
    assert (Hdiv : S k / 3 + (S k mod 3 + length reqs) / 3
                   = (k + S (length reqs)) / 3 /\
                   (S k mod 3 + length reqs) mod 3
                   = (k + S (length reqs)) mod 3).
    { replace (k + S (length reqs)) with (S k + length reqs) by lia.
      destruct (Nat.eq_dec k 2) as [->|Hk2].
      - change (3 / 3) with 1. change (3 mod 3) with 0.
        change (0 + length reqs) with (length reqs). split.
        + replace (3 + length reqs) with (1 * 3 + length reqs) by lia.
          rewrite Nat.div_add_l by lia. reflexivity.
        + replace (3 + length reqs) with (length reqs + 1 * 3) by lia.
          rewrite Nat.Div0.mod_add. reflexivity.
      - rewrite (Nat.div_small (S k) 3), (Nat.mod_small (S k) 3) by lia.
        split; reflexivity. }
    destruct Hdiv as (-> & ->). split; reflexivity.
Qed.

(** X8.  With a classifier that answers every frame with the same
    non-empty label at the same confidence of 0.90 or more, a call of
    [StreamLandmarks] whose frames all pass the density and span checks
    and the motion check against the frame before yields a GLOSS event
    with that label and confidence at every third accepted detection:
    from a buffer of [k <= 2] such detections, [(k + n) / 3] GLOSS events
    over [n] requests, and [(k + n) mod 3] detections left in the
    buffer. *)
Theorem steady_signing_yields_a_gloss_every_third_frame reqs ctx
    (self : Servicer F C) (label : string) (conf : F) (k : nat) :
  (forall c frame, fst (classify_hands c frame) = (Some label, conf)) ->
  label <> EmptyString ->
  f_leb CONFIDENCE_THRESHOLD conf = true ->
  _recent_gloss_detections self = repeat (label, conf) k ->
  k <= 2 ->
  moving_hands (_previous_hand_landmarks self) reqs ->
  let r := StreamLandmarks reqs ctx self in
  events_of GLOSS (actions r)
  = repeat {| type := GLOSS; label := label; confidence := conf |}
           ((k + length reqs) / 3) /\
  _recent_gloss_detections (servicer r)
  = repeat (label, conf) ((k + length reqs) mod 3).
Proof.
  intros Hans Hl Hc Hb Hk Hm. cbv zeta.
  rewrite StreamLandmarks_eq. cbv zeta.
  pose proof (for_frames_steady reqs None (stream_start self) label conf k
                Hans Hl Hc Hb Hk Hm) as H.
  cbv zeta in H.
  destruct (result (for_frames reqs None (stream_start self)));
    cbn [actions servicer]; exact H.
Qed.
End SteadySigning.

Lemma steady_signing_yields_a_gloss_every_third_frame_witness :
  events_of GLOSS
    (actions (StreamLandmarks (CL := Sample.hello) SampleState.waving
                              no_context (__init__ tt)))
  = [SampleState.hello_gloss].
Proof.
  refine (proj1
    (@steady_signing_yields_a_gloss_every_third_frame spec_float binary64
       unit Sample.hello SampleState.waving no_context (__init__ tt)
       "HELLO"%string SampleState.c95 0 _ _ _ _ _ _)).
  - intros c frame. reflexivity.
  - discriminate.
  - vm_compute. reflexivity.
  - reflexivity.
  - lia.
  - vm_compute. repeat split.
Defined.

(** * Further properties of the hands-down detector *)

Section DetectorTimer.
Context {F : Type} {PF : PyFloat F}.

Lemma detector_after_app (d : HandsDownDetector.t F) reqs1 reqs2 :
  detector_after d (reqs1 ++ reqs2)
  = detector_after (detector_after d reqs1) reqs2.
Proof.
  revert d. induction reqs1 as [|[frame t] reqs1 IH]; intros d;
    [reflexivity|].
  cbn [app detector_after fst snd].
  destruct (fst (HandsDownDetector.check d (hands frame) t)); apply IH.
Qed.

(** A frame with fewer than three hand floats, or whose wrist is not
    below the threshold line, clears the timer. *)
Lemma check_raised (d : HandsDownDetector.t F) (start : option F)
    (hl : list F) (t : F) :
  length hl < 3 \/
  f_ltb (HandsDownDetector.threshold_y d) (HandsDownDetector.wrist_y hl)
    = false ->
  HandsDownDetector.check
    (HandsDownDetector.set_hands_down_start d start) hl t
  = (false, HandsDownDetector.reset d).
Proof.
  intros H. unfold HandsDownDetector.check.
  cbn [HandsDownDetector.threshold_y HandsDownDetector.hands_down_start
       HandsDownDetector.duration_threshold
       HandsDownDetector.set_hands_down_start].
  destruct (_ || (length hl <? 3)) eqn:E; [reflexivity|].
  apply orb_false_iff in E. destruct E as (_ & E).
  apply Nat.ltb_ge in E.
  destruct H as [H|H]; [lia|]. rewrite H. reflexivity.
Qed.

Lemma raised_frame_splits_detections (d : HandsDownDetector.t F)
    pre frame t post :
  length (hands frame) < 3 \/
  f_ltb (HandsDownDetector.threshold_y d)
        (HandsDownDetector.wrist_y (hands frame)) = false ->
  detector_after d (pre ++ [(frame, t)]) = HandsDownDetector.reset d /\
  detections d (pre ++ (frame, t) :: post)
  = detections d pre + detections (HandsDownDetector.reset d) post.
Proof.
  intros H.
  destruct (detector_after_config d pre) as (s & E).
  pose proof (check_raised d s (hands frame) t H) as R.
  split.
  - rewrite detector_after_app, E. cbn [detector_after]. rewrite R.
    reflexivity.
  - rewrite detections_app, E. cbn [detections]. rewrite R. reflexivity.
Qed.
End DetectorTimer.

Section DetectorInStream.
Context {F : Type} {PF : PyFloat F} {C : Type} {CL : Classifier F C}.

(** X10.  In a stream whose frames all hold a full hand block, a frame
    whose wrist is not below the threshold line cuts the hands-down
    detection in two: the call yields as many HANDS_DOWN events as a call
    on the frames before it and a call on the frames after it yield
    together.  In the detector, any frame with fewer than three hand
    floats or with such a wrist leaves the timer as [reset] does and
    splits the count of detections in the same way. *)
Theorem raised_hands_restart_the_dwell pre frame t post ctx
    (self : Servicer F C) :
  f_ltb (HandsDownDetector.threshold_y (hands_down_detector self))
        (HandsDownDetector.wrist_y (hands frame)) = false ->
  full_hands (pre ++ (frame, t) :: post) ->
  length (events_of HANDS_DOWN
            (actions (StreamLandmarks (pre ++ (frame, t) :: post)
                                      ctx self)))
  = length (events_of HANDS_DOWN (actions (StreamLandmarks pre ctx self)))
    + length (events_of HANDS_DOWN
                (actions (StreamLandmarks post ctx self))) /\
  (forall (d : HandsDownDetector.t F) pre' frame' t' post',
     length (hands frame') < 3 \/
     f_ltb (HandsDownDetector.threshold_y d)
           (HandsDownDetector.wrist_y (hands frame')) = false ->
     detector_after d (pre' ++ [(frame', t')]) = HandsDownDetector.reset d /\
     detections d (pre' ++ (frame', t') :: post')
     = detections d pre' + detections (HandsDownDetector.reset d) post').
Proof.
  intros Hw Hfull. split; [|apply raised_frame_splits_detections].
  pose proof Hfull as Hparts. unfold full_hands in Hparts.
  apply Forall_app in Hparts. destruct Hparts as (Hpre & Hpost).
  apply Forall_cons_iff in Hpost. destruct Hpost as (_ & Hpost).
  rewrite !stream_hands_down by assumption.
  destruct (raised_frame_splits_detections
              (HandsDownDetector.reset (hands_down_detector self))
              pre frame t post (or_intror Hw)) as (_ & E).
  rewrite E. reflexivity.
Qed.
End DetectorInStream.

Lemma raised_hands_restart_the_dwell_witness :
  length (events_of HANDS_DOWN
            (actions (StreamLandmarks (CL := Sample.hello)
                        (MoreSamples.first_dwell
                         ++ MoreSamples.raised :: MoreSamples.second_dwell)
                        no_context (__init__ tt))))
  = length (events_of HANDS_DOWN
              (actions (StreamLandmarks (CL := Sample.hello)
                          MoreSamples.first_dwell no_context (__init__ tt))))
    + length (events_of HANDS_DOWN
                (actions (StreamLandmarks (CL := Sample.hello)
                            MoreSamples.second_dwell no_context
                            (__init__ tt)))).
Proof.
  refine (proj1
    (@raised_hands_restart_the_dwell spec_float binary64 unit Sample.hello
       MoreSamples.first_dwell (fst MoreSamples.raised)
       (snd MoreSamples.raised) MoreSamples.second_dwell no_context
       (__init__ tt) _ _)).
  - vm_compute. reflexivity.
  - unfold full_hands. apply Forall_forall. intros r Hr.
    assert (Hl : forall ks r', In r' (MoreSamples.lowered_at ks) ->
                   63 <= length (hands (fst r'))).
    { intros ks r' Hr'. unfold MoreSamples.lowered_at in Hr'.
      apply in_map_iff in Hr'. destruct Hr' as (k & <- & _).
      vm_compute. lia. }
    apply in_app_or in Hr.
    destruct Hr as [Hr|[<-|Hr]];
      [exact (Hl _ _ Hr)|vm_compute; lia|exact (Hl _ _ Hr)].
Defined.

(** ** The timer of the detector *)

Section DetectorClock.
Context {F : Type} {PF : PyFloat F}.

(** What one check, with the reset of line 120 after a detection, does
    to the timer: a detection needs lowered hands and a running timer that
    passes the test of line 139, and turns the timer off; without a
    detection the timer is off, or the hands are lowered and the timer was
    just started or runs on. *)
Lemma check_cases (d : HandsDownDetector.t F) (start : option F)
    (hl : list F) (t : F) :
  let cd := HandsDownDetector.check
              (HandsDownDetector.set_hands_down_start d start) hl t in
  exists start',
    (if fst cd then HandsDownDetector.reset (snd cd) else snd cd)
    = HandsDownDetector.set_hands_down_start d start' /\
    (fst cd = true ->
     wrist_lowered d hl = true /\
     start' = None /\
     exists s, start = Some s /\ dwelt d s t = true) /\
    (fst cd = false ->
     match start with
     | Some s => wrist_lowered d hl = true -> dwelt d s t = false
     | None => True
     end /\
     (start' = None \/
      wrist_lowered d hl = true /\
      (start = None /\ start' = Some t \/ start' = start))).
Proof.
  cbv zeta. unfold HandsDownDetector.check, wrist_lowered, dwelt.
  cbn [HandsDownDetector.threshold_y HandsDownDetector.hands_down_start
       HandsDownDetector.duration_threshold
       HandsDownDetector.set_hands_down_start].
  assert (E : (match hl with [] => true | _ => false end
               || (length hl <? 3)) = negb (3 <=? length hl)).
  { destruct hl as [|x hl]; [reflexivity|]. cbn [orb].
    destruct (Nat.ltb_spec (length (x :: hl)) 3),
             (Nat.leb_spec 3 (length (x :: hl))); try reflexivity; lia. }
  rewrite E. destruct (3 <=? length hl); cbn [negb andb].
  2:{ exists None. split; [reflexivity|].
      split; [discriminate|]. intros _. split; [|now left].
      destruct start; [discriminate|exact I]. }
  destruct (f_ltb (HandsDownDetector.threshold_y d)
                  (HandsDownDetector.wrist_y hl)).
  2:{ exists None. split; [reflexivity|].
      split; [discriminate|]. intros _. split; [|now left].
      destruct start; [discriminate|exact I]. }
  destruct start as [s|].
  - destruct (f_ltb (HandsDownDetector.duration_threshold d) (f_sub t s))
      eqn:Ed; cbn [fst snd].
    + exists None. split; [reflexivity|]. split; [|discriminate].
      intros _. split; [reflexivity|]. split; [reflexivity|].
      exists s. split; [reflexivity|exact Ed].
    + exists (Some s). split; [reflexivity|]. split; [discriminate|].
      intros _. split; [reflexivity|]. right. split; [reflexivity|].
      now right.
  - cbn [fst snd]. exists (Some t). split; [reflexivity|].
    split; [discriminate|]. intros _. split; [exact I|]. right.
    split; [reflexivity|]. left. split; reflexivity.
Qed.

(** X11.  Once [check] has returned [True] it has left the detector as
    it was: its timer was running from some reading [s] and still is.  So
    without a reset the same check returns [True] again, and a later
    check on hands that are still lowered tests its reading against the
    same [s] (the dwell is not restarted); after the reset of line 120
    the next check returns [False]. *)
Theorem detection_repeats_until_reset (d : HandsDownDetector.t F)
    (hl : list F) (t : F) :
  fst (HandsDownDetector.check d hl t) = true ->
  HandsDownDetector.check d hl t = (true, d) /\
  (exists s,
     HandsDownDetector.hands_down_start d = Some s /\
     dwelt d s t = true /\
     forall hl' t',
       wrist_lowered d hl' = true ->
       HandsDownDetector.check (snd (HandsDownDetector.check d hl t)) hl' t'
       = (dwelt d s t', d)) /\
  (forall hl' t',
     fst (HandsDownDetector.check
            (HandsDownDetector.reset (snd (HandsDownDetector.check d hl t)))
            hl' t') = false).
Proof.
  intros Hfire.
  assert (E : HandsDownDetector.check d hl t = (true, d)).
  { revert Hfire. unfold HandsDownDetector.check.
    destruct (_ || _); [discriminate|].
    destruct (f_ltb _ _); [|discriminate].
    destruct (HandsDownDetector.hands_down_start d); [|discriminate].
    destruct (f_ltb _ _); [reflexivity|discriminate]. }
  split; [exact E|]. rewrite E. cbn [snd]. split.
  - destruct d as [thr dur start].
    destruct (check_cases {| HandsDownDetector.threshold_y := thr;
                             HandsDownDetector.duration_threshold := dur;
                             HandsDownDetector.hands_down_start := None |}
                          start hl t) as (start' & _ & H & _).
    cbv zeta in H.
    change (HandsDownDetector.set_hands_down_start _ start)
      with {| HandsDownDetector.threshold_y := thr;
              HandsDownDetector.duration_threshold := dur;
              HandsDownDetector.hands_down_start := start |} in H.
    destruct (H Hfire) as (_ & _ & s & -> & Hs).
    exists s. split; [reflexivity|]. split; [exact Hs|].
    intros hl' t' Hlow. unfold wrist_lowered in Hlow.
    apply andb_prop in Hlow. destruct Hlow as (Hlen & Hy).
    apply Nat.leb_le in Hlen. unfold HandsDownDetector.check.
    destruct hl' as [|x hl']; [cbn in Hlen; lia|].
    destruct (Nat.ltb_spec (length (x :: hl')) 3); [lia|].
    cbn [orb]. cbn [HandsDownDetector.threshold_y] in Hy |- *.
    rewrite Hy.
    cbn [HandsDownDetector.hands_down_start
         HandsDownDetector.duration_threshold].
    unfold dwelt. cbn [HandsDownDetector.duration_threshold].
    destruct (f_ltb dur (f_sub t' s)); reflexivity.
  - intros hl' t'. apply check_idle. reflexivity.
Qed.
End DetectorClock.

Section QuietStream.
Context {F : Type} {PF : PyFloat F} {C : Type} {CL : Classifier F C}.

Lemma for_frames_quiet (d : HandsDownDetector.t F) reqs locals
    (self : Servicer F C) (start : option F) :
  hands_down_detector self
  = HandsDownDetector.set_hands_down_start d start ->
  match start with
  | Some s => Forall (fun r => dwelt d s (snd r) = false) reqs
  | None => True
  end ->
  ForallOrdPairs (fun r r' => dwelt d (snd r) (snd r') = false) reqs ->
  events_of HANDS_DOWN (trace (for_frames reqs locals self)) = [].
Proof.
  revert locals self start.
  induction reqs as [|[frame t] reqs IH]; intros locals self start Hd Hs Hp;
    [reflexivity|].
  inversion Hp as [|? ? Hhead Htail]; subst.
  rewrite for_frames_cons. cbv zeta.
  pose proof (loop_body_hands_down frame t locals self) as H.
  cbv zeta in H. destruct H as (HE & HD). rewrite Hd in HE, HD.
  destruct (check_cases d start (hands frame) t) as (start' & E & Ht & Hf).
  cbv zeta in E, Ht, Hf. rewrite E in HD.
  assert (Hq : fst (HandsDownDetector.check
                      (HandsDownDetector.set_hands_down_start d start)
                      (hands frame) t) = false).
  { destruct (fst (HandsDownDetector.check _ _ _)); [|reflexivity].
    destruct (Ht eq_refl) as (_ & _ & s & -> & Hs').
    apply Forall_cons_iff in Hs. destruct Hs as (Hs & _).
    cbn [snd] in Hs. congruence. }
  rewrite Hq in HE. specialize (Hf Hq). destruct Hf as (_ & Hf).
  destruct (result (loop_body frame t locals self)) as [x|locals'];
    cbn [trace]; [exact HE|].
  rewrite events_of_app, HE. cbn [app].
  apply (IH locals' _ start' HD); [|exact Htail].
  destruct Hf as [->|(_ & [(-> & ->)| ->])]; [exact I|exact Hhead|].
  destruct start as [s|]; [|exact I].
  apply Forall_cons_iff in Hs. apply Hs.
Qed.

(** X12.  A call of [StreamLandmarks] in which the test of line 139 of
    landmark_buffer.py fails for every clock reading against every
    earlier reading of the call (the program finds no two readings of
    the call more than the duration threshold apart) yields no HANDS_DOWN
    event, whatever its frames hold and whether or not it ends in an
    error. *)
Theorem no_hands_down_event_within_the_duration_threshold reqs ctx
    (self : Servicer F C) :
  ForallOrdPairs
    (fun r r' => dwelt (hands_down_detector self) (snd r) (snd r') = false)
    reqs ->
  events_of HANDS_DOWN (actions (StreamLandmarks reqs ctx self)) = [].
Proof.
  intros Hp. rewrite StreamLandmarks_eq. cbv zeta.
  pose proof (for_frames_quiet (hands_down_detector self) reqs None
                (stream_start self) None eq_refl I Hp) as H.
  destruct (result (for_frames reqs None (stream_start self)));
    cbn [actions]; exact H.
Qed.
End QuietStream.

Lemma detection_repeats_until_reset_witness :
  HandsDownDetector.check MoreSamples.armed Sample.lowered (f_lit 16 10)
  = (true, MoreSamples.armed).
Proof.
  refine (proj1
    (@detection_repeats_until_reset spec_float binary64 MoreSamples.armed
       Sample.lowered (f_lit 16 10) _)).
  vm_compute. reflexivity.
Defined.

Lemma no_hands_down_event_within_the_duration_threshold_witness :
  events_of HANDS_DOWN
    (actions (StreamLandmarks (CL := Sample.hello) MoreSamples.one_second
                              no_context (__init__ tt))) = [].
Proof.
  refine (@no_hands_down_event_within_the_duration_threshold spec_float
            binary64 unit Sample.hello MoreSamples.one_second no_context
            (__init__ tt) _).
  repeat constructor.
Defined.

(** ** What a HANDS_DOWN event vouches for *)

Section DetectorSoundness.
Context {F : Type} {PF : PyFloat F} {C : Type} {CL : Classifier F C}.

(** An iteration that yields HANDS_DOWN ends a dwell that began at an
    earlier iteration of the run, or at the reading the timer was
    started with before the run. *)
Lemma frame_traces_dwell (d : HandsDownDetector.t F) reqs locals
    (self : Servicer F C) (start : option F) :
  hands_down_detector self
  = HandsDownDetector.set_hands_down_start d start ->
  let frames := frame_traces reqs locals self in
  let time := fun i => nth i (map snd reqs) (f_lit 0 1) in
  let hand := fun i => nth i (map (fun r => hands (fst r)) reqs) [] in
  forall j,
    events_of HANDS_DOWN (nth j frames []) <> [] ->
    (exists i,
       i < j /\
       dwelt d (time i) (time j) = true /\
       (forall k, i <= k < j ->
                  events_of HANDS_DOWN (nth k frames []) = []) /\
       (forall k, i <= k <= j -> wrist_lowered d (hand k) = true)) \/
    (exists s,
       start = Some s /\
       dwelt d s (time j) = true /\
       (forall k, k < j -> events_of HANDS_DOWN (nth k frames []) = []) /\
       (forall k, k <= j -> wrist_lowered d (hand k) = true)).
Proof.
  cbv zeta. revert locals self start.
  induction reqs as [|[frame t] reqs IH]; intros locals self start Hd j Hj.
  { destruct j; cbn in Hj; congruence. }
  cbn [frame_traces map fst snd] in *.
  pose proof (loop_body_hands_down frame t locals self) as H.
  cbv zeta in H. destruct H as (HE & HD). rewrite Hd in HE, HD.
  destruct (check_cases d start (hands frame) t) as (start' & E & Ht & Hf).
  cbv zeta in E, Ht, Hf. rewrite E in HD.
  destruct j as [|j]; cbn [nth] in Hj.
  - right. rewrite HE in Hj.
    destruct (fst (HandsDownDetector.check _ _ _)); [|congruence].
    destruct (Ht eq_refl) as (Hlow & _ & s & -> & Hs).
    exists s. split; [reflexivity|]. split; [exact Hs|].
    split; [intros k Hk; lia|].
    intros k Hk. replace k with 0 by lia. exact Hlow.
  - destruct (result (loop_body frame t locals self)) as [x|locals'].
    { destruct j; cbn in Hj; congruence. }
    destruct (IH locals' _ start' HD j Hj)
      as [(i & Hij & Hdw & Hq & Hl)|(s & -> & Hdw & Hq & Hl)].
    + left. exists (S i). split; [lia|]. split; [exact Hdw|]. split.
      * intros [|k] Hk; [lia|]. cbn [nth]. apply Hq. lia.
      * intros [|k] Hk; [lia|]. cbn [nth]. apply Hl. lia.
    + destruct (fst (HandsDownDetector.check _ _ _)) eqn:Hfire.
      { destruct (Ht eq_refl) as (_ & N & _). discriminate. }
      destruct (Hf eq_refl) as (_ & [N|(Hlow & [(-> & [= <-])| <-])]);
        [discriminate| |].
      * left. exists 0. split; [lia|]. split; [exact Hdw|]. split.
        -- intros [|k] Hk; cbn [nth]; [exact HE|]. apply Hq. lia.
        -- intros [|k] Hk; cbn [nth]; [exact Hlow|]. apply Hl. lia.
      * right. exists s. split; [reflexivity|]. split; [exact Hdw|]. split.
        -- intros [|k] Hk; cbn [nth]; [exact HE|]. apply Hq. lia.
        -- intros [|k] Hk; cbn [nth]; [exact Hlow|]. apply Hl. lia.
Qed.

(** X13.  Every HANDS_DOWN event of a call of [StreamLandmarks] ends a
    dwell within the call: the iteration [j] that yields it comes after
    an iteration [i] of the same call such that the program finds the
    clock reading of [j] more than the duration threshold after that of
    [i] (the test of line 139), every frame from [i] to [j] passes the
    two hand tests of [check] (three floats or more, wrist found above
    the threshold), and no iteration from [i] to the one before [j]
    yields a HANDS_DOWN event. *)
Theorem hands_down_event_ends_a_dwell reqs (self : Servicer F C) :
  let d := hands_down_detector self in
  let frames := stream_frames reqs self in
  let time := fun i => nth i (map snd reqs) (f_lit 0 1) in
  let hand := fun i => nth i (map (fun r => hands (fst r)) reqs) [] in
  forall j,
    events_of HANDS_DOWN (nth j frames []) <> [] ->
    exists i,
      i < j /\
      dwelt d (time i) (time j) = true /\
      (forall k, i <= k < j ->
                 events_of HANDS_DOWN (nth k frames []) = []) /\
      (forall k, i <= k <= j -> wrist_lowered d (hand k) = true).
Proof.
  cbv zeta. intros j Hj. unfold stream_frames in *.
  destruct (frame_traces_dwell (hands_down_detector self) reqs None
              (stream_start self) None eq_refl j Hj)
    as [H|(s & N & _)]; [exact H|discriminate].
Qed.
End DetectorSoundness.

Lemma hands_down_event_ends_a_dwell_witness :
  exists i,
    i < 16 /\
    dwelt (hands_down_detector (__init__ (C := unit) tt))
          (nth i (map snd (SampleState.lowered_for 16)) (f_lit 0 1))
          (nth 16 (map snd (SampleState.lowered_for 16)) (f_lit 0 1))
    = true.
Proof.
  destruct (@hands_down_event_ends_a_dwell spec_float binary64 unit
              Sample.hello (SampleState.lowered_for 16) (__init__ tt) 16)
    as (i & Hi & Hd & _).
  - vm_compute. discriminate.
  - exists i. split; [exact Hi|exact Hd].
Defined.

(** * LandmarkBuffer *)

Section BufferWindow.
Context {F : Type} {PF : PyFloat F}.
Implicit Types (b : LandmarkBuffer.t F) (x : LandmarkBuffer.Entry F)
               (xs : list (LandmarkBuffer.Entry F)).

Lemma tl_skipn {A : Type} (k : nat) (l : list A) :
  tl (skipn k l) = skipn (S k) l.
Proof.
  revert k. induction l as [|a l IH]; intros [|k]; try reflexivity.
  cbn [skipn]. rewrite IH. reflexivity.
Qed.

(** Appending to the bounded deque that holds the last [n] items of [l]
    gives the last [n] items of [l] with the new item. *)
Lemma deque_append_window (n : Z) (l : list (LandmarkBuffer.Entry F)) x :
  (0 <= n)%Z ->
  LandmarkBuffer.deque_append n (last_n (Z.to_nat n) l) x
  = last_n (Z.to_nat n) (l ++ [x]).
Proof.
  intros Hn. unfold LandmarkBuffer.deque_append, last_n.
  set (N := Z.to_nat n). set (k := length l - N).
  assert (Hk : k <= length l) by (unfold k; lia).
  assert (E : skipn k l ++ [x] = skipn k (l ++ [x])).
  { rewrite skipn_app. replace (k - length l) with 0 by lia. reflexivity. }
  rewrite E, length_skipn, !length_app. cbn [length].
  destruct (n <? Z.of_nat (length l + 1 - k))%Z eqn:T.
  - apply Z.ltb_lt in T. rewrite tl_skipn. f_equal. unfold k, N in *. lia.
  - apply Z.ltb_ge in T. f_equal. unfold k, N in *. lia.
Qed.

Lemma add_frames_snoc b xs x :
  add_frames b (xs ++ [x])
  = LandmarkBuffer.add_frame (add_frames b xs) (fst (fst x)) (snd (fst x))
                             (snd x).
Proof. unfold add_frames. rewrite fold_left_app. reflexivity. Qed.

Lemma add_frames_config b xs :
  LandmarkBuffer.max_glosses (add_frames b xs)
  = LandmarkBuffer.max_glosses b /\
  LandmarkBuffer.silence_threshold (add_frames b xs)
  = LandmarkBuffer.silence_threshold b.
Proof.
  induction xs as [|x xs IH] using rev_ind; [split; reflexivity|].
  rewrite add_frames_snoc. exact IH.
Qed.

Lemma add_frames_buffer b xs :
  (0 <= LandmarkBuffer.max_glosses b)%Z ->
  length (LandmarkBuffer.buffer b)
  <= Z.to_nat (LandmarkBuffer.max_glosses b) ->
  LandmarkBuffer.buffer (add_frames b xs)
  = last_n (Z.to_nat (LandmarkBuffer.max_glosses b))
           (LandmarkBuffer.buffer b ++ xs).
Proof.
  intros Hn Hb. induction xs as [|x xs IH] using rev_ind.
  - rewrite app_nil_r. symmetry. apply last_n_all. exact Hb.
  - rewrite add_frames_snoc. cbn [LandmarkBuffer.add_frame
                                  LandmarkBuffer.buffer].
    rewrite (proj1 (add_frames_config b xs)), IH.
    destruct x as [[fr g] ts]. cbn [fst snd].
    rewrite deque_append_window by exact Hn. now rewrite app_assoc.
Qed.

Lemma add_frames_last b xs :
  LandmarkBuffer.last_frame_time (add_frames b xs)
  = last (map (fun x => Some (snd x)) xs) (LandmarkBuffer.last_frame_time b)
  /\
  LandmarkBuffer.last_gloss (add_frames b xs)
  = last (map (fun x => Some (snd (fst x))) xs)
         (LandmarkBuffer.last_gloss b).
Proof.
  induction xs as [|x xs IH] using rev_ind; [split; reflexivity|].
  rewrite add_frames_snoc, !map_app. cbn [map]. rewrite !last_last.
  split; reflexivity.
Qed.

Lemma last_n_length {A : Type} (n : nat) (l : list A) :
  length (last_n n l) = Nat.min n (length l).
Proof. unfold last_n. rewrite length_skipn. lia. Qed.

(** [__init__] builds a buffer exactly for the values of [max_glosses]
    that [deque] accepts as [maxlen]. *)
Lemma init_accepts (n : Z) (threshold : F) :
  (0 <= n <= LandmarkBuffer.PY_SSIZE_T_MAX)%Z ->
  LandmarkBuffer.__init__ n threshold
  = inr {| LandmarkBuffer.max_glosses := n;
           LandmarkBuffer.silence_threshold := threshold;
           LandmarkBuffer.buffer := [];
           LandmarkBuffer.last_frame_time := None;
           LandmarkBuffer.last_gloss := None |}.
Proof.
  intros Hn. unfold LandmarkBuffer.__init__.
  destruct (n <? - LandmarkBuffer.PY_SSIZE_T_MAX - 1)%Z eqn:E1;
    [apply Z.ltb_lt in E1; lia|].
  destruct (LandmarkBuffer.PY_SSIZE_T_MAX <? n)%Z eqn:E2;
    [apply Z.ltb_lt in E2; lia|].
  destruct (n <? 0)%Z eqn:E; [apply Z.ltb_lt in E; lia|].
  reflexivity.
Qed.

Lemma init_rejects (n : Z) (threshold : F) :
  ((n < - LandmarkBuffer.PY_SSIZE_T_MAX - 1
    \/ LandmarkBuffer.PY_SSIZE_T_MAX < n)%Z ->
   exists msg,
     LandmarkBuffer.__init__ n threshold
     = inl (LandmarkBuffer.OverflowError msg)) /\
  ((- LandmarkBuffer.PY_SSIZE_T_MAX - 1 <= n < 0)%Z ->
   exists msg,
     LandmarkBuffer.__init__ n threshold
     = inl (LandmarkBuffer.ValueError msg)).
Proof.
  unfold LandmarkBuffer.__init__. split; intros Hn.
  - destruct (n <? - LandmarkBuffer.PY_SSIZE_T_MAX - 1)%Z eqn:E1;
      [cbn [orb]; eauto|].
    destruct (LandmarkBuffer.PY_SSIZE_T_MAX <? n)%Z eqn:E2;
      [cbn [orb]; eauto|].
    apply Z.ltb_ge in E1, E2. lia.
  - destruct (n <? - LandmarkBuffer.PY_SSIZE_T_MAX - 1)%Z eqn:E1;
      [apply Z.ltb_lt in E1; lia|].
    destruct (LandmarkBuffer.PY_SSIZE_T_MAX <? n)%Z eqn:E2;
      [apply Z.ltb_lt in E2; unfold LandmarkBuffer.PY_SSIZE_T_MAX in *; lia|].
    cbn [orb].
    destruct (n <? 0)%Z eqn:E; [eauto|apply Z.ltb_ge in E; lia].
Qed.

(** X14.  A [LandmarkBuffer] built with a [max_glosses = n] that [deque]
    accepts as [maxlen] (from 0 to [2^63 - 1] on 64-bit CPython) is a
    sliding window: after any run of [add_frame] calls [get_buffer]
    returns the last [n] entries added, in the order of the calls;
    [last_frame_time] and [last_gloss] are those of the last call, or
    [None] if there was none; [is_empty] holds exactly when [n] is 0 or
    nothing was added; and [clear] gives back the buffer as
    [__init__] built it. *)
Theorem landmark_buffer_is_a_sliding_window (n : Z) (threshold : F) xs :
  (0 <= n <= LandmarkBuffer.PY_SSIZE_T_MAX)%Z ->
  exists b0,
    LandmarkBuffer.__init__ n threshold = inr b0 /\
    let b := add_frames b0 xs in
    LandmarkBuffer.get_buffer b = last_n (Z.to_nat n) xs /\
    LandmarkBuffer.last_frame_time b
    = last (map (fun x => Some (snd x)) xs) None /\
    LandmarkBuffer.last_gloss b
    = last (map (fun x => Some (snd (fst x))) xs) None /\
    LandmarkBuffer.is_empty b = ((n =? 0)%Z || (length xs =? 0)) /\
    LandmarkBuffer.clear b = b0.
Proof.
  intros Hn. rewrite (init_accepts n threshold Hn).
  eexists. split; [reflexivity|]. cbv zeta.
  set (b0 := {| LandmarkBuffer.max_glosses := n;
                LandmarkBuffer.silence_threshold := threshold;
                LandmarkBuffer.buffer := [];
                LandmarkBuffer.last_frame_time := None;
                LandmarkBuffer.last_gloss := None |}).
  assert (B : LandmarkBuffer.buffer (add_frames b0 xs)
              = last_n (Z.to_nat n) xs).
  { rewrite add_frames_buffer; [reflexivity|apply Hn|cbn; lia]. }
  destruct (add_frames_last b0 xs) as (L1 & L2).
  destruct (add_frames_config b0 xs) as (C1 & C2).
  split; [exact B|]. split; [exact L1|]. split; [exact L2|]. split.
  - unfold LandmarkBuffer.is_empty. rewrite B, last_n_length.
    destruct (n =? 0)%Z eqn:E0.
    + apply Z.eqb_eq in E0. subst n. reflexivity.
    + apply Z.eqb_neq in E0. cbn [orb].
      destruct (length xs); [now rewrite Nat.min_0_r|].
      destruct (Z.to_nat n) eqn:En; [lia|reflexivity].
  - unfold LandmarkBuffer.clear. rewrite C1, C2. reflexivity.
Qed.

(** X15.  After any run of [add_frame] calls on a new buffer (built with
    a [max_glosses] that [deque] accepts as [maxlen]), [should_emit]
    depends on the entries only through their number and
    the last timestamp: it holds exactly when the time since that
    timestamp exceeds the silence threshold or at least [max_glosses]
    entries were added.  So once [max_glosses] entries were added it
    holds at every time and after every further [add_frame], and with
    [max_glosses = 0] it holds from the start. *)
Theorem should_emit_counts_adds_and_silence (n : Z) (threshold : F) xs
    (current_time : F) :
  (0 <= n <= LandmarkBuffer.PY_SSIZE_T_MAX)%Z ->
  exists b0,
    LandmarkBuffer.__init__ n threshold = inr b0 /\
    LandmarkBuffer.should_emit (add_frames b0 xs) current_time
    = (match last (map (fun x => Some (snd x)) xs) None with
       | Some last => f_ltb threshold (f_sub current_time last)
       | None => false
       end
       || (n <=? Z.of_nat (length xs))%Z) /\
    ((n <= Z.of_nat (length xs))%Z ->
     forall ys t,
       LandmarkBuffer.should_emit (add_frames b0 (xs ++ ys)) t = true).
Proof.
  intros Hn. rewrite (init_accepts n threshold Hn).
  eexists. split; [reflexivity|].
  set (b0 := {| LandmarkBuffer.max_glosses := n;
                LandmarkBuffer.silence_threshold := threshold;
                LandmarkBuffer.buffer := [];
                LandmarkBuffer.last_frame_time := None;
                LandmarkBuffer.last_gloss := None |}).
  assert (H : forall zs t,
            LandmarkBuffer.should_emit (add_frames b0 zs) t
            = (match last (map (fun x => Some (snd x)) zs) None with
               | Some last => f_ltb threshold (f_sub t last)
               | None => false
               end
               || (n <=? Z.of_nat (length zs))%Z)).
  { intros zs t. unfold LandmarkBuffer.should_emit.
    destruct (add_frames_last b0 zs) as (L1 & _).
    destruct (add_frames_config b0 zs) as (C1 & C2).
    rewrite L1, C1, C2, add_frames_buffer by (cbn; lia).
    cbn [LandmarkBuffer.max_glosses LandmarkBuffer.silence_threshold
         LandmarkBuffer.buffer LandmarkBuffer.last_frame_time b0 app].
    rewrite last_n_length.
    assert (T : (n <=? Z.of_nat (Nat.min (Z.to_nat n) (length zs)))%Z
                = (n <=? Z.of_nat (length zs))%Z).
    { destruct (n <=? Z.of_nat (length zs))%Z eqn:E1.
      - apply Z.leb_le in E1. apply Z.leb_le. lia.
      - apply Z.leb_gt in E1. apply Z.leb_gt. lia. }
    rewrite T.
    destruct (match last _ None with Some _ => _ | None => _ end);
      [reflexivity|].
    destruct (n <=? Z.of_nat (length zs))%Z; reflexivity. }
  split; [apply H|].
  intros Hfull ys t. rewrite H. apply orb_true_iff. right.
  apply Z.leb_le. rewrite length_app. lia.
Qed.
End BufferWindow.

Lemma landmark_buffer_is_a_sliding_window_witness :
  exists b0,
    LandmarkBuffer.__init__ 2 (f_lit 2 1) = inr b0 /\
    LandmarkBuffer.get_buffer (add_frames b0 MoreSamples.three_entries)
    = last_n 2 MoreSamples.three_entries.
Proof.
  destruct (@landmark_buffer_is_a_sliding_window spec_float 2
              (f_lit 2 1) MoreSamples.three_entries) as (b0 & E & B & _).
  - unfold LandmarkBuffer.PY_SSIZE_T_MAX. lia.
  - exists b0. split; [exact E|exact B].
Defined.

Lemma should_emit_counts_adds_and_silence_witness :
  exists b0,
    LandmarkBuffer.__init__ 2 (f_lit 2 1) = inr b0 /\
    LandmarkBuffer.should_emit (add_frames b0 MoreSamples.three_entries)
                               (f_lit 3 10)
    = true.
Proof.
  destruct (@should_emit_counts_adds_and_silence spec_float binary64 2
              (f_lit 2 1) MoreSamples.three_entries (f_lit 3 10))
    as (b0 & E & B & _).
  - unfold LandmarkBuffer.PY_SSIZE_T_MAX. lia.
  - exists b0. split; [exact E|]. rewrite B. vm_compute. reflexivity.
Defined.

(** * MockClassifier *)

Section MockAnswers.
Context {F : Type} {PF : PyFloat F}.
Implicit Types (m : MockClassifier.t F) (g : MockClassifier.Random F).

(** On the complete blocks of a hands sequence the validation loop of
    [classify_hands] is the density loop of [StreamLandmarks]. *)
Lemma valid_hand_loop_density (hl : list F) (range : list nat) :
  (forall i, In i range -> i < hand_blocks hl) ->
  MockClassifier.valid_hand_loop hl range = density_loop hl range.
Proof.
  induction range as [|i range IH]; intros Hr; [reflexivity|].
  cbn [MockClassifier.valid_hand_loop density_loop]. cbv zeta.
  assert (Hb : (length hl <? i * 63 + 63) = false).
  { apply Nat.ltb_ge. apply hand_blocks_bound. apply Hr. now left. }
  rewrite Hb, IH; [reflexivity|].
  intros j Hj. apply Hr. now right.
Qed.

Lemma random_draws g :
  exists k,
    MockClassifier.unit_draws (snd (MockClassifier.random g))
    = skipn k (MockClassifier.unit_draws g) /\
    (fst (MockClassifier.random g) = f_lit 0 1 \/
     In (fst (MockClassifier.random g)) (MockClassifier.unit_draws g)).
Proof.
  unfold MockClassifier.random.
  destruct (MockClassifier.unit_draws g) as [|x rest] eqn:E.
  - exists 0. cbn. rewrite E. auto.
  - exists 1. cbn. auto.
Qed.

Lemma choice_draws (options : list string) g :
  MockClassifier.unit_draws (snd (MockClassifier.choice options g))
  = MockClassifier.unit_draws g.
Proof.
  unfold MockClassifier.choice.
  destruct (MockClassifier.index_draws g); reflexivity.
Qed.

Lemma choice_in (options : list string) g :
  options <> [] -> In (fst (MockClassifier.choice options g)) options.
Proof.
  intros Hne. unfold MockClassifier.choice.
  assert (Hlen : 0 < length options).
  { destruct options; [congruence|cbn; lia]. }
  destruct (MockClassifier.index_draws g) as [|n rest]; cbn [fst].
  - apply nth_In. exact Hlen.
  - apply nth_In. apply Nat.mod_upper_bound. lia.
Qed.

Lemma sample_gloss_not_empty (s : string) :
  In s MockClassifier.SAMPLE_GLOSSES -> s <> EmptyString.
Proof.
  unfold MockClassifier.SAMPLE_GLOSSES. cbn [In].
  intros H. repeat (destruct H as [<-|H]; [discriminate|]). contradiction.
Qed.

Lemma classify_hands_none m frame :
  density_loop (hands frame) (seq 0 (hand_blocks (hands frame))) = false ->
  MockClassifier.classify_hands m frame = ((None, f_lit 0 1), m).
Proof.
  intros H. unfold MockClassifier.classify_hands.
  destruct (hands frame) as [|x hl] eqn:E; [reflexivity|].
  cbv zeta. fold (hand_blocks (x :: hl)).
  destruct (hand_blocks (x :: hl) =? 0); [reflexivity|].
  rewrite valid_hand_loop_density, H; [reflexivity|].
  intros i Hi. apply in_seq in Hi. lia.
Qed.

(** With a dense block the classifier answers with the label it
    remembers or with a sample gloss, remembers its answer, and takes
    the confidence from a draw that was still to come. *)
Lemma classify_hands_some m frame :
  density_loop (hands frame) (seq 0 (hand_blocks (hands frame))) = true ->
  exists (s : string) g,
    MockClassifier.classify_hands m frame
    = ((Some s,
        fst (MockClassifier.uniform (f_lit 90 100) (f_lit 99 100) g)),
       {| MockClassifier.last_gloss := Some s;
          MockClassifier.rng :=
            snd (MockClassifier.uniform (f_lit 90 100) (f_lit 99 100) g) |})
    /\ (MockClassifier.last_gloss m = Some s /\ s <> EmptyString \/
        In s MockClassifier.SAMPLE_GLOSSES)
    /\ exists k,
         MockClassifier.unit_draws g
         = skipn k (MockClassifier.unit_draws (MockClassifier.rng m)).
Proof.
  intros H. unfold MockClassifier.classify_hands.
  destruct (hands frame) as [|x hl] eqn:E; [discriminate|].
  cbv zeta. fold (hand_blocks (x :: hl)).
  destruct (hand_blocks (x :: hl) =? 0) eqn:E0.
  { apply Nat.eqb_eq in E0. rewrite E0 in H. discriminate. }
  rewrite valid_hand_loop_density, H;
    [|intros i Hi; apply in_seq in Hi; lia].
  cbn [negb].
  assert (Hsample : MockClassifier.SAMPLE_GLOSSES <> []) by discriminate.
  destruct (truthy (MockClassifier.last_gloss m)) eqn:T.
  - apply truthy_some in T. destruct T as (s0 & Es & Hs0).
    destruct (random_draws (MockClassifier.rng m)) as (k & Hk & _).
    destruct (MockClassifier.random (MockClassifier.rng m)) as [r g1].
    cbn [fst snd] in Hk.
    destruct (f_ltb r (f_lit 3 10)).
    + rewrite Es.
      destruct (MockClassifier.uniform _ _ g1) as [c g2] eqn:U.
      exists s0, g1. rewrite U. cbn [fst snd].
      split; [reflexivity|]. split; [left; split; auto|].
      exists k. exact Hk.
    + pose proof (choice_in MockClassifier.SAMPLE_GLOSSES g1 Hsample) as Hin.
      pose proof (choice_draws MockClassifier.SAMPLE_GLOSSES g1) as Hd.
      destruct (MockClassifier.choice MockClassifier.SAMPLE_GLOSSES g1)
        as [s g2].
      cbn [fst snd] in Hin, Hd.
      destruct (MockClassifier.uniform _ _ g2) as [c g3] eqn:U.
      exists s, g2. rewrite U. cbn [fst snd].
      split; [reflexivity|]. split; [right; exact Hin|].
      exists k. congruence.
  - pose proof (choice_in MockClassifier.SAMPLE_GLOSSES
                  (MockClassifier.rng m) Hsample) as Hin.
    pose proof (choice_draws MockClassifier.SAMPLE_GLOSSES
                  (MockClassifier.rng m)) as Hd.
    destruct (MockClassifier.choice MockClassifier.SAMPLE_GLOSSES
                (MockClassifier.rng m)) as [s g2].
    cbn [fst snd] in Hin, Hd.
    destruct (MockClassifier.uniform _ _ g2) as [c g3] eqn:U.
    exists s, g2. rewrite U. cbn [fst snd].
    split; [reflexivity|]. split; [right; exact Hin|].
    exists 0. exact Hd.
Qed.

(** X16.  [classify_hands] answers [(None, 0.0)], draws nothing and
    remembers nothing new exactly when the density loop of
    [StreamLandmarks] finds no complete hand block with 15 coordinates
    above 0.001 in magnitude; otherwise it answers with a non-empty
    label, which is the label it remembered or one of [SAMPLE_GLOSSES],
    and remembers that label.  So the hand classifier never answers
    [None] when [StreamLandmarks] calls it. *)
Theorem mock_hands_answer_iff_dense_block m frame :
  let r := MockClassifier.classify_hands m frame in
  (density_loop (hands frame) (seq 0 (hand_blocks (hands frame))) = false ->
   r = ((None, f_lit 0 1), m)) /\
  (density_loop (hands frame) (seq 0 (hand_blocks (hands frame))) = true ->
   exists s,
     fst (fst r) = Some s /\ s <> EmptyString /\
     MockClassifier.last_gloss (snd r) = Some s /\
     (MockClassifier.last_gloss m = Some s \/
      In s MockClassifier.SAMPLE_GLOSSES)) /\
  (has_valid_hand (hands frame) = true -> fst (fst r) <> None).
Proof.
  cbv zeta. split; [apply classify_hands_none|].
  assert (H : density_loop (hands frame)
                (seq 0 (hand_blocks (hands frame))) = true ->
              exists s,
                fst (fst (MockClassifier.classify_hands m frame)) = Some s /\
                s <> EmptyString /\
                MockClassifier.last_gloss
                  (snd (MockClassifier.classify_hands m frame)) = Some s /\
                (MockClassifier.last_gloss m = Some s \/
                 In s MockClassifier.SAMPLE_GLOSSES)).
  { intros D.
    destruct (classify_hands_some m frame D) as (s & g & E & Hs & _).
    exists s. rewrite E. cbn [fst snd MockClassifier.last_gloss].
    split; [reflexivity|]. split; [|split; [reflexivity|]].
    - destruct Hs as [(_ & Hs)|Hs]; [exact Hs|].
      apply sample_gloss_not_empty. exact Hs.
    - destruct Hs as [(Hs & _)|Hs]; auto. }
  split; [exact H|].
  intros V. unfold has_valid_hand in V. apply andb_true_iff in V.
  destruct V as (D & _). destruct (H D) as (s & E & _).
  rewrite E. discriminate.
Qed.

Lemma tone_tag_of (tone : string) :
  In tone MockClassifier.TONES ->
  (if String.prefix "/" tone then tone else String.append "/" tone)
  = String.append "/" tone.
Proof.
  unfold MockClassifier.TONES. cbn [In].
  intros H. repeat (destruct H as [<-|H]; [reflexivity|]). contradiction.
Qed.

(** X17.  [classify_face] answers [(None, 0.0)] and draws nothing
    exactly when the frame holds fewer than three face floats; otherwise
    its label is one of the four tones with a slash put in front (no
    tone of [TONES] starts with a slash, so the test of line 114 never
    keeps the tone as it is), and the label [classify_hands] remembers
    is left alone. *)
Theorem mock_face_answer_is_a_slash_tone m frame :
  let r := MockClassifier.classify_face m frame in
  (length (face frame) < 3 -> r = ((None, f_lit 0 1), m)) /\
  (3 <= length (face frame) ->
   exists tone,
     In tone MockClassifier.TONES /\
     fst (fst r) = Some (String.append "/" tone) /\
     In (String.append "/" tone) TONE_TAGS) /\
  MockClassifier.last_gloss (snd r) = MockClassifier.last_gloss m.
Proof.
  cbv zeta. unfold MockClassifier.classify_face.
  assert (Hcount : (match face frame with
                    | [] => 0
                    | _ => length (face frame) / 3
                    end) = length (face frame) / 3).
  { destruct (face frame); reflexivity. }
  rewrite Hcount.
  destruct (length (face frame) / 3 =? 0) eqn:E0.
  - apply Nat.eqb_eq in E0. split; [reflexivity|]. split; [|reflexivity].
    intros Hlen. exfalso.
    assert (3 / 3 <= length (face frame) / 3)
      by (apply Nat.Div0.div_le_mono; exact Hlen).
    change (3 / 3) with 1 in *. lia.
  - apply Nat.eqb_neq in E0.
    assert (Htones : MockClassifier.TONES <> []) by discriminate.
    pose proof (choice_in MockClassifier.TONES (MockClassifier.rng m)
                  Htones) as Hin.
    destruct (MockClassifier.choice MockClassifier.TONES
                (MockClassifier.rng m)) as [tone g1].
    cbn [fst] in Hin.
    destruct (MockClassifier.uniform _ _ g1) as [c g2].
    cbn [fst snd MockClassifier.last_gloss].
    split; [|split; [|reflexivity]].
    + intros Hlen. rewrite (Nat.div_small _ _ Hlen) in E0. congruence.
    + intros _. exists tone. split; [exact Hin|].
      rewrite (tone_tag_of tone Hin). split; [reflexivity|].
      unfold TONE_TAGS. apply in_map. exact Hin.
Qed.
End MockAnswers.

Lemma mock_hands_answer_iff_dense_block_witness :
  fst (fst (MockClassifier.classify_hands
              (MockClassifier.__init__ SampleState.draws)
              SampleState.open_a_frame)) <> None.
Proof.
  refine (proj2 (proj2
    (@mock_hands_answer_iff_dense_block spec_float binary64
       (MockClassifier.__init__ SampleState.draws)
       SampleState.open_a_frame)) _).
  vm_compute. reflexivity.
Defined.

Lemma mock_face_answer_is_a_slash_tone_witness :
  MockClassifier.classify_face (MockClassifier.__init__ SampleState.draws)
                               SampleState.open_a_frame
  = ((None, f_lit 0 1), MockClassifier.__init__ SampleState.draws).
Proof.
  refine (proj1
    (@mock_face_answer_is_a_slash_tone spec_float binary64
       (MockClassifier.__init__ SampleState.draws)
       SampleState.open_a_frame) _).
  vm_compute. lia.
Defined.

(** * The stream handler with the mock classifier *)

Section MockStream.
Context {F : Type} {PF : PyFloat F}.
Implicit Types (m : MockClassifier.t F)
               (self : Servicer F (MockClassifier.t F)).

Lemma classify_face_label m frame (s : string) (c : F) :
  fst (MockClassifier.classify_face m frame) = (Some s, c) ->
  In s TONE_TAGS.
Proof.
  unfold MockClassifier.classify_face.
  destruct (_ =? 0); [discriminate|].
  assert (Htones : MockClassifier.TONES <> []) by discriminate.
  pose proof (choice_in MockClassifier.TONES (MockClassifier.rng m) Htones)
    as Hin.
  destruct (MockClassifier.choice MockClassifier.TONES
              (MockClassifier.rng m)) as [tone g1].
  cbn [fst] in Hin.
  destruct (MockClassifier.uniform _ _ g1) as [c' g2]. cbn [fst].
  rewrite (tone_tag_of tone Hin). intros [= <- _].
  unfold TONE_TAGS. apply in_map. exact Hin.
Qed.

Lemma classify_face_memory m frame :
  MockClassifier.last_gloss (snd (MockClassifier.classify_face m frame))
  = MockClassifier.last_gloss m.
Proof.
  unfold MockClassifier.classify_face.
  destruct (_ =? 0); [reflexivity|].
  destruct (MockClassifier.choice _ _) as [tone g1].
  destruct (MockClassifier.uniform _ _ g1) as [c' g2]. reflexivity.
Qed.

Lemma classify_hands_samples m frame :
  remembers_sample m ->
  remembers_sample (snd (MockClassifier.classify_hands m frame)) /\
  sample_locals (Some (fst (MockClassifier.classify_hands m frame))).
Proof.
  intros Hm.
  destruct (density_loop (hands frame)
              (seq 0 (hand_blocks (hands frame)))) eqn:D.
  - destruct (classify_hands_some m frame D) as (s & g & E & Hs & _).
    rewrite E. unfold remembers_sample, sample_locals in *.
    cbn [fst snd MockClassifier.last_gloss].
    assert (In s MockClassifier.SAMPLE_GLOSSES).
    { destruct Hs as [(Hs & _)|Hs]; [|exact Hs].
      rewrite Hs in Hm. exact Hm. }
    split; assumption.
  - rewrite (classify_hands_none m frame D). split; [exact Hm|exact I].
Qed.

Lemma classify_step_samples frame hl hc locals self :
  sample_locals locals ->
  remembers_sample (classifier self) ->
  let o := classify_step frame hl hc locals self in
  remembers_sample (classifier (after o)) /\
  (forall l', result o = inr l' -> sample_locals l').
Proof.
  intros Hl Hm. cbv zeta. rewrite classify_step_eq.
  destruct (hc =? 0).
  { cbn [after result]. split; [exact Hm|]. intros l' [= <-]. exact Hl. }
  destruct (density_loop hl (seq 0 hc) && snd (span_loop hl (seq 0 hc))).
  - cbv zeta. destruct (hands_moved_of _ _ _).
    + cbn [after result classifier set_classifier].
      destruct (classify_hands_samples (classifier self) frame Hm)
        as (H1 & H2).
      split; [exact H1|]. intros l' [= <-]. exact H2.
    + cbn [after result classifier set_previous_hand_landmarks].
      split; [exact Hm|]. intros l' [= <-]. exact I.
  - cbn [after result classifier set_previous_hand_landmarks].
    split; [exact Hm|]. intros l' [= <-]. exact I.
Qed.

Lemma tone_step_samples frame self :
  remembers_sample (classifier self) ->
  remembers_sample (classifier (after (tone_step frame self))).
Proof.
  intros Hm. rewrite tone_step_eq.
  destruct (_last_gloss_yielded self); [|exact Hm].
  cbv zeta.
  assert (H : remembers_sample
                (snd (MockClassifier.classify_face (classifier self)
                        frame))).
  { unfold remembers_sample in *. now rewrite classify_face_memory. }
  destruct (_ && _ && _); exact H.
Qed.

Lemma loop_body_samples frame t locals self :
  sample_locals locals ->
  remembers_sample (classifier self) ->
  let o := loop_body frame t locals self in
  remembers_sample (classifier (after o)) /\
  (forall l', result o = inr l' -> sample_locals l') /\
  (forall e, In (Yield e) (trace o) -> sample_event e).
Proof.
  intros Hl Hm. cbv zeta.
  destruct (loop_body_struct frame t locals self) as (locals' & R2 & S).
  cbv zeta in S.
  pose proof (hands_down_step_frame (hands frame) t self) as F1.
  cbv zeta in F1. destruct F1 as (C1 & _).
  set (o1 := hands_down_step (hands frame) t self) in *.
  assert (Hm1 : remembers_sample (classifier (after o1)))
    by (rewrite C1; exact Hm).
  pose proof (classify_step_samples frame (hands frame)
                (hand_blocks (hands frame)) locals (after o1) Hl Hm1) as F2.
  cbv zeta in F2. destruct F2 as (Hm2 & Hl2).
  set (o2 := classify_step frame (hands frame)
               (hand_blocks (hands frame)) locals (after o1)) in *.
  specialize (Hl2 locals' R2).
  assert (H12 : forall e, In (Yield e) (trace o1 ++ trace o2) ->
                          sample_event e).
  { intros e He. apply in_app_or in He. destruct He as [He|He].
    - apply hands_down_step_actions in He. injection He as ->. exact I.
    - apply classify_step_actions in He. discriminate. }
  destruct S as [(_ & R & T & A)|(_ & R & _ & T & A)]; rewrite R, T, A.
  - split; [exact Hm2|]. split; [discriminate|exact H12].
  - pose proof (gloss_step_frame locals' (after o2)) as F3.
    cbv zeta in F3. destruct F3 as (C3 & _).
    set (o3 := gloss_step locals' (after o2)) in *.
    assert (Hm3 : remembers_sample (classifier (after o3)))
      by (rewrite C3; exact Hm2).
    split; [apply tone_step_samples; exact Hm3|].
    split; [intros l' [= <-]; exact Hl2|].
    intros e He. rewrite app_assoc in He. apply in_app_or in He.
    destruct He as [He|He]; [exact (H12 e He)|].
    apply in_app_or in He. destruct He as [He|He].
    + apply gloss_step_emission in He. destruct He as (Ty & El & _).
      unfold sample_event. rewrite Ty. rewrite El in Hl2. exact Hl2.
    + apply tone_step_emission in He.
      destruct He as (Ty & _ & Ef & _).
      unfold sample_event. rewrite Ty.
      exact (classify_face_label _ _ _ _ Ef).
Qed.

Lemma for_frames_samples reqs locals self :
  sample_locals locals ->
  remembers_sample (classifier self) ->
  let o := for_frames reqs locals self in
  remembers_sample (classifier (after o)) /\
  (forall e, In (Yield e) (trace o) -> sample_event e).
Proof.
  cbv zeta. revert locals self.
  induction reqs as [|[frame t] reqs IH]; intros locals self Hl Hm.
  - split; [exact Hm|]. intros e [].
  - rewrite for_frames_cons. cbv zeta.
    pose proof (loop_body_samples frame t locals self Hl Hm) as H.
    cbv zeta in H. destruct H as (Hm' & Hl' & He').
    destruct (result (loop_body frame t locals self)) as [x|locals'];
      cbn [trace after]; [split; assumption|].
    destruct (IH locals' (after (loop_body frame t locals self))
                (Hl' _ eq_refl) Hm') as (I1 & I2).
    split; [exact I1|].
    intros e He. apply in_app_or in He. destruct He as [He|He]; auto.
Qed.

(** X19.  Served by the repository's [MockClassifier], from a state in
    which the classifier remembers no label or one of [SAMPLE_GLOSSES]
    (as after [__init__]), every GLOSS event of a call of
    [StreamLandmarks] carries a label of [SAMPLE_GLOSSES] and every TONE
    event one of the four tones with a slash in front; and the
    classifier is in such a state again when the call ends. *)
Theorem mock_stream_labels_come_from_the_vocabularies reqs ctx self :
  remembers_sample (classifier self) ->
  let r := StreamLandmarks reqs ctx self in
  Forall sample_event (events (actions r)) /\
  remembers_sample (classifier (servicer r)).
Proof.
  intros Hm. cbv zeta. rewrite StreamLandmarks_eq. cbv zeta.
  pose proof (for_frames_samples reqs None (stream_start self) I Hm) as H.
  cbv zeta in H. destruct H as (H1 & H2).
  destruct (result (for_frames reqs None (stream_start self)));
    cbn [actions servicer]; (split; [apply events_forall; exact H2|exact H1]).
Qed.
End MockStream.

Lemma mock_stream_labels_come_from_the_vocabularies_witness :
  Forall sample_event
    (events (actions (StreamLandmarks
                        (SampleState.faces SampleState.hand_then_none)
                        no_context SampleState.mock_servicer))).
Proof.
  refine (proj1
    (@mock_stream_labels_come_from_the_vocabularies spec_float binary64
       (SampleState.faces SampleState.hand_then_none) no_context
       SampleState.mock_servicer _)).
  exact I.
Defined.

(** * The legacy entry points of MockClassifier *)

Section MockLegacy.
Context {F : Type} {PF : PyFloat F}.
Implicit Types (m : MockClassifier.t F).

Lemma tone_tag_cases (s : string) :
  In s TONE_TAGS ->
  String.prefix "/" s = true /\
  String.eqb s "question" = false /\
  String.eqb s "exclamation" = false.
Proof.
  unfold TONE_TAGS, MockClassifier.TONES. cbn [map In].
  intros H.
  repeat (destruct H as [<-|H]; [repeat split|]). contradiction.
Qed.

Lemma mock_hands_cases m frame :
  let gloss := fst (fst (MockClassifier.classify_hands m frame)) in
  (density_loop (hands frame) (seq 0 (hand_blocks (hands frame))) = false ->
   gloss = None) /\
  (density_loop (hands frame) (seq 0 (hand_blocks (hands frame))) = true ->
   exists s, gloss = Some s /\ s <> EmptyString).
Proof.
  cbv zeta. split; intros D.
  - rewrite (classify_hands_none m frame D). reflexivity.
  - destruct (classify_hands_some m frame D) as (s & g & E & Hs & _).
    exists s. rewrite E. split; [reflexivity|].
    destruct Hs as [(_ & Hs)|Hs]; [exact Hs|].
    apply sample_gloss_not_empty. exact Hs.
Qed.

(** The tone [classify] works with: the label of [classify_face], or
    "neutral" when there is none. *)
Lemma face_tone_cases m frame :
  let tone := fst (fst (MockClassifier.classify_face m frame)) in
  truthy tone = true /\ (exists s, tone = Some s /\ In s TONE_TAGS) \/
  truthy tone = false /\ tone = None.
Proof.
  cbv zeta.
  destruct (MockClassifier.classify_face m frame) as [[tone c] m'] eqn:E.
  cbn [fst]. destruct tone as [s|]; [left|right; split; reflexivity].
  assert (Hin : In s TONE_TAGS).
  { apply (classify_face_label m frame s c). rewrite E. reflexivity. }
  split; [|exists s; auto].
  destruct (tone_tag_cases s Hin) as (Hp & _).
  destruct s; [discriminate|reflexivity].
Qed.

(** X20.  [classify] on an empty list answers [([], "neutral")], with
    a tone that has no slash; on a non-empty list it looks at the first
    frame only, its dominant tone is one of the four tones with a slash
    in front ("/neutral" when the frame holds no face), and it returns
    no gloss when the first frame has no dense hand block and otherwise
    exactly one, whose tone is the dominant tone if the frame holds a
    face and "neutral", without the slash, if it does not. *)
Theorem legacy_classify_answers_for_the_first_frame m frame rest :
  let r := MockClassifier.classify m (frame :: rest) in
  let tone := fst (fst (MockClassifier.classify_face
                          (snd (MockClassifier.classify_hands m frame))
                          frame)) in
  MockClassifier.classify m [] = (([], "neutral"%string), m) /\
  r = MockClassifier.classify m [frame] /\
  In (snd (fst r)) TONE_TAGS /\
  (tone = None -> snd (fst r) = "/neutral"%string) /\
  (forall s, tone = Some s -> snd (fst r) = s) /\
  (density_loop (hands frame) (seq 0 (hand_blocks (hands frame))) = false ->
   fst (fst r) = []) /\
  (density_loop (hands frame) (seq 0 (hand_blocks (hands frame))) = true ->
   exists s c,
     fst (MockClassifier.classify_hands m frame) = (Some s, c) /\
     fst (fst r)
     = [(s, c, match tone with Some tag => tag | None => "neutral"%string
               end)]).
Proof.
  cbv zeta. split; [reflexivity|]. split; [reflexivity|].
  unfold MockClassifier.classify.
  pose proof (mock_hands_cases m frame) as Hh.
  destruct (MockClassifier.classify_hands m frame) as [[gloss gc] m1].
  cbn [fst snd] in *.
  pose proof (face_tone_cases m1 frame) as Hf. cbv zeta in Hf.
  destruct (MockClassifier.classify_face m1 frame) as [[tone tc] m2].
  cbn [fst snd] in *.
  destruct Hf as [(Tt & s & -> & Hin)|(Tt & ->)]; rewrite Tt.
  - destruct (tone_tag_cases s Hin) as (Hp & _). rewrite Hp.
    cbn [fst snd].
    split; [exact Hin|]. split; [discriminate|].
    split; [intros s' [= <-]; reflexivity|].
    destruct Hh as (Hn & Hs). split.
    + intros D. rewrite (Hn D). reflexivity.
    + intros D. destruct (Hs D) as (g & -> & Hg).
      exists g, gc. split; [reflexivity|].
      destruct g; [congruence|reflexivity].
  - cbn [fst snd String.prefix].
    split; [unfold TONE_TAGS; cbn; auto|]. split; [reflexivity|].
    split; [discriminate|].
    destruct Hh as (Hn & Hs). split.
    + intros D. rewrite (Hn D). reflexivity.
    + intros D. destruct (Hs D) as (g & -> & Hg).
      exists g, gc. split; [reflexivity|].
      destruct g; [congruence|reflexivity].
Qed.

(** X21.  [build_sentence] applied to the glosses [classify] returns
    never ends in a question or exclamation mark: the tones [classify]
    attaches are "neutral" or start with a slash, and [build_sentence]
    compares with "question" and "exclamation".  The sentence is empty
    when [classify] returns no gloss and the label followed by a full
    stop when it returns one. *)
Theorem legacy_sentence_ends_with_a_full_stop m frames :
  let glosses := fst (fst (MockClassifier.classify m frames)) in
  MockClassifier.build_sentence glosses
  = match glosses with
    | [] => EmptyString
    | gloss :: _ => String.append (fst (fst gloss)) "."
    end /\
  length glosses <= 1.
Proof.
  cbv zeta. destruct frames as [|frame rest]; [split; [reflexivity|cbn; lia]|].
  unfold MockClassifier.classify.
  destruct (MockClassifier.classify_hands m frame) as [[gloss gc] m1].
  pose proof (face_tone_cases m1 frame) as Hf. cbv zeta in Hf.
  destruct (MockClassifier.classify_face m1 frame) as [[tone tc] m2].
  cbn [fst snd] in *.
  destruct (truthy gloss); [|split; [reflexivity|cbn; lia]].
  cbn [fst snd]. split; [|cbn; lia].
  unfold MockClassifier.build_sentence. cbn [map fst snd String.concat].
  destruct Hf as [(Tt & s & -> & Hin)|(Tt & ->)]; rewrite Tt.
  - destruct (tone_tag_cases s Hin) as (_ & Hq & He). rewrite Hq, He.
    reflexivity.
  - reflexivity.
Qed.
End MockLegacy.

Lemma legacy_classify_answers_for_the_first_frame_witness :
  snd (fst (MockClassifier.classify
              (MockClassifier.__init__ SampleState.draws)
              [SampleState.open_a_frame; SampleState.ghost_frame]))
  = "/neutral"%string.
Proof.
  refine (proj1 (proj2 (proj2 (proj2
    (@legacy_classify_answers_for_the_first_frame spec_float binary64
       (MockClassifier.__init__ SampleState.draws)
       SampleState.open_a_frame [SampleState.ghost_frame])))) _).
  vm_compute. reflexivity.
Defined.
